(* ===== verification/_CoqProject ===== *)
-Q . S2P
Prelude.v
ObjectId.v
Model.v
Store.v
Regex.v
Repository.v
Service.v
Strconv.v
Response.v
Handler.v
Body.v
Guarantee.v
Envelope.v
System.v
Abstract.v
Server.v
Middleware.v
Lifecycle.v
Simulation.v
Scenario.v
Concurrency.v
Witness.v
