(* ===== verification/Prelude.v ===== *)
(** * A verification development for todolist-fiber-mongo

    The program is a REST service in Go: a fiber application
    (src/main.go) with four middlewares ([cors], [logger], [recover],
    [limiter]) and six routes under [/api/v1/todos] plus [/health]; each
    route calls a method of [handlers.todoHandler]
    (src/handlers/todo_handler.go), which parses the request, calls
    [services.todoService] (src/services/todo_service.go) once and maps
    the outcome to a status code by comparing error texts; the service
    parses ids, validates, merges updates and calls
    [repositories.todoRepository] (src/repositories/todo_repository.go),
    which issues MongoDB commands on the ["todos"] collection.  Answers
    are wrapped by src/utils/response.go.  Data: [models.Todo]
    (src/models/todo.go) and the request DTOs (src/dtos/).

    ** Files, in dependency order

    - [Prelude] (this file): Go's [(T, error)] as [result]; the
      state-and-panic monad [st] with its laws; Go's 64-bit [int]
      arithmetic ([wrap64], [add64], [sub64], [mul64], [quot64]); ASCII
      strings; the hint databases [todo] and [todo_run].
    - [ObjectId]: [primitive.ObjectID] as a 96-bit [Z]; [encoding/hex] and
      [ObjectIDFromHex]; [NewObjectID] (timestamp, process bytes, 24-bit
      counter).  Library code the sources call, modelled after its source.
    - [Model]: [Todo], [bson_time] (the store keeps milliseconds), the
      DTOs, and the [World] every computation runs on: the collection, the
      wall clock, the clock advances and store failures to come (streams
      chosen by the environment), and the ObjectID generator.  [M] is
      [st World].
    - [Store]: the server side of the commands the repository sends
      (filter, [createdAt] sort, skip, limit, FindOne, InsertOne with the
      unique [_id] index, FindOneAndUpdate, DeleteOne, CountDocuments) and
      the [RegexEngine] interface for [$regex] with option ["i"].
    - [Regex]: an executable [RegexEngine] ([. * ^ $]) proving its law.
    - [Repository]: the class [TodoRepository] (the Go interface) and its
      instance [mongoRepository]; Module [TodoRepo] has one definition per
      method; Section [Spec] gives each method in closed form.
    - [Service]: the validator's [StructPartial]; the class [TodoService]
      and instance [todoService]; Module [TodoSvc] (toggle split into
      [toggle_read] and [toggle_write]); closed forms over
      [mongoRepository]; the list page theorem; 64-bit offsets.
    - [Strconv]: [strconv.Atoi] (with its unchecked fast path), [ParseInt],
      [ParseBool], and [Atoi]'s agreement with a reference reading.
    - [Response]: [APIResponse], [SendSuccessResponse], [SendErrorResponse].
    - [Handler]: [c.Query]; Module [TodoHandler] over any [TodoService];
      each handler's behaviour, the findings on its status mapping, and
      [totalPages] in 64 bits.
    - [Body]: [c.BodyParser] into the DTOs, by [encoding/json]'s rules,
      and [json.Marshal] of the DTOs (their [omitempty] tags).
    - [Guarantee]: what a computation guarantees about the world it
      leaves; the interfaces [RepoGuarantees] and [SvcGuarantees]; the
      service and every handler inherit a repository's guarantee.
    - [Envelope]: [answers P m] (every value a computation returns
      satisfies [P]); the status codes and [meta] blocks the handlers
      can answer, for any [TodoService].
    - [System]: the invariant [wf] and [mongoRepository]'s guarantee of it.
    - [Abstract]: the collection as a finite map ([abs]: [gmap] from
      [_id] to document), an abstract specification of each repository
      method, the contract [RepoContract] (a class over any
      [TodoRepository]), [mongoRepository]'s refinement of it, and the
      service's toggle, update, delete and list proved against the
      contract alone.
    - [Server]: main.go: the router, [recover], the limiter, [serve], the
      step relation and reachability; every reachable state satisfies [wf];
      the limiter's window.
    - [Middleware]: the front of the chain in main.go's order: [cors]
      (preflights answered with 204, [Access-Control-Allow-Origin] on
      other answers) and [logger] (one access-log entry per request it
      sees), after fiber v2's defaults; [handle_all] runs a sequence.
    - [Lifecycle]: main.go's [main] and config/database.go: [ConnectDB],
      the deferred [CloseDB], the wiring of repository and service,
      [Listen] serving until the shutdown signal; [log.Fatalf] is an exit
      that skips deferred calls.
    - [Simulation]: the abstract CRUD machine [abs_step] on the map of
      tasks; every handler, and so every server step, makes at most one
      move of it (proved against [RepoContract], then instantiated with
      [mongoRepository] for the app of main.go).
    - [Scenario]: closed runs of the server on request sequences, kept as
      executable examples (regression runs), not as theorems.
    - [Concurrency]: toggle and update threads (a service method split
      into its store round trips), schedules, the lost update and the
      update of a task deleted concurrently.
    - [Witness]: every theorem with hypotheses applied at a concrete input.

    ** Theorems

    - Invariant: [Server.reachable_wf] — unique ids, valid ids,
      [createdAt <= updatedAt <= clock], aligned timestamps, in every
      reachable state, panicking requests included (via [Guarantee]).
    - Refinement: [Abstract.mongoRepository_refines] — each repository
      method does on the map of tasks what its specification says, or
      fails without effect when the store fails; the service's methods,
      proved against that contract, hold for any conforming repository.
    - Middleware: preflights leave no trace in the answers, the log or
      the state; the access log has one entry per regular request.
    - Lifecycle: the exit status is 0 exactly when connect, ping, listen
      and disconnect succeed; after the signal the process answers every
      request, disconnects and exits; a failed [Listen] skips [CloseDB].
    - Envelope: each route answers only with the codes of the
      specification's table; only the list carries [meta].
    - Simulation: [Simulation.app_step_abs] — every step of the app
      over [mongoRepository] is one move of the abstract machine (none,
      a create under an unused id, a rewrite keeping [createdAt], a
      delete).
    - Functional behaviour of each handler on a quiet store: update,
      toggle (and toggling twice: negated, then restored), create,
      delete, get; the list page of the service, and paging through
      pages [1 .. n], which yields the whole listing in order.
    - Round trip: the id of a created task names it in the next request,
      and deleting it restores the collection.
    - Decoding: [Body.body_decoding] — [c.BodyParser] on a JSON object
      agrees with a field-by-field reading by the API's field names.
    - Errors and departures from the specification: the list needs a
      [complete] parameter and ignores its value; an update needs a title
      and resets [complete]; deleting an absent or malformed id is 500; an
      untitled task is stored; a failed [Find] panics into a 500; an
      update body that does not parse is answered 200; a store failure in
      the update's lookup is answered 404 (an update body that does not
      decode: [Server.update_bad_body_200], for any service).
    - Integers at 64 bits: [totalPages] is the ceiling while it fits and
      overflows for a huge [pageSize]; the list offset wraps.
    - Concurrency: two interleaved toggles both succeed and flip once;
      an update whose task is deleted between its lookup and its write
      reports success with no task; under any schedule giving each of two
      toggle threads two moves, both finish (termination, by the measure
      [pending]).
    - The limiter: a fixed window of 25 seconds and 100 requests per
      client, the count starting again at the window's end.

    ** Environment, bounds and fuel

    No definition uses fuel: every recursion is structural (on the
    pattern, the input string, the list of documents or of requests).  The
    clock advances and store failures are streams of the world; an empty
    stream means no advance and no failure, and theorems over a "quiet"
    world assume [faults w = []] only.  Integers are kept at Go's widths:
    [int] and [int64] wrap at 64 bits, the ObjectID counter at 32 bits and
    its id field at 24 bits, the limiter counts in seconds.

    ** Not modelled

    request headers other than [Origin] and
    [Access-Control-Request-Method]; [HEAD], and [OPTIONS] requests that
    are not CORS preflights; the time and latency fields of the access
    log; form-encoded bodies and JSON
    encoding of answers; PCRE beyond [. * ^ $] and invalid patterns;
    context deadlines (ConnectDB's 10-second timeout is part of the
    environment's Connect outcome); runs that never receive a signal, and
    requests served concurrently with the shutdown.  The empty
    [TodoHandler] interface (which keeps main.go from compiling) is
    modelled as the wiring main.go intends.  Concurrency is modelled for
    the steps of the toggle and of the update only. *)

From stdpp Require Export base list strings sorting sets gmap.
From Stdlib Require Export ZArith Lia.

(** ** Shared notation, results, the execution monad, 64-bit integers and
    ASCII strings.

    This file holds what every component shares: the scope [todo_scope],
    Go's [(value, error)] results as [result], the state-and-panic monad in
    which every handler, service and repository method runs, Go's [int] and
    [int64] arithmetic at 64 bits, and the ASCII string functions used by the
    filters and the error-message dispatch. *)

Declare Scope todo_scope.
Delimit Scope todo_scope with todo.
Open Scope string_scope.

(** *** Go results: [(T, error)] *)

(** A Go function returning [(T, error)] either succeeds with a value or
    fails with an error whose [Error()] text is [msg]; the handlers dispatch
    on that text, so it is kept as a string. *)
Inductive result (A : Type) : Type :=
  | Ok (a : A)
  | Err (msg : string).
Arguments Ok {A} a.
Arguments Err {A} msg.

Definition is_ok {A} (r : result A) : bool :=
  match r with Ok _ => true | Err _ => false end.

(** The value of a successful result, forgetting the error text. *)
Definition ok_value {A} (r : result A) : option A :=
  match r with Ok a => Some a | Err _ => None end.

(** *** The execution monad: state passing with Go panics *)

(** A computation runs on a state [S] and either finishes with a value or
    panics; a panic unwinds to the HTTP server's recover middleware. *)
Inductive outcome (A : Type) : Type :=
  | Done (a : A)
  | Panicked (msg : string).
Arguments Done {A} a.
Arguments Panicked {A} msg.

Definition st (S A : Type) : Type := S -> outcome A * S.

#[export] Instance st_ret {S} : MRet (st S) := fun A a s => (Done a, s).
#[export] Instance st_bind {S} : MBind (st S) :=
  fun A B k m s =>
    match m s with
    | (Done a, s') => k a s'
    | (Panicked p, s') => (Panicked p, s')
    end.

Definition panic {S A} (msg : string) : st S A := fun s => (Panicked msg, s).
Definition get_state {S} : st S S := fun s => (Done s, s).
Definition put_state {S} (s : S) : st S unit := fun _ => (Done tt, s).

(** [runs m s v s'] : running [m] from [s] finishes with [v] in state [s']. *)
Definition runs {S A} (m : st S A) (s : S) (v : A) (s' : S) : Prop :=
  m s = (Done v, s').

Section MonadLaws.
Context {S A B C : Type}.

Lemma bind_ret_l (a : A) (k : A -> st S B) (s : S) :
  (x ← mret a; k x) s = k a s.
Proof. reflexivity. Qed.

Lemma bind_ret_r (m : st S A) (s : S) : (x ← m; mret x) s = m s.
Proof. cbv. destruct (m s) as [[] ?]; reflexivity. Qed.

Lemma bind_assoc (m : st S A) (k1 : A -> st S B) (k2 : B -> st S C) (s : S) :
  (y ← (x ← m; k1 x); k2 y) s = (x ← m; y ← k1 x; k2 y) s.
Proof. cbv. destruct (m s) as [[] ?]; reflexivity. Qed.

(** Running a bind whose first computation finishes. *)
Lemma bind_runs (m : st S A) (k : A -> st S B) (s s' : S) (a : A) :
  m s = (Done a, s') -> (x ← m; k x) s = k a s'.
Proof. intros H. cbv [mbind st_bind]. now rewrite H. Qed.

Lemma bind_panics (m : st S A) (k : A -> st S B) (s s' : S) p :
  m s = (Panicked p, s') -> (x ← m; k x) s = (Panicked p, s').
Proof. intros H. cbv [mbind st_bind]. now rewrite H. Qed.
End MonadLaws.

(** *** Go's 64-bit integers *)

Open Scope Z_scope.

Definition int64_min : Z := - 2 ^ 63.
Definition int64_max : Z := 2 ^ 63 - 1.

(** Two's-complement wrap-around of Go's [int] / [int64] (64 bits). *)
Definition wrap64 (z : Z) : Z := (z + 2 ^ 63) mod 2 ^ 64 - 2 ^ 63.

Definition in_int64 (z : Z) : Prop := int64_min <= z <= int64_max.

#[export] Instance in_int64_dec z : Decision (in_int64 z).
Proof. unfold in_int64. apply _. Defined.

(** Go's [+], [-], [*] on [int64], and [/], which truncates toward zero. *)
Definition add64 (a b : Z) : Z := wrap64 (a + b).
Definition sub64 (a b : Z) : Z := wrap64 (a - b).
Definition mul64 (a b : Z) : Z := wrap64 (a * b).
Definition quot64 (a b : Z) : Z := wrap64 (Z.quot a b).

Lemma wrap64_range z : in_int64 (wrap64 z).
Proof.
  unfold in_int64, wrap64, int64_min, int64_max.
  pose proof (Z.mod_pos_bound (z + 2 ^ 63) (2 ^ 64) ltac:(lia)). lia.
Qed.

Lemma wrap64_id z : in_int64 z -> wrap64 z = z.
Proof.
  unfold in_int64, wrap64, int64_min, int64_max. intros H.
  rewrite Z.mod_small by lia. lia.
Qed.

(** Wrapping only depends on the value modulo [2^64]. *)
Lemma wrap64_add_mod z k : wrap64 (z + k * 2 ^ 64) = wrap64 z.
Proof.
  unfold wrap64. f_equal.
  replace (z + k * 2 ^ 64 + 2 ^ 63) with (z + 2 ^ 63 + k * 2 ^ 64) by lia.
  now rewrite Z.mod_add by lia.
Qed.

(** The exact value is kept when the mathematical result fits. *)
Lemma add64_exact a b : in_int64 (a + b) -> add64 a b = a + b.
Proof. apply wrap64_id. Qed.

Lemma mul64_exact a b : in_int64 (a * b) -> mul64 a b = a * b.
Proof. apply wrap64_id. Qed.

Lemma sub64_exact a b : in_int64 (a - b) -> sub64 a b = a - b.
Proof. apply wrap64_id. Qed.

Lemma quot64_exact a b : in_int64 (Z.quot a b) -> quot64 a b = Z.quot a b.
Proof. apply wrap64_id. Qed.

(** Packing a field below another with [<<] and [|], as byte-array
    encodings do, adds the two when the low field fits its width. *)
Lemma testbit_small_high b n i : 0 <= b < 2 ^ n -> n <= i -> Z.testbit b i = false.
Proof.
  intros Hb Hi. destruct (Z.eq_dec b 0) as [->|Hb0]; [apply Z.bits_0|].
  apply Z.bits_above_log2; [lia|].
  assert (0 <= n) by (destruct (Z.neg_nonneg_cases n); [rewrite Z.pow_neg_r in Hb; lia|lia]).
  pose proof (proj1 (Z.log2_lt_pow2 b n ltac:(lia)) (proj2 Hb)); lia.
Qed.

Lemma lor_shiftl_small x n b :
  0 <= n -> 0 <= b < 2 ^ n -> Z.lor (Z.shiftl x n) b = x * 2 ^ n + b.
Proof.
  intros Hn Hb. rewrite Z.shiftl_mul_pow2 by lia.
  rewrite <- Z.lxor_lor, <- Z.add_nocarry_lxor; [reflexivity| |];
  apply Z.bits_inj'; intros i Hi; rewrite Z.land_spec, Z.bits_0;
  (destruct (Z.lt_ge_cases i n) as [Hlt|Hge];
   [rewrite Z.mul_pow2_bits_low by lia; reflexivity
   |rewrite (testbit_small_high b n i) by lia; apply Bool.andb_false_r]).
Qed.

Close Scope Z_scope.

(** *** ASCII strings *)

(** ASCII lower-casing, as a case-insensitive comparison sees characters. *)
Definition ascii_lower (c : Ascii.ascii) : Ascii.ascii :=
  let n := Ascii.nat_of_ascii c in
  if decide (65 <= n <= 90)%nat then Ascii.ascii_of_nat (n + 32) else c.

Fixpoint string_lower (s : string) : string :=
  match s with
  | EmptyString => EmptyString
  | String c s' => String (ascii_lower c) (string_lower s')
  end.

Fixpoint is_prefix (p s : string) : bool :=
  match p, s with
  | EmptyString, _ => true
  | String c p', String d s' => bool_decide (c = d) && is_prefix p' s'
  | String _ _, EmptyString => false
  end.

(** [contains p s]: [p] occurs in [s] as a contiguous substring. *)
Fixpoint contains (p s : string) : bool :=
  is_prefix p s ||
  match s with
  | EmptyString => false
  | String _ s' => contains p s'
  end.

(** stdpp makes [String.append] opaque to [simpl]; these are its equations. *)
Lemma string_app_nil_l s : (EmptyString ++ s)%string = s.
Proof. reflexivity. Qed.

Lemma string_app_cons c s t : (String c s ++ t)%string = String c (s ++ t).
Proof. reflexivity. Qed.

Lemma string_app_nil_r s : (s ++ EmptyString)%string = s.
Proof. induction s as [|c s IH]; [done|by rewrite string_app_cons, IH]. Qed.

Lemma string_length_app s t :
  String.length (s ++ t) = (String.length s + String.length t)%nat.
Proof. induction s as [|c s IH]; [done|]. rewrite string_app_cons. simpl. by rewrite IH. Qed.

Lemma is_prefix_app p s : is_prefix p (p ++ s) = true.
Proof.
  induction p as [|c p IH]; rewrite ?string_app_cons; cbn [is_prefix]; [done|].
  rewrite bool_decide_eq_true_2 by done. exact IH.
Qed.

Lemma is_prefix_spec p s : is_prefix p s = true <-> exists r, s = (p ++ r)%string.
Proof.
  revert s. induction p as [|c p IH]; intros s; cbn [is_prefix].
  - split; [eauto|done].
  - destruct s as [|d s]; [split; [done|intros [r ?]; discriminate]|].
    rewrite andb_true_iff, bool_decide_eq_true, IH. split.
    + intros [-> [r ->]]. eauto.
    + intros [r Hr]. rewrite string_app_cons in Hr. injection Hr as -> ->. eauto.
Qed.

Lemma contains_spec p s :
  contains p s = true <-> exists l r, s = (l ++ p ++ r)%string.
Proof.
  induction s as [|c s IH]; cbn [contains].
  - rewrite orb_false_r, is_prefix_spec. split.
    + intros [r Hr]. exists EmptyString, r. done.
    + intros [[|??] [r Hr]]; [eauto|discriminate].
  - rewrite orb_true_iff, is_prefix_spec, IH. split.
    + intros [[r Hr]|[l [r Hr]]].
      * exists EmptyString, r. done.
      * exists (String c l), r. by rewrite Hr.
    + intros [[|d l] [r Hr]]; [left; eauto|right].
      rewrite string_app_cons in Hr. injection Hr as -> ->. eauto.
Qed.

(** Two strings differ when the first does not start with a prefix of
    the second; used to decide the handlers' message comparisons. *)
Lemma string_app_neq a b c : is_prefix a c = false -> (a ++ b)%string <> c.
Proof. intros Hp <-. by rewrite is_prefix_app in Hp. Qed.

Lemma contains_refl s : contains s s = true.
Proof. apply contains_spec. exists EmptyString, EmptyString. by rewrite string_app_nil_r. Qed.

(** *** Automation *)

Create HintDb todo discriminated.
Create Rewrite HintDb todo_run.
#[export] Hint Resolve wrap64_range contains_refl is_prefix_app : todo.
#[export] Hint Rewrite @bind_ret_l string_app_cons string_app_nil_l : todo_run.

(** Unfold the monad on a concrete run and split on the matches it exposes. *)
Ltac run_simpl :=
  cbv [mbind st_bind mret st_ret panic get_state put_state] in *.
