(* ===== verification/ObjectId.v ===== *)
(** * ObjectId: Mongo's [primitive.ObjectID], its hex form and its generation

    The service parses the [:id] path parameter with
    [primitive.ObjectIDFromHex] (src/services/todo_service.go) and the
    repository stamps new documents with [primitive.NewObjectID()]
    (src/repositories/todo_repository.go, [CreateTodo]); the JSON form of an
    id is its [Hex()].  These are library functions the sources call: they
    are modelled here after the mongo-driver and [encoding/hex] code, since
    which ids the service accepts and whether a returned id can be sent back
    depend on them.

    An [ObjectID] is a [[12]byte]; it is modelled by its big-endian value, a
    96-bit [Z].  The theorems: the hex form of every id parses back to it
    (the round trip a client relies on), ids are 96-bit, and consecutive
    generations are distinct until the 24-bit counter wraps. *)

From S2P Require Import Prelude.
Open Scope Z_scope.

Definition ObjectID : Type := Z.
Definition NilObjectID : ObjectID := 0.
Definition oid_valid (o : ObjectID) : Prop := 0 <= o < 2 ^ 96.

(** ** [encoding/hex] *)

(** [hextable]: lower-case digits, as [hex.Encode] writes them. *)
Definition hextable (d : Z) : Ascii.ascii :=
  Ascii.ascii_of_nat (Z.to_nat (if d <? 10 then 48 + d else 87 + d)).

(** [reverseHexTable]: the value of a hex digit of either case. *)
Definition reverseHexTable (c : Ascii.ascii) : option Z :=
  let n := Z.of_nat (Ascii.nat_of_ascii c) in
  if decide (48 <= n <= 57) then Some (n - 48)
  else if decide (97 <= n <= 102) then Some (n - 87)
  else if decide (65 <= n <= 70) then Some (n - 55)
  else None.

Definition encode_byte (v : Z) : string :=
  String (hextable (Z.shiftr v 4)) (String (hextable (Z.land v 15)) EmptyString).

(** [hex.EncodeToString] of the [n] low bytes of [v], most significant first. *)
Fixpoint encode_bytes (n : nat) (v : Z) : string :=
  match n with
  | O => EmptyString
  | S n' => encode_byte (Z.land (Z.shiftr v (8 * Z.of_nat n')) 255) ++ encode_bytes n' v
  end.

(** [ObjectID.Hex]. *)
Definition Hex (o : ObjectID) : string := encode_bytes 12 o.

(** The text of [hex.InvalidByteError]: ["encoding/hex: invalid byte: %#U"]. *)
Definition hex_upper (d : Z) : Ascii.ascii :=
  Ascii.ascii_of_nat (Z.to_nat (if d <? 10 then 48 + d else 55 + d)).

Definition ascii_of_Z (z : Z) : Ascii.ascii := Ascii.ascii_of_nat (Z.to_nat z).

(** [strconv.IsPrint] on the Latin-1 runes a byte converts to. *)
Definition is_print_latin1 (r : Z) : bool :=
  ((32 <=? r) && (r <=? 126)) || ((161 <=? r) && (r <=? 255) && negb (r =? 173)).

Definition utf8_latin1 (r : Z) : string :=
  if r <? 128 then String (ascii_of_Z r) EmptyString
  else String (ascii_of_Z (Z.lor 192 (Z.shiftr r 6)))
         (String (ascii_of_Z (Z.lor 128 (Z.land r 63))) EmptyString).

Definition fmt_sharp_U (r : Z) : string :=
  "U+00" ++ String (hex_upper (Z.shiftr r 4)) (String (hex_upper (Z.land r 15)) EmptyString)
  ++ (if is_print_latin1 r then " '" ++ utf8_latin1 r ++ "'" else "").

Definition InvalidByteError (c : Ascii.ascii) : string :=
  "encoding/hex: invalid byte: " ++ fmt_sharp_U (Z.of_nat (Ascii.nat_of_ascii c)).
Definition ErrLength : string := "encoding/hex: odd length hex string".
Definition ErrInvalidHex : string := "the provided hex string is not a valid ObjectID".

(** [hex.Decode] into the id's bytes: pairs [p q] become [(a << 4) | b],
    the first bad digit of a pair is reported, an odd tail last. *)
Fixpoint hex_decode (src : string) (acc : Z) : result Z :=
  match src with
  | String p (String q src') =>
      match reverseHexTable p, reverseHexTable q with
      | None, _ => Err (InvalidByteError p)
      | Some _, None => Err (InvalidByteError q)
      | Some a, Some b => hex_decode src' (Z.lor (Z.shiftl acc 8) (Z.lor (Z.shiftl a 4) b))
      end
  | String p EmptyString =>
      match reverseHexTable p with
      | None => Err (InvalidByteError p)
      | Some _ => Err ErrLength
      end
  | EmptyString => Ok acc
  end.

(** [primitive.ObjectIDFromHex]. *)
Definition ObjectIDFromHex (s : string) : result ObjectID :=
  if decide (String.length s = 24%nat) then hex_decode s 0 else Err ErrInvalidHex.

(** ** [primitive.NewObjectID] *)

(** The process-wide generator: 5 random bytes fixed at start-up and the
    [uint32] counter [objectIDCounter]. *)
Record OidGenerator := mkOidGenerator {
  processUnique : Z;
  objectIDCounter : Z
}.

Definition gen_valid (g : OidGenerator) : Prop :=
  0 <= processUnique g < 2 ^ 40 /\ 0 <= objectIDCounter g < 2 ^ 32.

(** [putUint24]: the low three bytes of the counter. *)
Definition putUint24 (v : Z) : Z := Z.land v (Z.ones 24).

(** [NewObjectIDFromTimestamp]: 4-byte big-endian seconds, the 5 process
    bytes, the 3 counter bytes. *)
Definition NewObjectIDFromTimestamp (unix_secs pu counter : Z) : ObjectID :=
  Z.lor (Z.shiftl (Z.land unix_secs (Z.ones 32)) 64)
        (Z.lor (Z.shiftl pu 24) (putUint24 counter)).

(** [time.Time.Unix] of a wall-clock reading in nanoseconds. *)
Definition unix_seconds (ns : Z) : Z := ns / 10 ^ 9.

(** [NewObjectID()] at wall-clock time [now]: [atomic.AddUint32] bumps the
    counter first and the new value is used. *)
Definition NewObjectID (now : Z) (g : OidGenerator) : ObjectID * OidGenerator :=
  let c := (objectIDCounter g + 1) mod 2 ^ 32 in
  (NewObjectIDFromTimestamp (unix_seconds now) (processUnique g) c,
   mkOidGenerator (processUnique g) c).

(** [gen_ids ts g]: one [NewObjectID] call per clock reading of [ts]. *)
Fixpoint gen_ids (ts : list Z) (g : OidGenerator) : list ObjectID * OidGenerator :=
  match ts with
  | [] => ([], g)
  | t :: ts' =>
      let (o, g1) := NewObjectID t g in
      let (os, g2) := gen_ids ts' g1 in (o :: os, g2)
  end.

(** ** Hex round trip *)

Lemma reverseHexTable_hextable d : 0 <= d < 16 -> reverseHexTable (hextable d) = Some d.
Proof.
  intros Hd.
  assert (d = 0 \/ d = 1 \/ d = 2 \/ d = 3 \/ d = 4 \/ d = 5 \/ d = 6 \/ d = 7 \/
          d = 8 \/ d = 9 \/ d = 10 \/ d = 11 \/ d = 12 \/ d = 13 \/ d = 14 \/ d = 15)
    as Hcases by lia.
  destruct_or! Hcases; subst; reflexivity.
Qed.

(** One encoded byte decodes back, whatever follows it. *)
Lemma hex_decode_encode_byte v acc rest :
  0 <= v < 256 ->
  hex_decode (encode_byte v ++ rest) acc = hex_decode rest (acc * 2 ^ 8 + v).
Proof.
  intros Hv. unfold encode_byte. change 15 with (Z.ones 4).
  rewrite !string_app_cons, string_app_nil_l. cbn [hex_decode].
  rewrite !reverseHexTable_hextable.
  - f_equal. rewrite Z.shiftr_div_pow2, Z.land_ones by lia.
    pose proof (Z.mod_pos_bound v (2 ^ 4) ltac:(lia)).
    rewrite (lor_shiftl_small (v / 2 ^ 4) 4) by lia.
    replace (v / 2 ^ 4 * 2 ^ 4 + v mod 2 ^ 4) with v by (pose proof (Z.div_mod v (2 ^ 4)); lia).
    apply lor_shiftl_small; lia.
  - rewrite Z.land_ones by lia. apply Z.mod_pos_bound. lia.
  - rewrite Z.shiftr_div_pow2 by lia. split; [apply Z.div_pos|apply Z.div_lt_upper_bound]; lia.
Qed.

Lemma hex_decode_encode_bytes n v acc :
  hex_decode (encode_bytes n v) acc = Ok (acc * 2 ^ (8 * Z.of_nat n) + v mod 2 ^ (8 * Z.of_nat n)).
Proof.
  revert acc. induction n as [|n IH]; intros acc.
  - cbn. rewrite Z.mod_1_r. f_equal. lia.
  - cbn [encode_bytes]. change 255 with (Z.ones 8). rewrite hex_decode_encode_byte, IH.
    2:{ rewrite Z.land_ones by lia. apply Z.mod_pos_bound. lia. }
    f_equal. rewrite Z.land_ones, Z.shiftr_div_pow2 by lia.
    replace (8 * Z.of_nat (S n)) with (8 * Z.of_nat n + 8) by lia.
    rewrite Z.pow_add_r, Z.rem_mul_r by lia. lia.
Qed.

Lemma encode_bytes_length n v : String.length (encode_bytes n v) = (2 * n)%nat.
Proof. induction n as [|n IH]; [done|]. cbn [encode_bytes]. rewrite string_length_app, IH. simpl. lia. Qed.

(** The 24 digits of [Hex o] decode to [o]. *)
Lemma hex_decode_Hex (o : ObjectID) :
  oid_valid o -> hex_decode (Hex o) 0 = Ok o.
Proof.
  intros Ho. unfold Hex. rewrite hex_decode_encode_bytes.
  rewrite Z.mod_small by (unfold oid_valid in Ho; simpl; lia). f_equal.
Qed.

Lemma Hex_length (o : ObjectID) : String.length (Hex o) = 24%nat.
Proof. apply encode_bytes_length. Qed.

(** The hex form of a 96-bit id parses back to the same id: the id a
    client receives in a response is accepted by [ObjectIDFromHex] in its
    next request and names the same document. *)
Theorem ObjectIDFromHex_Hex (o : ObjectID) :
  oid_valid o -> ObjectIDFromHex (Hex o) = Ok o.
Proof.
  intros Ho. unfold ObjectIDFromHex. rewrite decide_True by apply Hex_length.
  by rewrite hex_decode_Hex.
Qed.

(** ** Generated ids *)

(** The byte layout as a sum of its fields. *)
Lemma NewObjectIDFromTimestamp_fields t pu c :
  0 <= pu < 2 ^ 40 ->
  NewObjectIDFromTimestamp t pu c = (t mod 2 ^ 32) * 2 ^ 64 + pu * 2 ^ 24 + c mod 2 ^ 24.
Proof.
  intros Hpu. unfold NewObjectIDFromTimestamp, putUint24.
  rewrite !Z.land_ones by lia.
  pose proof (Z.mod_pos_bound c (2 ^ 24) ltac:(lia)).
  rewrite (lor_shiftl_small pu 24) by lia.
  rewrite lor_shiftl_small by lia. lia.
Qed.

(** An id stamped by [NewObjectID] fits in 96 bits, and the generator
    stays well formed. *)
Theorem NewObjectID_valid (now : Z) (g : OidGenerator) :
  gen_valid g ->
  oid_valid (NewObjectID now g).1 /\ gen_valid (NewObjectID now g).2.
Proof.
  intros [Hpu Hc]. unfold NewObjectID, oid_valid, gen_valid; simpl.
  rewrite NewObjectIDFromTimestamp_fields by lia.
  pose proof (Z.mod_pos_bound (unix_seconds now) (2 ^ 32) ltac:(lia)).
  pose proof (Z.mod_pos_bound ((objectIDCounter g + 1) mod 2 ^ 32) (2 ^ 24) ltac:(lia)).
  pose proof (Z.mod_pos_bound (objectIDCounter g + 1) (2 ^ 32) ltac:(lia)).
  split; [split; nia | lia].
Qed.


Lemma gen_ids_lookup ts g i t :
  ts !! i = Some t ->
  (gen_ids ts g).1 !! i =
    Some (NewObjectIDFromTimestamp (unix_seconds t) (processUnique g)
            ((objectIDCounter g + 1 + Z.of_nat i) mod 2 ^ 32)).
Proof.
  revert g i. induction ts as [|t' ts IH]; intros g i Hi; [done|].
  cbn [gen_ids NewObjectID]. destruct (gen_ids ts _) as [os g2] eqn:Hg.
  destruct i as [|i]; simpl in Hi |- *.
  - injection Hi as ->. do 3 f_equal. lia.
  - specialize (IH (mkOidGenerator (processUnique g) ((objectIDCounter g + 1) mod 2 ^ 32)) i Hi).
    rewrite Hg in IH. simpl in IH. rewrite IH.
    f_equal. f_equal. rewrite <- Z.add_assoc, Zplus_mod_idemp_l. f_equal. lia.
Qed.

Lemma counter_mod_inj x i j :
  0 <= i < 2 ^ 24 -> 0 <= j < 2 ^ 24 ->
  ((x + i) mod 2 ^ 32) mod 2 ^ 24 = ((x + j) mod 2 ^ 32) mod 2 ^ 24 -> i = j.
Proof.
  intros Hi Hj. rewrite !Z.mod_mod_divide by (exists (2 ^ 8); lia).
  intros H. pose proof (Z.div_mod (x + i) (2 ^ 24) ltac:(lia)).
  pose proof (Z.div_mod (x + j) (2 ^ 24) ltac:(lia)). lia.
Qed.


Lemma gen_ids_length ts g : length (gen_ids ts g).1 = length ts.
Proof.
  revert g. induction ts as [|t ts IH]; intros g; [done|].
  cbn [gen_ids NewObjectID]. specialize (IH (mkOidGenerator (processUnique g)
    ((objectIDCounter g + 1) mod 2 ^ 32))).
  destruct (gen_ids ts _). simpl in *. by rewrite IH.
Qed.

(** The low three bytes of an id are the counter's. *)
Lemma NewObjectIDFromTimestamp_counter t pu c :
  0 <= pu < 2 ^ 40 -> NewObjectIDFromTimestamp t pu c mod 2 ^ 24 = c mod 2 ^ 24.
Proof.
  intros Hpu. rewrite NewObjectIDFromTimestamp_fields by done.
  replace ((t mod 2 ^ 32) * 2 ^ 64 + pu * 2 ^ 24 + c mod 2 ^ 24)
    with (c mod 2 ^ 24 + ((t mod 2 ^ 32) * 2 ^ 40 + pu) * 2 ^ 24) by lia.
  rewrite Z.mod_add, Z.mod_mod by lia. reflexivity.
Qed.

(** [NewObjectID] called up to [2^24] times in a row, at any clock
    readings, returns pairwise distinct ids: the 24-bit counter field alone
    separates them. *)
Theorem gen_ids_NoDup (ts : list Z) (g : OidGenerator) :
  gen_valid g -> Z.of_nat (length ts) <= 2 ^ 24 -> NoDup (gen_ids ts g).1.
Proof.
  intros [Hpu Hc] Hlen. apply NoDup_alt. intros i j o Hi Hj.
  pose proof (lookup_lt_Some _ _ _ Hi) as Hli. pose proof (lookup_lt_Some _ _ _ Hj) as Hlj.
  rewrite gen_ids_length in Hli, Hlj.
  destruct (lookup_lt_is_Some_2 ts i Hli) as [ti Hti].
  destruct (lookup_lt_is_Some_2 ts j Hlj) as [tj Htj].
  rewrite (gen_ids_lookup _ _ _ _ Hti) in Hi. rewrite (gen_ids_lookup _ _ _ _ Htj) in Hj.
  rewrite <- Hj in Hi. clear Hj. injection Hi as Hj.
  apply (f_equal (fun o => o mod 2 ^ 24)) in Hj.
  rewrite !NewObjectIDFromTimestamp_counter in Hj by done.
  apply Nat2Z.inj, (counter_mod_inj (objectIDCounter g + 1)); [lia|lia|].
  exact Hj.
Qed.

(** A wrapped counter repeats an id within the same second: uniqueness of
    [_id] then rests on the collection's unique index (see [Store]). *)
Lemma NewObjectIDFromTimestamp_wrap t pu c :
  NewObjectIDFromTimestamp t pu (c + 2 ^ 24) = NewObjectIDFromTimestamp t pu c.
Proof.
  unfold NewObjectIDFromTimestamp, putUint24. rewrite !Z.land_ones by lia.
  rewrite Z.add_mod, Z.mod_same, Z.add_0_r, Z.mod_mod by lia. reflexivity.
Qed.
