(* ===== verification/Model.v ===== *)
(** * Model: the [Todo] document, the request DTOs and the world state

    [models.Todo] (src/models/todo.go) and the two request bodies of
    src/dtos/, and the state every handler runs on: the ["todos"]
    collection, the wall clock read by [time.Now()], the store's round-trip
    outcomes and the process's ObjectID generator.  The environment's
    choices (clock advances, driver failures) are explicit streams in the
    state, so that a run is a function of the state and every theorem
    quantifies over all environments. *)

From S2P Require Import Prelude ObjectId.
Open Scope Z_scope.

(** ** [models.Todo] *)

(** Timestamps are wall-clock readings in nanoseconds since the epoch, as a
    Go [time.Time] holds them; the store keeps milliseconds ([bson_time]). *)
Record Todo := mkTodo {
  ID : ObjectID;
  Title : string;
  Description : string;
  Complete : bool;
  CreatedAt : Z;
  UpdatedAt : Z
}.

#[export] Instance Todo_eq_dec : EqDecision Todo.
Proof. intros [] []. solve_decision. Defined.

(** A BSON datetime holds milliseconds: storing a [time.Time] truncates it
    ([t.Unix()*1e3 + t.Nanosecond()/1e6], i.e. the floor). *)
Definition bson_time (t : Z) : Z := t / 10 ^ 6 * 10 ^ 6.

(** The document as the collection stores and returns it. *)
Definition to_bson (t : Todo) : Todo :=
  mkTodo (ID t) (Title t) (Description t) (Complete t)
         (bson_time (CreatedAt t)) (bson_time (UpdatedAt t)).

(** ** The request bodies (src/dtos/) *)

Module CreateTodoRequest.
Record t := mk { Title : string; Description : string }.
End CreateTodoRequest.

(** [Complete *bool]: [None] is an absent (or [null]) field. *)
Module UpdateTodoRequest.
Record t := mk { Title : string; Description : string; Complete : option bool }.
End UpdateTodoRequest.

(** ** The world *)

#[projections(primitive)]
Record World := mkWorld {
  todos : list Todo;               (** the ["todos"] collection, in insertion order *)
  clock : Z;                       (** last wall-clock reading, ns *)
  ticks : list N;                  (** clock advance before each [time.Now()] *)
  faults : list (option string);   (** each store round trip: [Some e] fails with [e] *)
  oidgen : OidGenerator            (** [processUnique] and [objectIDCounter] *)
}.

Definition M (A : Type) : Type := st World A.

(** The world after one [time.Now()]: the clock advances by the next tick
    (none left: it stays). *)
Definition next_tick (w : World) : N := match ticks w with [] => 0%N | d :: _ => d end.

Definition tick (w : World) : World :=
  mkWorld (todos w) (clock w + Z.of_N (next_tick w)) (tail (ticks w)) (faults w) (oidgen w).

(** [time.Now()]. *)
Definition time_Now : M Z := fun w => (Done (clock (tick w)), tick w).

(** One round trip to the store: [Some e] when the driver reports [e]. *)
Definition next_fault (w : World) : option string :=
  match faults w with [] => None | f :: _ => f end.

Definition pop_fault (w : World) : World :=
  mkWorld (todos w) (clock w) (ticks w) (tail (faults w)) (oidgen w).

Definition round_trip : M (option string) := fun w => (Done (next_fault w), pop_fault w).

Definition with_todos (docs : list Todo) (w : World) : World :=
  mkWorld docs (clock w) (ticks w) (faults w) (oidgen w).

Definition set_todos (docs : list Todo) : M unit := fun w => (Done tt, with_todos docs w).

Definition get_todos : M (list Todo) := fun w => (Done (todos w), w).

Definition with_gen (g : OidGenerator) (w : World) : World :=
  mkWorld (todos w) (clock w) (ticks w) (faults w) g.

Definition next_object_id (t : Z) : M ObjectID := fun w =>
  (Done (NewObjectID t (oidgen w)).1, with_gen (NewObjectID t (oidgen w)).2 w).

(** [primitive.NewObjectID()]: reads the clock, bumps the counter. *)
Definition new_object_id : M ObjectID := t ← time_Now; next_object_id t.

(** ** Environment lemmas *)

(** The clock never goes back. *)
Lemma tick_clock w : clock w <= clock (tick w).
Proof. unfold tick. simpl. lia. Qed.

(** Without faults pending, a round trip changes nothing. *)
Lemma pop_fault_quiet w : faults w = [] -> pop_fault w = w.
Proof. destruct w as [d c t f g]. simpl. intros ->. reflexivity. Qed.

Lemma next_fault_quiet w : faults w = [] -> next_fault w = None.
Proof. intros H. unfold next_fault. by rewrite H. Qed.

Lemma bson_time_le t : bson_time t <= t.
Proof. unfold bson_time. pose proof (Z.mul_div_le t (10 ^ 6)). lia. Qed.

Lemma bson_time_mono t1 t2 : t1 <= t2 -> bson_time t1 <= bson_time t2.
Proof.
  unfold bson_time. intros H. apply Z.mul_le_mono_nonneg_r; [lia|].
  apply Z.div_le_mono; lia.
Qed.

Lemma bson_time_idem t : bson_time (bson_time t) = bson_time t.
Proof. unfold bson_time. rewrite Z.div_mul by lia. reflexivity. Qed.

#[export] Hint Resolve bson_time_le bson_time_mono : todo.
#[export] Hint Rewrite bson_time_idem : todo_run.

(** Rewrite the round trips of a world without pending faults. *)
Ltac quiet Hq :=
  repeat first [ rewrite next_fault_quiet by exact Hq | rewrite pop_fault_quiet by exact Hq ].

(** Unfold the world primitives, keeping [tick], [next_fault] and
    [pop_fault] folded. *)
Ltac run_world :=
  cbv [mbind st_bind mret st_ret panic get_state put_state
       time_Now round_trip get_todos set_todos next_object_id] in *; cbv zeta.
