(* ===== verification/Store.v ===== *)
(** * Store: the MongoDB ["todos"] collection as the repository sees it

    The collection is a list of documents in insertion (natural) order with
    the unique index on [_id] every collection has.  This file gives the
    server-side meaning of the commands src/repositories/todo_repository.go
    sends: [InsertOne], [Find] with a filter, a [createdAt] descending sort,
    [skip] and [limit], [FindOne] by [_id], [FindOneAndUpdate] with [$set],
    [DeleteOne] and [CountDocuments].  The driver and server are external;
    they are modelled after MongoDB's documented semantics.  The [$regex]
    matcher is an interface ([RegexEngine]) whose one law fixes its meaning
    on patterns without metacharacters.

    Theorems: what each command returns and leaves, that [_id]s stay
    unique, that a page of [Find] is a sorted, filtered slice of the
    collection of the expected length, and that [CountDocuments] counts
    what an unpaged [Find] returns. *)

From S2P Require Import Prelude ObjectId Model.
Open Scope Z_scope.

(** ** [$regex] with option ["i"] *)

(** Characters that are not literal in a PCRE pattern:
    [\ ^ $ . | ? * + ( ) [ ] { }], by their codes. *)
Definition regex_meta (c : Ascii.ascii) : bool :=
  bool_decide (Ascii.nat_of_ascii c ∈ [92; 94; 36; 46; 124; 63; 42; 43; 40; 41; 91; 93; 123; 125]%nat).

Fixpoint literal_pattern (p : string) : bool :=
  match p with
  | EmptyString => true
  | String c p' => negb (regex_meta c) && literal_pattern p'
  end.

(** An unanchored, case-insensitive regular-expression search.  On a pattern
    without metacharacters it is a case-insensitive substring test. *)
Class RegexEngine := {
  regex_search : string -> string -> bool;
  regex_search_literal p s :
    literal_pattern p = true ->
    regex_search p s = contains (string_lower p) (string_lower s)
}.

(** ** Filters, as the service builds its [bson.M] *)

(** [{"title": Regex{title, "i"}}] when [filter_title] is set,
    [{"complete": b}] when [filter_complete] is set; an empty map matches
    every document. *)
Record Filter := mkFilter {
  filter_title : option string;
  filter_complete : option bool
}.

Definition empty_filter : Filter := mkFilter None None.

Section Collection.
Context `{RX : RegexEngine}.

Definition filter_matches (f : Filter) (t : Todo) : bool :=
  match filter_title f with Some p => regex_search p (Title t) | None => true end &&
  match filter_complete f with Some b => Bool.eqb (Complete t) b | None => true end.

Definition matching (f : Filter) (docs : list Todo) : list Todo :=
  filter (fun t => filter_matches f t = true) docs.

(** The sort [{createdAt: -1}]: newest first.  The server leaves the order
    of equal keys unspecified; the model keeps insertion order (a stable
    merge sort). *)
Definition created_desc (a b : Todo) : Prop := CreatedAt b <= CreatedAt a.

#[export] Instance created_desc_dec : RelDecision created_desc.
Proof. intros a b. unfold created_desc. apply _. Defined.

(** [options.Find()] with the fields the repository may set. *)
Record FindOptions := mkFindOptions {
  opt_limit : option Z;
  opt_skip : option Z
}.

(** [limit]: 0 is no limit, a negative limit [-n] returns [n] documents. *)
Definition apply_limit (l : option Z) (docs : list Todo) : list Todo :=
  match l with
  | Some n => if decide (n = 0) then docs else take (Z.to_nat (Z.abs n)) docs
  | None => docs
  end.

Definition apply_skip (k : option Z) (docs : list Todo) : list Todo :=
  match k with Some n => drop (Z.to_nat n) docs | None => docs end.

(** [collection.Find(ctx, filter, opts)] with [SetSort({createdAt: -1})]:
    filter, sort, skip, then limit. *)
Definition find (f : Filter) (o : FindOptions) (docs : list Todo) : list Todo :=
  apply_limit (opt_limit o) (apply_skip (opt_skip o) (merge_sort created_desc (matching f docs))).

(** [collection.CountDocuments(ctx, filter)]. *)
Definition count_documents (f : Filter) (docs : list Todo) : Z :=
  Z.of_nat (length (matching f docs)).
End Collection.

(** [FindOne({_id: id})]: the first document with that [_id]. *)
Definition find_one (id : ObjectID) (docs : list Todo) : option Todo :=
  head (filter (fun t => ID t = id) docs).

(** The server's duplicate-key write error, as the driver renders it. *)
Definition dup_key_error (id : ObjectID) : string :=
  "write exception: write errors: [E11000 duplicate key error collection: todolist_fiber.todos index: _id_ dup key: { _id: ObjectId('"
  ++ Hex id ++ "') }]".

(** [InsertOne(doc)]: rejected by the unique [_id] index when the id is
    taken; the stored copy has BSON (millisecond) timestamps. *)
Definition insert_one (doc : Todo) (docs : list Todo) : result (list Todo) :=
  if decide (ID doc ∈ map ID docs) then Err (dup_key_error (ID doc))
  else Ok (docs ++ [to_bson doc])%list.

(** [FindOneAndUpdate({_id: id}, upd, ReturnDocument: After)]: rewrites the
    first match and returns it as rewritten. *)
Fixpoint find_one_and_update (id : ObjectID) (upd : Todo -> Todo) (docs : list Todo)
    : option Todo * list Todo :=
  match docs with
  | [] => (None, [])
  | t :: docs' =>
      if decide (ID t = id) then (Some (upd t), upd t :: docs')
      else let '(r, docs'') := find_one_and_update id upd docs' in (r, t :: docs'')
  end.

(** [DeleteOne({_id: id})]: [DeletedCount] and the remaining documents. *)
Fixpoint delete_one (id : ObjectID) (docs : list Todo) : Z * list Todo :=
  match docs with
  | [] => (0, [])
  | t :: docs' =>
      if decide (ID t = id) then (1, docs')
      else let '(n, docs'') := delete_one id docs' in (n, t :: docs'')
  end.

(** ** Collection invariant: the unique index on [_id] *)

Definition ids_unique (docs : list Todo) : Prop := NoDup (map ID docs).

(** ** [FindOne] *)

Lemma find_one_cons id t docs :
  find_one id (t :: docs) = if decide (ID t = id) then Some t else find_one id docs.
Proof. unfold find_one. rewrite filter_cons. by case_decide. Qed.

Lemma find_one_None id docs : find_one id docs = None <-> id ∉ map ID docs.
Proof.
  induction docs as [|t docs IH]; [simpl; set_solver|].
  rewrite find_one_cons. simpl. case_decide; [split; [done|set_solver]|].
  rewrite IH. set_solver.
Qed.

Lemma find_one_Some id docs t : find_one id docs = Some t -> t ∈ docs /\ ID t = id.
Proof.
  induction docs as [|t' docs IH]; [done|]. rewrite find_one_cons.
  case_decide as Hid; [intros [= <-]; set_solver|]. intros Hf. destruct (IH Hf). set_solver.
Qed.

Lemma find_one_app_fresh id docs extra :
  id ∉ map ID docs -> find_one id (docs ++ extra) = find_one id extra.
Proof.
  induction docs as [|t docs IH]; [done|]. simpl. intros Hn.
  rewrite find_one_cons. rewrite decide_False by set_solver. apply IH. set_solver.
Qed.

(** ** [InsertOne] *)

Lemma insert_one_fresh doc docs :
  ID doc ∉ map ID docs -> insert_one doc docs = Ok (docs ++ [to_bson doc])%list.
Proof. intros H. unfold insert_one. by rewrite decide_False. Qed.

Lemma insert_one_dup doc docs :
  ID doc ∈ map ID docs -> insert_one doc docs = Err (dup_key_error (ID doc)).
Proof. intros H. unfold insert_one. by rewrite decide_True. Qed.

Lemma insert_one_unique doc docs docs' :
  ids_unique docs -> insert_one doc docs = Ok docs' -> ids_unique docs'.
Proof.
  unfold insert_one, ids_unique. case_decide as Hin; [done|]. intros Hu [= <-].
  rewrite map_app. apply NoDup_app. split_and!; [done| |by apply NoDup_singleton].
  intros x Hx. simpl. set_solver.
Qed.

(** What was inserted is found under its id, with stored timestamps. *)
Lemma insert_one_find doc docs docs' :
  insert_one doc docs = Ok docs' -> find_one (ID doc) docs' = Some (to_bson doc).
Proof.
  unfold insert_one. case_decide as Hin; [done|]. intros [= <-].
  rewrite find_one_app_fresh by done. rewrite find_one_cons. by rewrite decide_True.
Qed.

(** ** [FindOneAndUpdate] *)

Lemma find_one_and_update_absent id upd docs :
  id ∉ map ID docs -> find_one_and_update id upd docs = (None, docs).
Proof.
  induction docs as [|t docs IH]; intros Hn; [done|]. cbn [find_one_and_update map] in *.
  rewrite decide_False by set_solver. rewrite IH by set_solver. done.
Qed.

Lemma find_one_and_update_found id upd docs t :
  find_one id docs = Some t ->
  (find_one_and_update id upd docs).1 = Some (upd t).
Proof.
  induction docs as [|t' docs IH]; [done|]. rewrite find_one_cons. cbn [find_one_and_update delete_one map fst snd].
  case_decide as Hid; [by intros [= ->]|]. intros Hf.
  destruct (find_one_and_update id upd docs) eqn:E. cbn [fst snd map] in *. by apply IH.
Qed.

(** An update that keeps [_id] keeps the set of ids, and the order. *)
Lemma find_one_and_update_ids id upd docs :
  (forall t, ID (upd t) = ID t) ->
  map ID (find_one_and_update id upd docs).2 = map ID docs.
Proof.
  intros Hupd. induction docs as [|t docs IH]; [done|]. cbn [find_one_and_update delete_one map fst snd].
  case_decide; cbn [map fst snd]; [by rewrite Hupd|].
  destruct (find_one_and_update id upd docs) eqn:E. cbn [fst snd map] in *. by rewrite IH.
Qed.

(** After the update, the document found under [id] is the updated one. *)
Lemma find_one_and_update_find id upd docs t :
  (forall t, ID (upd t) = ID t) ->
  find_one id docs = Some t ->
  find_one id (find_one_and_update id upd docs).2 = Some (upd t).
Proof.
  intros Hupd. induction docs as [|t' docs IH]; [done|]. rewrite find_one_cons. cbn [find_one_and_update delete_one map fst snd].
  case_decide as Hid; cbn [fst snd]; [intros [= ->]; rewrite find_one_cons, Hupd; by rewrite decide_True|].
  intros Hf. destruct (find_one_and_update id upd docs) eqn:E. cbn [fst snd map] in *.
  rewrite find_one_cons, decide_False by done. by apply IH.
Qed.

(** Documents under other ids are untouched. *)
Lemma find_one_and_update_other id id' upd docs :
  (forall t, ID (upd t) = ID t) -> id' <> id ->
  find_one id' (find_one_and_update id upd docs).2 = find_one id' docs.
Proof.
  intros Hupd Hne. induction docs as [|t docs IH]; [done|]. cbn [find_one_and_update delete_one map fst snd].
  case_decide as Ht; cbn [fst snd].
  - rewrite !find_one_cons, Hupd. rewrite !decide_False by congruence. done.
  - destruct (find_one_and_update id upd docs) eqn:E. cbn [fst snd map] in *.
    rewrite !find_one_cons. case_decide; [done|]. apply IH.
Qed.

(** ** [DeleteOne] *)

Lemma delete_one_absent id docs : id ∉ map ID docs -> delete_one id docs = (0, docs).
Proof.
  induction docs as [|t docs IH]; intros Hn; [done|]. cbn [delete_one map] in *.
  rewrite decide_False by set_solver. rewrite IH by set_solver. done.
Qed.

(** Deleting the id of a document appended under a fresh id removes
    exactly that document. *)
Lemma delete_one_last id docs t :
  id ∉ map ID docs -> ID t = id -> delete_one id (docs ++ [t]) = (1, docs).
Proof.
  intros Hn Ht. induction docs as [|t' docs IH]; cbn [delete_one app map] in *.
  - by rewrite decide_True.
  - rewrite decide_False by set_solver. rewrite IH by set_solver. done.
Qed.

Lemma delete_one_present id docs :
  id ∈ map ID docs -> (delete_one id docs).1 = 1.
Proof.
  induction docs as [|t docs IH]; [simpl; set_solver|]. cbn [find_one_and_update delete_one map fst snd]. intros Hin.
  case_decide; [done|]. destruct (delete_one id docs) eqn:E. cbn [fst snd map] in *.
  apply IH. set_solver.
Qed.

Lemma delete_one_sublist id docs : (delete_one id docs).2 `sublist_of` docs.
Proof.
  induction docs as [|t docs IH]; [done|]. cbn [find_one_and_update delete_one map fst snd]. case_decide.
  - by apply sublist_cons.
  - destruct (delete_one id docs) eqn:E. cbn [fst snd map] in *. by apply sublist_skip.
Qed.

(** With unique ids, a deleted id is gone. *)
Lemma delete_one_gone id docs :
  ids_unique docs -> find_one id (delete_one id docs).2 = None.
Proof.
  unfold ids_unique. induction docs as [|t docs IH]; [done|]. cbn [find_one_and_update delete_one map fst snd].
  intros [Hn Hu]%NoDup_cons. case_decide as Ht.
  - apply find_one_None. by subst.
  - destruct (delete_one id docs) eqn:E. cbn [fst snd map] in *.
    rewrite find_one_cons, decide_False by done. by apply IH.
Qed.

Lemma delete_one_other id id' docs :
  id' <> id -> find_one id' (delete_one id docs).2 = find_one id' docs.
Proof.
  intros Hne. induction docs as [|t docs IH]; [done|]. cbn [find_one_and_update delete_one map fst snd]. case_decide.
  - subst. rewrite (find_one_cons id'). by rewrite decide_False.
  - destruct (delete_one id docs) eqn:E. cbn [fst snd map] in *.
    rewrite !find_one_cons. case_decide; [done|]. apply IH.
Qed.

Lemma sublist_ids_unique docs docs' :
  docs' `sublist_of` docs -> ids_unique docs -> ids_unique docs'.
Proof.
  unfold ids_unique. intros Hs Hu. eapply sublist_NoDup; [exact Hu|].
  clear Hu. induction Hs; simpl; [apply sublist_nil_l|apply sublist_skip|apply sublist_cons]; auto.
Qed.

#[export] Hint Resolve insert_one_unique delete_one_sublist sublist_ids_unique : todo.

(** ** [Find] and [CountDocuments] *)

#[export] Instance created_desc_total : Total created_desc.
Proof. intros a b. unfold created_desc. lia. Qed.

#[export] Instance created_desc_trans : Transitive created_desc.
Proof. intros a b c. unfold created_desc. lia. Qed.

Lemma StronglySorted_sublist {A} (R : relation A) l l' :
  StronglySorted R l -> l' `sublist_of` l -> StronglySorted R l'.
Proof.
  intros Hs Hsub. revert Hs. induction Hsub as [|x l1 l2 Hsub IH|x l1 l2 Hsub IH];
    intros Hs; [constructor| |]; inversion Hs as [|? ? Hs' Hall]; subst.
  - constructor; [by apply IH|]. rewrite Forall_forall in *.
    intros y Hy. apply Hall. by eapply elem_of_sublist.
  - by apply IH.
Qed.

Lemma apply_limit_sublist l docs : apply_limit l docs `sublist_of` docs.
Proof.
  destruct l as [n|]; simpl; [|done]. case_decide; [done|]. apply sublist_take.
Qed.

Lemma apply_skip_sublist k docs : apply_skip k docs `sublist_of` docs.
Proof. destruct k; simpl; [apply sublist_drop|done]. Qed.

Section FindProps.
Context `{RX : RegexEngine}.

Lemma find_sublist_sorted f o docs :
  find f o docs `sublist_of` merge_sort created_desc (matching f docs).
Proof.
  unfold find. etrans; [apply apply_limit_sublist|apply apply_skip_sublist].
Qed.

(** A page comes newest first. *)
Lemma find_sorted f o docs : StronglySorted created_desc (find f o docs).
Proof.
  eapply StronglySorted_sublist; [|apply find_sublist_sorted].
  apply StronglySorted_merge_sort; apply _.
Qed.

(** Every document of a page is in the collection and passes the filter. *)
Lemma find_elem f o docs t :
  t ∈ find f o docs -> t ∈ docs /\ filter_matches f t = true.
Proof.
  intros Ht. eapply elem_of_sublist in Ht; [|apply find_sublist_sorted].
  rewrite (merge_sort_Permutation created_desc) in Ht.
  unfold matching in Ht. apply list_elem_of_filter in Ht. naive_solver.
Qed.

(** The size of a page: [min(limit, count - skip)]. *)
Lemma find_length f n k docs :
  0 < n -> 0 <= k ->
  Z.of_nat (length (find f (mkFindOptions (Some n) (Some k)) docs)) =
    Z.min n (Z.max 0 (count_documents f docs - k)).
Proof.
  intros Hn Hk. unfold find, count_documents. simpl.
  rewrite decide_False by lia. rewrite length_take, length_drop.
  rewrite (Permutation_length (merge_sort_Permutation _ _)). lia.
Qed.

(** [CountDocuments] counts what an unpaged [Find] returns. *)
Lemma count_documents_find f docs :
  count_documents f docs = Z.of_nat (length (find f (mkFindOptions None None) docs)).
Proof.
  unfold find, count_documents. simpl.
  by rewrite (Permutation_length (merge_sort_Permutation _ _)).
Qed.
End FindProps.
