(* ===== verification/Regex.v ===== *)
(** * Regex: an executable [$regex] engine for the title filter

    The service filters titles with [primitive.Regex{Pattern: title,
    Options: "i"}] (src/services/todo_service.go:47): the [title] query
    parameter is a regular expression, matched case-insensitively anywhere
    in the title by the MongoDB server.  The server's PCRE engine is
    external; [Store.RegexEngine] states the one law the development
    relies on.  This file gives an executable instance for the
    metacharacters [.], [*], [^] and [$] (a backtracking matcher in the
    style of Kernighan and Pike) and proves the law: on a pattern without
    metacharacters it is a case-insensitive substring search.  Other PCRE
    constructs are read literally by this instance; no theorem depends on
    them. *)

From S2P Require Import Prelude Model Store.

Definition ascii_code (c : Ascii.ascii) : nat := Ascii.nat_of_ascii c.

(** Case-insensitive equality of characters (option ["i"]). *)
Definition eq_ci (c t : Ascii.ascii) : bool := bool_decide (ascii_lower c = ascii_lower t).

Definition is_dot (c : Ascii.ascii) : bool := bool_decide (ascii_code c = 46%nat).
Definition is_star (c : Ascii.ascii) : bool := bool_decide (ascii_code c = 42%nat).
Definition is_dollar (c : Ascii.ascii) : bool := bool_decide (ascii_code c = 36%nat).
Definition is_caret (c : Ascii.ascii) : bool := bool_decide (ascii_code c = 94%nat).

Definition char_matches (c t : Ascii.ascii) : bool := is_dot c || eq_ci c t.

(** [matchhere re text]: [re] matches a prefix of [text]. *)
Fixpoint matchhere (re text : string) {struct re} : bool :=
  match re with
  | EmptyString => true
  | String c re1 =>
      match re1 with
      | String s re2 =>
          if is_star s then
            (fix star (text : string) : bool :=
               matchhere re2 text ||
               match text with
               | EmptyString => false
               | String t text' => char_matches c t && star text'
               end) text
          else
            match text with
            | EmptyString => false
            | String t text' => char_matches c t && matchhere re1 text'
            end
      | EmptyString =>
          if is_dollar c then bool_decide (text = EmptyString)
          else
            match text with
            | EmptyString => false
            | String t text' => char_matches c t && matchhere re1 text'
            end
      end
  end.

(** Unanchored search, or anchored at the start by [^]. *)
Fixpoint search_from (re text : string) : bool :=
  matchhere re text ||
  match text with
  | EmptyString => false
  | String _ text' => search_from re text'
  end.

Definition kp_search (re text : string) : bool :=
  match re with
  | String c re' => if is_caret c then matchhere re' text else search_from re text
  | EmptyString => search_from re text
  end.

(** ** The literal law *)

Lemma eq_ci_lower c t : eq_ci c t = bool_decide (ascii_lower c = ascii_lower t).
Proof. reflexivity. Qed.

Lemma literal_not_meta c p :
  literal_pattern (String c p) = true ->
  is_dot c = false /\ is_star c = false /\ is_dollar c = false /\ is_caret c = false /\
  literal_pattern p = true.
Proof.
  simpl. rewrite andb_true_iff, negb_true_iff. intros [Hm Hp]. unfold regex_meta in Hm.
  rewrite bool_decide_eq_false in Hm.
  unfold is_dot, is_star, is_dollar, is_caret, ascii_code.
  rewrite !bool_decide_eq_false. set_solver.
Qed.

Lemma matchhere_step c s p t text :
  is_star s = false ->
  matchhere (String c (String s p)) (String t text) = char_matches c t && matchhere (String s p) text.
Proof. intros H. cbn [matchhere]. rewrite H. reflexivity. Qed.

Lemma string_lower_cons c s : string_lower (String c s) = String (ascii_lower c) (string_lower s).
Proof. reflexivity. Qed.

(** On a literal pattern, [matchhere] is a case-insensitive prefix test. *)
Lemma matchhere_literal p text :
  literal_pattern p = true ->
  matchhere p text = is_prefix (string_lower p) (string_lower text).
Proof.
  revert text. induction p as [|c p IH]; intros text Hp; [done|].
  destruct (literal_not_meta c p Hp) as (Hdot & Hstar & Hdol & _ & Hp').
  destruct p as [|s p2].
  - cbn [matchhere string_lower]. rewrite Hdol.
    destruct text as [|t text]; [done|]. cbn [string_lower is_prefix].
    unfold char_matches. rewrite Hdot. simpl. rewrite !andb_true_r. done.
  - destruct (literal_not_meta s p2 Hp') as (_ & Hstar2 & _).
    destruct text as [|t text]; [cbn [matchhere]; by rewrite Hstar2|]. rewrite matchhere_step by done.
    rewrite (string_lower_cons c), (string_lower_cons t). cbn [is_prefix].
    unfold char_matches. rewrite Hdot, <- (IH text Hp'). done.
Qed.

Lemma search_from_literal p text :
  literal_pattern p = true ->
  search_from p text = contains (string_lower p) (string_lower text).
Proof.
  intros Hp. induction text as [|t text IH]; cbn [search_from string_lower contains];
    rewrite matchhere_literal by done; [done|]. by rewrite IH.
Qed.

#[export] Instance kpRegex : RegexEngine.
Proof.
  refine {| regex_search := kp_search |}.
  intros p s Hp. unfold kp_search. destruct p as [|c p'].
  - by apply search_from_literal.
  - destruct (literal_not_meta c p' Hp) as (_ & _ & _ & Hcar & _). rewrite Hcar.
    by apply search_from_literal.
Defined.
