(* ===== verification/Repository.v ===== *)
(** * Repository: [repositories.TodoRepository] and its MongoDB implementation

    src/repositories/todo_repository.go.  The Go interface [TodoRepository]
    is the class [TodoRepository]; [todoRepository], the struct holding the
    collection handle, is the instance [mongoRepository].  Each method runs
    in the world monad [M]: it reads the clock where the code calls
    [time.Now()], makes one store round trip per driver call (which the
    environment may fail), and applies the command of [Store] to the
    collection.  Errors keep the code's texts, since the layers above
    compare them.

    [GetAll] ignores the error of [Find]: when [Find] fails the cursor is
    [nil] and [cursor.All] dereferences it, so the method panics. *)

From S2P Require Import Prelude ObjectId Model Store.
Open Scope Z_scope.

(** ** The driver calls *)

(** The runtime's message for the [nil] cursor dereference. *)
Definition nil_deref : string :=
  "runtime error: invalid memory address or nil pointer dereference".

(** [collection.InsertOne(ctx, doc)]. *)
Definition coll_InsertOne (doc : Todo) : M (result unit) :=
  f ← round_trip;
  match f with
  | Some e => mret (Err e)
  | None =>
      docs ← get_todos;
      match insert_one doc docs with
      | Err e => mret (Err e)
      | Ok docs' => _ ← set_todos docs'; mret (Ok tt)
      end
  end.

(** [collection.FindOne(ctx, {_id: id}).Decode(&v)]: [Ok None] is
    [mongo.ErrNoDocuments]. *)
Definition coll_FindOne (id : ObjectID) : M (result (option Todo)) :=
  f ← round_trip;
  match f with
  | Some e => mret (Err e)
  | None => docs ← get_todos; mret (Ok (find_one id docs))
  end.

(** [collection.FindOneAndUpdate(ctx, {_id: id}, update, After).Decode(&v)]. *)
Definition coll_FindOneAndUpdate (id : ObjectID) (upd : Todo -> Todo)
    : M (result (option Todo)) :=
  f ← round_trip;
  match f with
  | Some e => mret (Err e)
  | None =>
      docs ← get_todos;
      let '(r, docs') := find_one_and_update id upd docs in
      _ ← set_todos docs'; mret (Ok r)
  end.

(** [collection.DeleteOne(ctx, {_id: id})]: the [DeletedCount]. *)
Definition coll_DeleteOne (id : ObjectID) : M (result Z) :=
  f ← round_trip;
  match f with
  | Some e => mret (Err e)
  | None =>
      docs ← get_todos;
      let '(n, docs') := delete_one id docs in
      _ ← set_todos docs'; mret (Ok n)
  end.

Section Driver.
Context `{RX : RegexEngine}.

(** [collection.Find(ctx, filter, opts)]: the first batch of the cursor. *)
Definition coll_Find (flt : Filter) (o : FindOptions) : M (result (list Todo)) :=
  f ← round_trip;
  match f with
  | Some e => mret (Err e)
  | None => docs ← get_todos; mret (Ok (find flt o docs))
  end.

(** [cursor.All]: drains the cursor, which may take further round trips;
    on a [nil] cursor it dereferences [nil]. *)
Definition cursor_All (cursor : result (list Todo)) : M (result (list Todo)) :=
  match cursor with
  | Err _ => panic nil_deref
  | Ok batch =>
      f ← round_trip;
      match f with Some e => mret (Err e) | None => mret (Ok batch) end
  end.

Definition coll_CountDocuments (flt : Filter) : M (result Z) :=
  f ← round_trip;
  match f with
  | Some e => mret (Err e)
  | None => docs ← get_todos; mret (Ok (count_documents flt docs))
  end.
End Driver.

(** ** The interface [repositories.TodoRepository] *)

(** [(nil, nil)] results are [Ok None]. *)
Class TodoRepository := {
  repo_CreateTodo : Todo -> M (result Todo);
  repo_GetAll : Filter -> Z -> Z -> M (result (list Todo));
  repo_GetTodoByID : ObjectID -> M (result (option Todo));
  repo_UpdateTodo : ObjectID -> Todo -> M (result (option Todo));
  repo_DeleteTodo : ObjectID -> M (result unit);
  repo_CountTodos : Filter -> M (result Z)
}.

(** ** [todoRepository] *)

Module TodoRepo.
Section Methods.
Context `{RX : RegexEngine}.

(** [CreateTodo]: stamps id and times, inserts, returns the stamped struct
    (with the clock's nanoseconds, not the stored milliseconds). *)
Definition CreateTodo (todo : Todo) : M (result Todo) :=
  id ← new_object_id;
  created ← time_Now;
  updated ← time_Now;
  let todo' := mkTodo id (Title todo) (Description todo) (Complete todo) created updated in
  r ← coll_InsertOne todo';
  match r with
  | Err e => mret (Err ("Error the to create task: " ++ e))
  | Ok _ => mret (Ok todo')
  end.

(** [GetAll]: options set only for a positive limit and a non-negative
    skip; the error of [Find] is overwritten unchecked. *)
Definition GetAll (flt : Filter) (limit skip : Z) : M (result (list Todo)) :=
  let o := mkFindOptions (if decide (limit > 0) then Some limit else None)
                         (if decide (skip >= 0) then Some skip else None) in
  cursor ← coll_Find flt o;
  r ← cursor_All cursor;
  match r with
  | Err e => mret (Err ("failed to decode tasks: " ++ e))
  | Ok todos => mret (Ok todos)
  end.

(** [GetTodoByID]: [ErrNoDocuments] becomes [(nil, nil)]. *)
Definition GetTodoByID (id : ObjectID) : M (result (option Todo)) :=
  r ← coll_FindOne id;
  match r with
  | Err e => mret (Err ("Fail the to search the task by ID! error: " ++ e))
  | Ok o => mret (Ok o)
  end.

(** The [$set] document: [title], [description], [complete] and
    [updatedAt] (stored in milliseconds); [_id] and [createdAt] stay. *)
Definition set_update (todo : Todo) (doc : Todo) : Todo :=
  mkTodo (ID doc) (Title todo) (Description todo) (Complete todo)
         (CreatedAt doc) (bson_time (UpdatedAt todo)).

(** [UpdateTodo]: refreshes [UpdatedAt], rewrites the four fields,
    returns the document after the update. *)
Definition UpdateTodo (id : ObjectID) (todo : Todo) : M (result (option Todo)) :=
  now ← time_Now;
  let todo' := mkTodo (ID todo) (Title todo) (Description todo) (Complete todo)
                      (CreatedAt todo) now in
  r ← coll_FindOneAndUpdate id (set_update todo');
  match r with
  | Err e => mret (Err ("Fail the update task: " ++ e))
  | Ok o => mret (Ok o)
  end.

(** [DeleteTodo]: no document deleted is an error. *)
Definition DeleteTodo (id : ObjectID) : M (result unit) :=
  r ← coll_DeleteOne id;
  match r with
  | Err e => mret (Err ("Fail the to delete task: " ++ e))
  | Ok n => if decide (n = 0) then mret (Err "No tasks found with id to delete")
            else mret (Ok tt)
  end.

(** [CountTodos]: the driver's error is dropped from the message. *)
Definition CountTodos (flt : Filter) : M (result Z) :=
  r ← coll_CountDocuments flt;
  match r with
  | Err _ => mret (Err "Fail the to count tasks")
  | Ok n => mret (Ok n)
  end.
End Methods.
End TodoRepo.

(** [NewTodoRepository]. *)
#[export] Instance mongoRepository `{RegexEngine} : TodoRepository := {
  repo_CreateTodo := TodoRepo.CreateTodo;
  repo_GetAll := TodoRepo.GetAll;
  repo_GetTodoByID := TodoRepo.GetTodoByID;
  repo_UpdateTodo := TodoRepo.UpdateTodo;
  repo_DeleteTodo := TodoRepo.DeleteTodo;
  repo_CountTodos := TodoRepo.CountTodos
}.

(** ** The worlds and documents of the closed forms *)

Definition updated_doc (todo : Todo) (now : Z) : Todo -> Todo :=
  TodoRepo.set_update (mkTodo (ID todo) (Title todo) (Description todo) (Complete todo)
                         (CreatedAt todo) now).

(** The document [CreateTodo] builds from [todo] in world [w], and the
    worlds after its id and its two timestamps. *)
Definition create_w1 (w : World) : World :=
  let w0 := tick w in with_gen (NewObjectID (clock w0) (oidgen w0)).2 w0.
Definition create_w3 (w : World) : World := tick (tick (create_w1 w)).
Definition created_doc (todo : Todo) (w : World) : Todo :=
  mkTodo (NewObjectID (clock (tick w)) (oidgen (tick w))).1
    (Title todo) (Description todo) (Complete todo)
    (clock (tick (create_w1 w))) (clock (create_w3 w)).

(** The id [CreateTodo] will stamp next. *)
Definition next_oid (w : World) : ObjectID := (NewObjectID (clock (tick w)) (oidgen (tick w))).1.

Definition getall_options (limit skip : Z) : FindOptions :=
  mkFindOptions (if decide (limit > 0) then Some limit else None)
                (if decide (skip >= 0) then Some skip else None).

(** ** The methods in closed form

    Each method's result and final world, as a function of the next fault
    and the clock.  [w1], [w2], ... are the worlds after each clock reading
    and round trip. *)

Section Spec.
Context `{RX : RegexEngine}.

Lemma GetTodoByID_spec id w :
  TodoRepo.GetTodoByID id w =
    (Done (match next_fault w with
           | Some e => Err ("Fail the to search the task by ID! error: " ++ e)
           | None => Ok (find_one id (todos w))
           end), pop_fault w).
Proof. unfold TodoRepo.GetTodoByID, coll_FindOne. run_world. by destruct (next_fault w). Qed.


Lemma UpdateTodo_spec id todo w :
  TodoRepo.UpdateTodo id todo w =
    let w1 := tick w in
    match next_fault w1 with
    | Some e => (Done (Err ("Fail the update task: " ++ e)), pop_fault w1)
    | None =>
        (Done (Ok (find_one_and_update id (updated_doc todo (clock w1)) (todos w1)).1),
         with_todos (find_one_and_update id (updated_doc todo (clock w1)) (todos w1)).2
           (pop_fault w1))
    end.
Proof.
  unfold TodoRepo.UpdateTodo, coll_FindOneAndUpdate. run_world.
  destruct (next_fault (tick w)); [done|].
  replace (todos (pop_fault (tick w))) with (todos (tick w)) by reflexivity.
  by destruct (find_one_and_update _ _ _).
Qed.

Lemma DeleteTodo_spec id w :
  TodoRepo.DeleteTodo id w =
    match next_fault w with
    | Some e => (Done (Err ("Fail the to delete task: " ++ e)), pop_fault w)
    | None =>
        (Done (if decide ((delete_one id (todos w)).1 = 0)
               then Err "No tasks found with id to delete" else Ok tt),
         with_todos (delete_one id (todos w)).2 (pop_fault w))
    end.
Proof.
  unfold TodoRepo.DeleteTodo, coll_DeleteOne. run_world.
  destruct (next_fault w); [done|].
  replace (todos (pop_fault w)) with (todos w) by reflexivity.
  destruct (delete_one id (todos w)) as [n docs']. cbn [fst snd]. by case_decide.
Qed.


Lemma CreateTodo_spec todo w :
  TodoRepo.CreateTodo todo w =
    let w3 := create_w3 w in
    let doc := created_doc todo w in
    match next_fault w3 with
    | Some e => (Done (Err ("Error the to create task: " ++ e)), pop_fault w3)
    | None =>
        match insert_one doc (todos w3) with
        | Err e => (Done (Err ("Error the to create task: " ++ e)), pop_fault w3)
        | Ok docs' => (Done (Ok doc), with_todos docs' (pop_fault w3))
        end
    end.
Proof.
  unfold TodoRepo.CreateTodo, coll_InsertOne, new_object_id, next_object_id. run_world.
  destruct (next_fault _); [done|]. by destruct (insert_one _ _).
Qed.

(** A failed [Find] panics; a failed drain is an error. *)
Lemma GetAll_spec flt limit skip w :
  TodoRepo.GetAll flt limit skip w =
    match next_fault w with
    | Some _ => (Panicked nil_deref, pop_fault w)
    | None =>
        let w1 := pop_fault w in
        (Done (match next_fault w1 with
               | Some e => Err ("failed to decode tasks: " ++ e)
               | None => Ok (find flt (getall_options limit skip) (todos w))
               end), pop_fault w1)
    end.
Proof.
  unfold TodoRepo.GetAll, coll_Find, cursor_All. run_world.
  destruct (next_fault w); [done|]. by destruct (next_fault (pop_fault w)).
Qed.

Lemma CountTodos_spec flt w :
  TodoRepo.CountTodos flt w =
    (Done (match next_fault w with
           | Some _ => Err "Fail the to count tasks"
           | None => Ok (count_documents flt (todos w))
           end), pop_fault w).
Proof. unfold TodoRepo.CountTodos, coll_CountDocuments. run_world. by destruct (next_fault w). Qed.
End Spec.
