(* ===== verification/Service.v ===== *)
(** * Service: [services.TodoService] and [todoService]

    src/services/todo_service.go.  The Go interface [TodoService] is the
    class [TodoService]; [todoService], which holds a [TodoRepository] and
    a validator, is the instance [todoService] over any repository
    instance.  Each method parses the id string with [ObjectIDFromHex],
    validates with [StructPartial], calls the repository and translates its
    errors into the texts the handlers compare.

    [validate.StructPartial(todo, fields...)] (go-playground/validator)
    checks the tags of the listed fields only: [models.Todo] has one tag,
    [validate:"required"] on [Title] (src/models/todo.go:11).  [CreateTodo]
    lists no field, so it checks nothing; [UpdateTodo] lists [Title], so an
    update must carry a non-empty title. *)

From S2P Require Import Prelude ObjectId Model Store Repository.
Open Scope Z_scope.

(** ** The validator *)

(** [FieldError.Error()] for the [required] tag of [Todo.Title]. *)
Definition title_required_error : string :=
  "Key: 'Todo.Title' Error:Field validation for 'Title' failed on the 'required' tag".

(** [StructPartial(todo, fields...)]: only listed fields are validated. *)
Definition StructPartial (todo : Todo) (fields : list string) : result unit :=
  if decide ("Title" ∈ fields /\ Title todo = "") then Err title_required_error
  else Ok tt.

(** ** The interface [services.TodoService] *)

Class TodoService := {
  svc_CreateTodo : Todo -> M (result Todo);
  svc_GetAllTodos : string -> option bool -> Z -> Z -> M (result (list Todo * Z));
  svc_GetTodoByID : string -> M (result Todo);
  svc_UpdateTodo : string -> Todo -> M (result (option Todo));
  svc_DeleteTodo : string -> M (result unit);
  svc_ToggleTodoComplete : string -> M (result (option Todo))
}.

(** ** [todoService] *)

Module TodoSvc.
Section Methods.
Context `{Repo : TodoRepository}.

(** [CreateTodo]: [StructPartial(todo)] with no field never fails. *)
Definition CreateTodo (todo : Todo) : M (result Todo) :=
  match StructPartial todo [] with
  | Err _ => mret (Err "Error the update task")
  | Ok _ => repo_CreateTodo todo
  end.

(** The [primitive.M] filter of [GetAllTodos]. *)
Definition list_filter (title : string) (complete : option bool) : Filter :=
  mkFilter (if decide (title <> "") then Some title else None) complete.

(** [GetAllTodos]: [skip := int64((page - 1) * pagSize)] in Go's 64-bit
    [int]; the page is fetched, then the matching documents counted. *)
Definition GetAllTodos (title : string) (complete : option bool) (page pagSize : Z)
    : M (result (list Todo * Z)) :=
  let flt := list_filter title complete in
  let skip := mul64 (sub64 page 1) pagSize in
  let limit := pagSize in
  r ← repo_GetAll flt limit skip;
  match r with
  | Err e => mret (Err e)
  | Ok todos =>
      c ← repo_CountTodos flt;
      match c with
      | Err e => mret (Err e)
      | Ok total => mret (Ok (todos, total))
      end
  end.

Definition GetTodoByID (id : string) : M (result Todo) :=
  match ObjectIDFromHex id with
  | Err _ => mret (Err "Id is Invalid")
  | Ok oid =>
      r ← repo_GetTodoByID oid;
      match r with
      | Err e => mret (Err e)
      | Ok None => mret (Err "Task not found")
      | Ok (Some t) => mret (Ok t)
      end
  end.

(** The merge of [UpdateTodo]: non-empty [Title] and [Description]
    replace the stored ones; [Complete] is always copied. *)
Definition merge_update (checkTodo todo : Todo) : Todo :=
  mkTodo (ID checkTodo)
    (if decide (Title todo <> "") then Title todo else Title checkTodo)
    (if decide (Description todo <> "") then Description todo else Description checkTodo)
    (Complete todo) (CreatedAt checkTodo) (UpdatedAt checkTodo).

Definition UpdateTodo (id : string) (todo : Todo) : M (result (option Todo)) :=
  match ObjectIDFromHex id with
  | Err _ => mret (Err "Id is Invalid")
  | Ok oid =>
      match StructPartial todo ["Title"; "Description"; "Complete"] with
      | Err e => mret (Err ("Validation error: " ++ e))
      | Ok _ =>
          r ← repo_GetTodoByID oid;
          match r with
          | Err _ => mret (Err "Error the check if todo exists!")
          | Ok None => mret (Err "Todo not found")
          | Ok (Some checkTodo) =>
              u ← repo_UpdateTodo oid (merge_update checkTodo todo);
              match u with
              | Err _ => mret (Err "Error the update if todo exists!")
              | Ok o => mret (Ok o)
              end
          end
      end
  end.

Definition DeleteTodo (id : string) : M (result unit) :=
  match ObjectIDFromHex id with
  | Err e => mret (Err ("Id is invalid! Error: " ++ e))
  | Ok oid =>
      r ← repo_DeleteTodo oid;
      match r with
      | Err e => mret (Err e)
      | Ok _ => mret (Ok tt)
      end
  end.

(** [ToggleTodoComplete] as the code composes it: a read, then a write
    of the flipped document.  The two halves are named so that
    interleavings of concurrent toggles can be stated (see [System]). *)
Definition toggle_read (oid : ObjectID) : M (result Todo) :=
  r ← repo_GetTodoByID oid;
  match r with
  | Err _ => mret (Err "Error the check if todo exists before change status complete")
  | Ok None => mret (Err "Task not found")
  | Ok (Some t) => mret (Ok t)
  end.

Definition flip_complete (t : Todo) : Todo :=
  mkTodo (ID t) (Title t) (Description t) (negb (Complete t)) (CreatedAt t) (UpdatedAt t).

Definition toggle_write (oid : ObjectID) (t : Todo) : M (result (option Todo)) :=
  u ← repo_UpdateTodo oid (flip_complete t);
  match u with
  | Err e => mret (Err e)
  | Ok o => mret (Ok o)
  end.

Definition ToggleTodoComplete (id : string) : M (result (option Todo)) :=
  match ObjectIDFromHex id with
  | Err _ => mret (Err "Id is Invalid")
  | Ok oid =>
      r ← toggle_read oid;
      match r with
      | Err e => mret (Err e)
      | Ok t => toggle_write oid t
      end
  end.
End Methods.
End TodoSvc.

(** [NewTodoService(repo)]. *)
#[export] Instance todoService `{TodoRepository} : TodoService := {
  svc_CreateTodo := TodoSvc.CreateTodo;
  svc_GetAllTodos := TodoSvc.GetAllTodos;
  svc_GetTodoByID := TodoSvc.GetTodoByID;
  svc_UpdateTodo := TodoSvc.UpdateTodo;
  svc_DeleteTodo := TodoSvc.DeleteTodo;
  svc_ToggleTodoComplete := TodoSvc.ToggleTodoComplete
}.

(** ** The methods over [mongoRepository], in closed form *)

Lemma bind_unfold {A B} (m : M A) (k : A -> M B) (w : World) :
  (x ← m; k x) w = match m w with (Done a, w') => k a w' | (Panicked p, w') => (Panicked p, w') end.
Proof. reflexivity. Qed.

(** Re-raising every error unchanged is running the computation itself. *)
Lemma bind_result_id {A} (m : M (result A)) (w : World) :
  (u ← m; match u with Err e => mret (Err e) | Ok o => mret (Ok o) end) w = m w.
Proof. rewrite bind_unfold. by destruct (m w) as [[[o|e]|p] w']. Qed.

Section MongoService.
Context `{RX : RegexEngine}.

Lemma svc_CreateTodo_spec todo w : TodoSvc.CreateTodo todo w = TodoRepo.CreateTodo todo w.
Proof. reflexivity. Qed.

Lemma svc_GetTodoByID_spec id w :
  TodoSvc.GetTodoByID id w =
    match ObjectIDFromHex id with
    | Err _ => (Done (Err "Id is Invalid"), w)
    | Ok oid =>
        (Done (match next_fault w with
               | Some e => Err ("Fail the to search the task by ID! error: " ++ e)
               | None => match find_one oid (todos w) with
                         | None => Err "Task not found"
                         | Some t => Ok t
                         end
               end), pop_fault w)
    end.
Proof.
  unfold TodoSvc.GetTodoByID. destruct (ObjectIDFromHex id) as [oid|]; [|done].
  rewrite bind_unfold. change (repo_GetTodoByID oid w) with (TodoRepo.GetTodoByID oid w).
  rewrite GetTodoByID_spec. destruct (next_fault w); [done|]. by destruct (find_one oid (todos w)).
Qed.

Lemma svc_DeleteTodo_spec id w :
  TodoSvc.DeleteTodo id w =
    match ObjectIDFromHex id with
    | Err e => (Done (Err ("Id is invalid! Error: " ++ e)), w)
    | Ok oid => TodoRepo.DeleteTodo oid w
    end.
Proof.
  unfold TodoSvc.DeleteTodo. destruct (ObjectIDFromHex id) as [oid|]; [|done].
  rewrite bind_unfold. change (repo_DeleteTodo oid w) with (TodoRepo.DeleteTodo oid w).
  by destruct (TodoRepo.DeleteTodo oid w) as [[[[]|e]|p] w'].
Qed.

Lemma svc_Toggle_spec id w :
  TodoSvc.ToggleTodoComplete id w =
    match ObjectIDFromHex id with
    | Err _ => (Done (Err "Id is Invalid"), w)
    | Ok oid =>
        match next_fault w with
        | Some _ => (Done (Err "Error the check if todo exists before change status complete"),
                     pop_fault w)
        | None =>
            match find_one oid (todos w) with
            | None => (Done (Err "Task not found"), pop_fault w)
            | Some t => TodoRepo.UpdateTodo oid (TodoSvc.flip_complete t) (pop_fault w)
            end
        end
    end.
Proof.
  unfold TodoSvc.ToggleTodoComplete. destruct (ObjectIDFromHex id) as [oid|]; [|done].
  rewrite bind_unfold. unfold TodoSvc.toggle_read. rewrite bind_unfold.
  change (repo_GetTodoByID oid w) with (TodoRepo.GetTodoByID oid w).
  rewrite GetTodoByID_spec. destruct (next_fault w); [done|].
  destruct (find_one oid (todos w)); [|done]. unfold TodoSvc.toggle_write. apply bind_result_id.
Qed.

Lemma svc_UpdateTodo_spec id todo w :
  TodoSvc.UpdateTodo id todo w =
    match ObjectIDFromHex id with
    | Err _ => (Done (Err "Id is Invalid"), w)
    | Ok oid =>
        match StructPartial todo ["Title"; "Description"; "Complete"] with
        | Err e => (Done (Err ("Validation error: " ++ e)), w)
        | Ok _ =>
            match next_fault w with
            | Some _ => (Done (Err "Error the check if todo exists!"), pop_fault w)
            | None =>
                match find_one oid (todos w) with
                | None => (Done (Err "Todo not found"), pop_fault w)
                | Some c =>
                    let w1 := tick (pop_fault w) in
                    let upd := updated_doc (TodoSvc.merge_update c todo) (clock w1) in
                    match next_fault w1 with
                    | Some _ => (Done (Err "Error the update if todo exists!"), pop_fault w1)
                    | None => (Done (Ok (find_one_and_update oid upd (todos w1)).1),
                               with_todos (find_one_and_update oid upd (todos w1)).2 (pop_fault w1))
                    end
                end
            end
        end
    end.
Proof.
  unfold TodoSvc.UpdateTodo. destruct (ObjectIDFromHex id) as [oid|]; [|done].
  destruct (StructPartial _ _); [|done].
  rewrite bind_unfold. change (repo_GetTodoByID oid w) with (TodoRepo.GetTodoByID oid w).
  rewrite GetTodoByID_spec. destruct (next_fault w); [done|].
  destruct (find_one oid (todos w)) as [c|]; [|done].
  rewrite bind_unfold.
  change (repo_UpdateTodo oid _ (pop_fault w)) with (TodoRepo.UpdateTodo oid (TodoSvc.merge_update c todo) (pop_fault w)).
  rewrite UpdateTodo_spec. cbv zeta. by destruct (next_fault (tick (pop_fault w))).
Qed.

Lemma svc_GetAllTodos_spec title complete page pagSize w :
  TodoSvc.GetAllTodos title complete page pagSize w =
    let flt := TodoSvc.list_filter title complete in
    let o := getall_options pagSize (mul64 (sub64 page 1) pagSize) in
    match next_fault w with
    | Some _ => (Panicked nil_deref, pop_fault w)
    | None =>
        let w1 := pop_fault w in
        match next_fault w1 with
        | Some e => (Done (Err ("failed to decode tasks: " ++ e)), pop_fault w1)
        | None =>
            let w2 := pop_fault w1 in
            (Done (match next_fault w2 with
                   | Some _ => Err "Fail the to count tasks"
                   | None => Ok (find flt o (todos w), count_documents flt (todos w))
                   end), pop_fault w2)
        end
    end.
Proof.
  unfold TodoSvc.GetAllTodos. rewrite bind_unfold.
  change (repo_GetAll ?f ?l ?s w) with (TodoRepo.GetAll f l s w).
  rewrite GetAll_spec. cbv zeta. destruct (next_fault w); [done|].
  destruct (next_fault (pop_fault w)); [done|]. rewrite bind_unfold.
  change (repo_CountTodos ?f ?w') with (TodoRepo.CountTodos f w'). rewrite CountTodos_spec.
  by destruct (next_fault (pop_fault (pop_fault w))).
Qed.

(** What the filter of [GetAllTodos] lets through. *)
Lemma list_filter_matches title complete t :
  filter_matches (TodoSvc.list_filter title complete) t = true ->
  (title <> "" -> regex_search title (Title t) = true) /\
  (forall b, complete = Some b -> Complete t = b).
Proof.
  unfold filter_matches, TodoSvc.list_filter. cbn [filter_title filter_complete].
  rewrite andb_true_iff. intros [Ht Hc]. split.
  - intros Hne. by rewrite decide_True in Ht.
  - intros b ->. by apply Bool.eqb_prop.
Qed.

(** C7: [GetAllTodos] on page [page >= 1] of size [pagSize >= 1], with an
    offset that fits in [int64] and no store failure, answers the page
    and the number of matching tasks: the page is sorted newest first,
    holds [min(pagSize, total - offset)] tasks, each of them stored,
    matching the title pattern when one is given (for a pattern without
    metacharacters: containing it, up to case) and having the requested
    [complete] flag when one is given. *)
Theorem GetAllTodos_page title complete page pagSize w :
  faults w = [] -> 1 <= page -> 1 <= pagSize -> in_int64 ((page - 1) * pagSize) ->
  exists items,
    TodoSvc.GetAllTodos title complete page pagSize w =
      (Done (Ok (items, count_documents (TodoSvc.list_filter title complete) (todos w))), w) /\
    StronglySorted created_desc items /\
    Z.of_nat (length items) =
      Z.min pagSize (Z.max 0 (count_documents (TodoSvc.list_filter title complete) (todos w)
                              - (page - 1) * pagSize)) /\
    forall t, t ∈ items ->
      t ∈ todos w /\
      (title <> "" -> regex_search title (Title t) = true) /\
      (literal_pattern title = true -> contains (string_lower title) (string_lower (Title t)) = true) /\
      (forall b, complete = Some b -> Complete t = b).
Proof.
  intros Hq Hp Hps Hoff. rewrite svc_GetAllTodos_spec. cbv zeta. quiet Hq.
  rewrite sub64_exact, mul64_exact by (unfold in_int64, int64_min, int64_max in *; nia).
  unfold getall_options. rewrite decide_True, decide_True by nia.
  eexists. split; [reflexivity|]. split_and!; [apply find_sorted|apply find_length; nia|].
  intros t Ht. apply find_elem in Ht as [Hin Hm].
  destruct (list_filter_matches _ _ _ Hm) as [Htitle Hc]. split_and!; [done|done| |done].
  intros Hlit. destruct (decide (title = "")) as [->|Hne]; [apply contains_spec; by exists EmptyString, (string_lower (Title t))|].
  rewrite <- regex_search_literal by done. by apply Htitle.
Qed.
(** The tasks a list answer carries (none for an error or a panic). *)
Definition page_items (o : outcome (result (list Todo * Z))) : list Todo :=
  match o with Done (Ok (items, _)) => items | _ => [] end.

(** Page [page] is the slice [[(page - 1) * pagSize, page * pagSize)] of
    the whole sorted listing. *)
Lemma GetAllTodos_page_items title complete page pagSize w :
  faults w = [] -> 1 <= page -> 1 <= pagSize -> in_int64 ((page - 1) * pagSize) ->
  page_items (TodoSvc.GetAllTodos title complete page pagSize w).1 =
    take (Z.to_nat pagSize) (drop (Z.to_nat ((page - 1) * pagSize))
      (find (TodoSvc.list_filter title complete) (mkFindOptions None None) (todos w))).
Proof.
  intros Hq Hp Hps Hoff. rewrite svc_GetAllTodos_spec. cbv zeta. quiet Hq.
  rewrite sub64_exact, mul64_exact by (unfold in_int64, int64_min, int64_max in *; nia).
  unfold getall_options. rewrite decide_True, decide_True by nia.
  unfold find. cbn. rewrite decide_False by lia. by rewrite Z.abs_eq by lia.
Qed.

End MongoService.

(** ** The offset of [GetAllTodos] in 64 bits *)

Section Offset.
Context `{Repo : TodoRepository}.

(** [int64((page - 1) * pagSize)] only depends on the product modulo
    [2^64]. *)
Lemma offset_wrap page page' pagSize :
  in_int64 (page - 1) -> in_int64 (page' - 1) ->
  ((page - 1) * pagSize - (page' - 1) * pagSize) mod 2 ^ 64 = 0 ->
  mul64 (sub64 page 1) pagSize = mul64 (sub64 page' 1) pagSize.
Proof.
  intros H1 H2 Hm. unfold mul64. rewrite !sub64_exact by done.
  apply Z.mod_divide in Hm as [k Hk]; [|lia].
  replace ((page - 1) * pagSize) with ((page' - 1) * pagSize + k * 2 ^ 64) by lia.
  apply wrap64_add_mod.
Qed.

(** C36: two pages whose offsets [(page - 1) * pagSize] agree modulo
    [2^64] are the same request to the repository, whatever it is: with
    [pagSize = 2^32], page [2^32 + 1] returns page 1 (the offset wraps
    to 0). *)
Theorem GetAllTodos_offset_wrap title complete page page' pagSize (w : World) :
  in_int64 (page - 1) -> in_int64 (page' - 1) ->
  ((page - 1) * pagSize - (page' - 1) * pagSize) mod 2 ^ 64 = 0 ->
  TodoSvc.GetAllTodos title complete page pagSize w =
  TodoSvc.GetAllTodos title complete page' pagSize w.
Proof. intros H1 H2 Hm. unfold TodoSvc.GetAllTodos. by rewrite (offset_wrap page page'). Qed.
End Offset.
