(* ===== verification/Strconv.v ===== *)
(** * Strconv: [strconv.Atoi] and [strconv.ParseBool]

    The list handler (src/handlers/todo_handler.go, [GetAllTodos]) reads
    [page] and [pageSize] with [strconv.Atoi] and [complete] with
    [strconv.ParseBool].  Both are library functions; they are modelled
    after Go's strconv source for a 64-bit [int]: [Atoi] has a fast path
    for strings of 1 to 18 bytes that accumulates [n*10 + d] without
    overflow checks, and otherwise calls [ParseInt(s, 10, 0)], which calls
    [ParseUint] with its [uint64] overflow checks.  Only success or failure
    matters to the handler, so errors carry the [NumError.Err] text only.

    Theorem: [Atoi] agrees with the reference reading (optional sign,
    decimal digits, value within [int64]) on every string; in particular
    the unchecked fast path never wraps. *)

From S2P Require Import Prelude.
Open Scope Z_scope.

Definition ErrSyntax : string := "invalid syntax".
Definition ErrRange : string := "value out of range".

Definition digit_value (c : Ascii.ascii) : option Z :=
  let n := Z.of_nat (Ascii.nat_of_ascii c) in
  if decide (48 <= n <= 57) then Some (n - 48) else None.

(** ** The reference reading *)

Fixpoint digits_value (s : string) (acc : Z) : option Z :=
  match s with
  | EmptyString => Some acc
  | String c s' =>
      match digit_value c with
      | Some d => digits_value s' (acc * 10 + d)
      | None => None
      end
  end.

(** [s] split into its sign and the rest. *)
Definition split_sign (s : string) : bool * string :=
  match s with
  | String c s' =>
      if decide (Ascii.nat_of_ascii c = 45%nat) then (true, s')
      else if decide (Ascii.nat_of_ascii c = 43%nat) then (false, s')
      else (false, s)
  | EmptyString => (false, s)
  end.

Definition atoi_ref (s : string) : option Z :=
  let '(neg, body) := split_sign s in
  match body with
  | EmptyString => None
  | _ =>
      match digits_value body 0 with
      | Some v => let n := if neg then - v else v in
                  if decide (in_int64 n) then Some n else None
      | None => None
      end
  end.

(** ** [ParseUint(s, 10, 64)] and [ParseInt(s, 10, 64)] *)

Definition maxUint64 : Z := 2 ^ 64 - 1.
Definition cutoff10 : Z := maxUint64 / 10 + 1.

(** The loop of [ParseUint]: [n >= cutoff] or a carry out of [n + d] is a
    range error; a non-digit is a syntax error. *)
Fixpoint parse_uint_loop (s : string) (n : Z) : result Z :=
  match s with
  | EmptyString => Ok n
  | String c s' =>
      match digit_value c with
      | None => Err ErrSyntax
      | Some d =>
          if decide (n >= cutoff10) then Err ErrRange
          else
            let n' := (n * 10) mod 2 ^ 64 in
            let n1 := (n' + d) mod 2 ^ 64 in
            if decide (n1 < n' \/ n1 > maxUint64) then Err ErrRange
            else parse_uint_loop s' n1
      end
  end.

Definition ParseUint (s : string) : result Z :=
  match s with EmptyString => Err ErrSyntax | _ => parse_uint_loop s 0 end.

Definition ParseInt (s : string) : result Z :=
  match s with
  | EmptyString => Err ErrSyntax
  | _ =>
      let '(neg, body) := split_sign s in
      match ParseUint body with
      | Err e => if decide (e = ErrRange) then Err ErrRange else Err e
      | Ok un =>
          let cutoff := 2 ^ 63 in
          if decide (negb neg = true /\ un >= cutoff) then Err ErrRange
          else if decide (neg = true /\ un > cutoff) then Err ErrRange
          else Ok (if neg then - un else un)
      end
  end.

(** ** [Atoi] *)

(** The fast path's loop: [n = n*10 + int(ch)] in [int], unchecked. *)
Fixpoint atoi_fast_loop (s : string) (n : Z) : result Z :=
  match s with
  | EmptyString => Ok n
  | String c s' =>
      match digit_value c with
      | None => Err ErrSyntax
      | Some d => atoi_fast_loop s' (add64 (mul64 n 10) d)
      end
  end.

Definition Atoi (s0 : string) : result Z :=
  let sLen := String.length s0 in
  if decide (0 < sLen < 19)%nat then
    let '(neg, s) := split_sign s0 in
    match s with
    | EmptyString => Err ErrSyntax
    | _ =>
        match atoi_fast_loop s 0 with
        | Err e => Err e
        | Ok n => Ok (if neg then - n else n)
        end
    end
  else ParseInt s0.

(** [ParseBool]. *)
Definition ParseBool (str : string) : result bool :=
  if decide (str ∈ ["1"; "t"; "T"; "TRUE"; "true"; "True"]) then Ok true
  else if decide (str ∈ ["0"; "f"; "F"; "FALSE"; "false"; "False"]) then Ok false
  else Err ErrSyntax.

(** ** [Atoi] agrees with the reference reading *)

Lemma digit_value_range c d : digit_value c = Some d -> 0 <= d <= 9.
Proof. unfold digit_value. case_decide; intros; simplify_eq; lia. Qed.

Lemma pow10_pos k : 0 < 10 ^ Z.of_nat k.
Proof. apply Z.pow_pos_nonneg; lia. Qed.

(** A run of digits read after [n] lies in [[n*10^k, (n+1)*10^k)]. *)
Lemma digits_value_bounds s n v :
  0 <= n -> digits_value s n = Some v ->
  n * 10 ^ Z.of_nat (String.length s) <= v < (n + 1) * 10 ^ Z.of_nat (String.length s).
Proof.
  revert n. induction s as [|c s IH]; intros n Hn; simpl.
  - intros [= <-]. lia.
  - destruct (digit_value c) as [d|] eqn:Hd; [|done]. intros Hv.
    apply digit_value_range in Hd.
    destruct (IH (n * 10 + d) ltac:(lia) Hv) as [Hlo Hhi].
    rewrite Nat2Z.inj_succ, Z.pow_succ_r by lia.
    pose proof (pow10_pos (String.length s)). nia.
Qed.

(** The fast path's unchecked arithmetic stays exact while the value can
    still gain [|s|] digits below [2^63]. *)
Lemma atoi_fast_loop_exact s n :
  0 <= n -> (n + 1) * 10 ^ Z.of_nat (String.length s) <= 2 ^ 63 ->
  ok_value (atoi_fast_loop s n) = digits_value s n.
Proof.
  revert n. induction s as [|c s IH]; intros n Hn Hb; simpl; [done|].
  destruct (digit_value c) as [d|] eqn:Hd; [|done]. apply digit_value_range in Hd.
  cbn [String.length] in Hb. rewrite Nat2Z.inj_succ, Z.pow_succ_r in Hb by lia.
  pose proof (pow10_pos (String.length s)).
  unfold add64, mul64. rewrite (wrap64_id (n * 10)) by (unfold in_int64, int64_min, int64_max; nia).
  rewrite wrap64_id by (unfold in_int64, int64_min, int64_max; nia).
  apply IH; [lia|nia].
Qed.

Lemma digits_value_ge s n v : 0 <= n -> digits_value s n = Some v -> n <= v.
Proof.
  intros Hn Hv. pose proof (digits_value_bounds s n v Hn Hv).
  pose proof (pow10_pos (String.length s)). nia.
Qed.

Lemma cutoff10_val : cutoff10 = 1844674407370955162.
Proof. reflexivity. Qed.

(** [ParseUint]'s loop succeeds exactly on digit runs that fit 64 bits. *)
Lemma parse_uint_loop_spec s n :
  0 <= n <= maxUint64 ->
  ok_value (parse_uint_loop s n) =
    match digits_value s n with
    | Some v => if decide (v <= maxUint64) then Some v else None
    | None => None
    end.
Proof.
  revert n. induction s as [|c s IH]; intros n Hn; simpl; rewrite ?cutoff10_val; unfold maxUint64 in *.
  - by rewrite decide_True by lia.
  - destruct (digit_value c) as [d|] eqn:Hd; [|done]. apply digit_value_range in Hd.
    case_decide as Hcut.
    + destruct (digits_value s (n * 10 + d)) as [v|] eqn:Hv; [|done].
      apply digits_value_ge in Hv; [|lia]. rewrite decide_False by lia. done.
    + rewrite (Z.mod_small (n * 10)) by lia.
      destruct (decide (n * 10 + d < 2 ^ 64)) as [Hfit|Hover].
      * rewrite Z.mod_small by lia. rewrite decide_False by lia. apply IH. lia.
      * rewrite decide_True.
        -- destruct (digits_value s (n * 10 + d)) as [v|] eqn:Hv; [|done].
           apply digits_value_ge in Hv; [|lia]. rewrite decide_False by lia. done.
        -- left. rewrite Zmod_eq_full by lia.
           assert ((n * 10 + d) / 2 ^ 64 = 1) as ->; [|lia].
           symmetry. apply Z.div_unique_pos with (n * 10 + d - 2 ^ 64); lia.
Qed.

Lemma split_sign_length s : (String.length (split_sign s).2 <= String.length s)%nat.
Proof. destruct s as [|c s]; simpl; [lia|]. repeat case_decide; simpl; lia. Qed.

(** The signed range check of the reference on a digit value [v]. *)
Lemma ref_sign_check (neg : bool) v :
  0 <= v ->
  (if decide (in_int64 (if neg then - v else v)) then Some (if neg then - v else v) else None) =
  (if decide (negb neg = true /\ v >= 2 ^ 63) then None
   else if decide (neg = true /\ v > 2 ^ 63) then None
   else Some (if neg then - v else v)).
Proof.
  intros Hv. unfold in_int64, int64_min, int64_max.
  destruct neg; simpl; repeat case_decide; try done; exfalso; intuition (try discriminate; lia).
Qed.

(** [ParseInt(s, 10, 64)] is the reference reading. *)
Lemma ParseInt_spec s : ok_value (ParseInt s) = atoi_ref s.
Proof.
  unfold ParseInt, atoi_ref. destruct s as [|c0 s0]; [done|].
  destruct (split_sign (String c0 s0)) as [neg body]. unfold ParseUint.
  destruct body as [|c body]; [done|].
  pose proof (parse_uint_loop_spec (String c body) 0 ltac:(unfold maxUint64; lia)) as Hspec.
  destruct (parse_uint_loop (String c body) 0) as [un|e]; cbn [ok_value] in Hspec.
  - destruct (digits_value (String c body) 0) as [v|] eqn:Hd; [|congruence].
    case_decide; [|congruence]. injection Hspec as <-.
    pose proof (digits_value_ge _ 0 _ ltac:(lia) Hd).
    rewrite ref_sign_check by lia. by repeat case_decide.
  - assert (ok_value (if decide (e = ErrRange) then @Err Z ErrRange else Err e) = None) as ->
      by (by case_decide).
    destruct (digits_value (String c body) 0) as [v|] eqn:Hd; [|done].
    case_decide as Hv; [congruence|].
    pose proof (digits_value_ge _ 0 _ ltac:(lia) Hd).
    rewrite decide_False; [done|].
    unfold in_int64, int64_min, int64_max, maxUint64 in *. destruct neg; lia.
Qed.

(** The fast path on a body of at most 18 digits. *)
Lemma atoi_fast_spec (neg : bool) (body : string) :
  body <> EmptyString -> (String.length body <= 18)%nat ->
  ok_value (match atoi_fast_loop body 0 with
            | Err e => @Err Z e | Ok n => Ok (if neg then - n else n) end) =
  match digits_value body 0 with
  | Some v => let n := if neg then - v else v in
              if decide (in_int64 n) then Some n else None
  | None => None
  end.
Proof.
  intros Hne Hlen.
  assert (10 ^ Z.of_nat (String.length body) <= 10 ^ 18)
    by (apply Z.pow_le_mono_r; lia).
  assert (Hex : ok_value (atoi_fast_loop body 0) = digits_value body 0)
    by (apply atoi_fast_loop_exact; lia).
  destruct (atoi_fast_loop body 0) as [n|e]; simpl in Hex; rewrite <- Hex; [|done].
  pose proof (digits_value_bounds body 0 n ltac:(lia) (eq_sym Hex)).
  rewrite decide_True; [done|]. unfold in_int64, int64_min, int64_max. destruct neg; lia.
Qed.

(** [strconv.Atoi], with its unchecked fast path for short strings and
    its [ParseInt] slow path, succeeds exactly on an optional sign followed
    by decimal digits whose value fits in [int64], and returns that value. *)
Theorem Atoi_spec (s : string) : ok_value (Atoi s) = atoi_ref s.
Proof.
  unfold Atoi. case_decide as Hlen; [|apply ParseInt_spec].
  unfold atoi_ref. pose proof (split_sign_length s) as Hsl.
  destruct (split_sign s) as [neg body]. simpl in Hsl.
  destruct body as [|c body]; [done|]. apply atoi_fast_spec; [done|lia].
Qed.
