(* ===== verification/Response.v ===== *)
(** * Response: the JSON envelope of src/utils/response.go

    [APIResponse] is [{status, message, data?, meta?}]; [SendSuccessResponse]
    and [SendErrorResponse] build it and send it with the same HTTP status.
    [data] is an [interface{}] with [omitempty]: a [nil] interface is
    omitted ([None]), while a [nil] [*models.Todo] inside it is encoded as
    [null] ([Some (PTodo None)]). *)

From S2P Require Import Prelude Model.
Open Scope Z_scope.

(** What the handlers put in [data]. *)
Inductive Payload :=
  | PTodo (t : option Todo)        (** a [*models.Todo]; [None] is [nil] *)
  | PTodos (ts : list Todo).       (** a [[]models.Todo] *)

(** The [fiber.Map] of the list handler. *)
Record Pagination := mkPagination {
  total : Z;
  page : Z;
  pageSize : Z;
  totalPages : Z
}.

Record APIResponse := mkAPIResponse {
  Status : Z;
  Message : string;
  Data : option Payload;
  Meta : option Pagination
}.

(** The status codes of [fiber]. *)
Definition StatusOK : Z := 200.
Definition StatusCreated : Z := 201.
Definition StatusNoContent : Z := 204.
Definition StatusBadRequest : Z := 400.
Definition StatusNotFound : Z := 404.
Definition StatusInternalServerError : Z := 500.

(** [SendSuccessResponse(c, statusCode, message, data, meta...)]: [meta] is
    set from a first, non-[nil] variadic argument. *)
Definition SendSuccessResponse (statusCode : Z) (message : string) (data : option Payload)
    (meta : list (option Pagination)) : APIResponse :=
  mkAPIResponse statusCode message data
    (match meta with Some m :: _ => Some m | _ => None end).

Definition SendErrorResponse (statusCode : Z) (message : string) : APIResponse :=
  mkAPIResponse statusCode message None None.
