(* ===== verification/Handler.v ===== *)
(** * Handler: [handlers.todoHandler], the HTTP layer

    src/handlers/todo_handler.go.  Each method reads its request (path
    parameter, query string, parsed body), calls the service once and maps
    the outcome to a status code by comparing error texts.  The handler
    holds a [TodoService]; its methods are defined against the class, so
    they apply to any service instance.

    The body is given as fiber's [BodyParser] outcome: the JSON decoding
    itself is not modelled. *)

From S2P Require Import Prelude ObjectId Model Store Repository Service Strconv Response.
Open Scope Z_scope.

(** [c.Query(key, default)]: the first value of [key]; an empty value
    gives the default. *)
Fixpoint Query (q : list (string * string)) (key default : string) : string :=
  match q with
  | [] => default
  | (k, v) :: q' =>
      if decide (k = key) then (if decide (v = "") then default else v)
      else Query q' key default
  end.

Definition complete_param_error : string :=
  "Parâmetro 'complete' inválido. Use 'true' ou 'false'.".

Module TodoHandler.
Section Methods.
Context `{Svc : TodoService}.

Definition CreateTodo (body : result CreateTodoRequest.t) : M APIResponse :=
  match body with
  | Err e => mret (SendErrorResponse StatusBadRequest ("Parser error: " ++ e))
  | Ok req =>
      let todo := mkTodo NilObjectID (CreateTodoRequest.Title req)
                    (CreateTodoRequest.Description req) false 0 0 in
      r ← svc_CreateTodo todo;
      match r with
      | Err _ => mret (SendErrorResponse StatusBadRequest "Fail the to create new todo")
      | Ok created =>
          mret (SendSuccessResponse StatusCreated "Todo created with success!"
                  (Some (PTodo (Some created))) [])
      end
  end.

(** [page] / [pageSize]: an unparsable or sub-1 value falls back. *)
Definition page_param (q : list (string * string)) (key default : string) (dflt : Z) : Z :=
  match Atoi (Query q key default) with
  | Ok n => if decide (n < 1) then dflt else n
  | Err _ => dflt
  end.

(** [(total + int64(pageSize) - 1) / int64(pageSize)] in [int64]. *)
Definition total_pages (total pageSize : Z) : Z :=
  quot64 (sub64 (add64 total pageSize) 1) pageSize.

(** [GetAllTodos]: the [complete] parameter is parsed only when it is
    empty ([if completeStr == ""]). *)
Definition GetAllTodos (q : list (string * string)) : M APIResponse :=
  let titleFilter := Query q "title" "" in
  let completeStr := Query q "complete" "" in
  let parsed : result (option bool) :=
    if decide (completeStr = "") then
      match ParseBool completeStr with
      | Err _ => Err complete_param_error
      | Ok b => Ok (Some b)
      end
    else Ok None in
  match parsed with
  | Err e => mret (SendErrorResponse StatusBadRequest e)
  | Ok completeFilter =>
      let page := page_param q "page" "1" 1 in
      let pageSize := page_param q "pageSize" "10" 10 in
      r ← svc_GetAllTodos titleFilter completeFilter page pageSize;
      match r with
      | Err e => mret (SendErrorResponse StatusInternalServerError
                         ("Error the get all todos! details: " ++ e))
      | Ok (todos, total) =>
          let meta := mkPagination total page pageSize (total_pages total pageSize) in
          mret (SendSuccessResponse StatusOK "Todos listed!" (Some (PTodos todos)) [Some meta])
      end
  end.

Definition GetTodoByID (id : string) : M APIResponse :=
  r ← svc_GetTodoByID id;
  match r with
  | Err e =>
      if decide (e = "Task not found" \/ e = "Id is Invalid")
      then mret (SendErrorResponse StatusNotFound e)
      else mret (SendErrorResponse StatusInternalServerError ("Fail the to find task: " ++ e))
  | Ok t => mret (SendSuccessResponse StatusOK "Task founded" (Some (PTodo (Some t))) [])
  end.

(** The partial [models.Todo] of [UpdateTodo]: absent fields stay at
    their zero values, an absent [complete] is [false]. *)
Definition todo_to_update (req : UpdateTodoRequest.t) : Todo :=
  mkTodo NilObjectID
    (if decide (UpdateTodoRequest.Title req <> "") then UpdateTodoRequest.Title req else "")
    (if decide (UpdateTodoRequest.Description req <> "") then UpdateTodoRequest.Description req else "")
    (match UpdateTodoRequest.Complete req with Some b => b | None => false end)
    0 0.

(** [UpdateTodo]: a body that does not parse is answered with status 200. *)
Definition UpdateTodo (id : string) (body : result UpdateTodoRequest.t) : M APIResponse :=
  match body with
  | Err e => mret (SendErrorResponse StatusOK ("Validation errors: " ++ e))
  | Ok req =>
      r ← svc_UpdateTodo id (todo_to_update req);
      match r with
      | Err e =>
          if decide (e = "Todo not found" \/ e = "Id is Invalid" \/
                     e = "Error the check if todo exists!")
          then mret (SendErrorResponse StatusNotFound e)
          else mret (SendErrorResponse StatusBadRequest ("Fail the to update todo: " ++ e))
      | Ok o => mret (SendSuccessResponse StatusOK "Task updated" (Some (PTodo o)) [])
      end
  end.

Definition DeleteTodo (id : string) : M APIResponse :=
  r ← svc_DeleteTodo id;
  match r with
  | Err e =>
      if decide (e = "Error the check if todo exists!" \/ e = "Id is Invalid" \/
                 e = "Todo not found")
      then mret (SendErrorResponse StatusNotFound e)
      else mret (SendErrorResponse StatusInternalServerError ("Falha ao deletar tarefa: " ++ e))
  | Ok _ => mret (SendSuccessResponse StatusNoContent "Task deleted!" None [])
  end.

Definition ToggleTodoComplete (id : string) : M APIResponse :=
  r ← svc_ToggleTodoComplete id;
  match r with
  | Err e =>
      if decide (e = "Task not found" \/ e = "Id is Invalid")
      then mret (SendErrorResponse StatusNotFound e)
      else mret (SendErrorResponse StatusInternalServerError
                   ("Fail the modificed task status completed : " ++ e))
  | Ok o => mret (SendSuccessResponse StatusOK "Status task completed changed" (Some (PTodo o)) [])
  end.
End Methods.
End TodoHandler.

(** ** Handler behaviour *)

(** The list handler rejects every request that has no [complete]
    parameter, whatever the service: the guard [completeStr == ""] sends
    the empty string to [ParseBool], which fails. *)
Section AnyService.
Context `{Svc : TodoService}.

Lemma Query_cons_same k v q default :
  Query ((k, v) :: q) k default = if decide (v = "") then default else v.
Proof. simpl. by rewrite decide_True. Qed.

Lemma Query_cons_other k v q key default :
  k <> key -> Query ((k, v) :: q) key default = Query q key default.
Proof. intros Hne. simpl. by rewrite decide_False. Qed.

(** C26: the [complete] parameter of [GET /todos] works backwards, for
    any service: the guard [if completeStr == ""] is inverted.  Without
    the parameter (or with an empty one) the request is answered 400 with
    the parameter error and nothing else happens, since [ParseBool("")]
    runs and fails; with a non-empty one its value is never read, so
    [?complete=true] and [?complete=false] get the same answer and leave
    the same world. *)
Theorem GetAllTodos_complete_param (v1 v2 : string) (q : list (string * string)) (w : World) :
  (Query q "complete" "" = "" ->
   TodoHandler.GetAllTodos q w = (Done (SendErrorResponse StatusBadRequest complete_param_error), w)) /\
  (v1 <> "" -> v2 <> "" ->
   TodoHandler.GetAllTodos (("complete", v1) :: q) w =
   TodoHandler.GetAllTodos (("complete", v2) :: q) w).
Proof.
  split; [intros Hq; unfold TodoHandler.GetAllTodos; by rewrite Hq|].
  intros H1 H2. unfold TodoHandler.GetAllTodos, TodoHandler.page_param.
  rewrite !(Query_cons_other "complete" _ _ "title"), !(Query_cons_other "complete" _ _ "page"),
    !(Query_cons_other "complete" _ _ "pageSize") by discriminate.
  rewrite !Query_cons_same, (decide_False (P := v1 = "")), (decide_False (P := v2 = "")) by done.
  rewrite (decide_False (P := v1 = "")), (decide_False (P := v2 = "")) by done. reflexivity.
Qed.
End AnyService.

Section MongoHandler.
Context `{RX : RegexEngine}.

Lemma handler_GetTodoByID_unfold id w :
  TodoHandler.GetTodoByID id w =
    let '(r, w') := TodoSvc.GetTodoByID id w in
    match r with
    | Panicked p => (Panicked p, w')
    | Done (Err e) =>
        (Done (if decide (e = "Task not found" \/ e = "Id is Invalid")
               then SendErrorResponse StatusNotFound e
               else SendErrorResponse StatusInternalServerError ("Fail the to find task: " ++ e)), w')
    | Done (Ok t) => (Done (SendSuccessResponse StatusOK "Task founded" (Some (PTodo (Some t))) []), w')
    end.
Proof.
  unfold TodoHandler.GetTodoByID. rewrite bind_unfold.
  change (svc_GetTodoByID id w) with (TodoSvc.GetTodoByID id w).
  destruct (TodoSvc.GetTodoByID id w) as [[[t|e]|p] w']; [done| |done].
  by case_decide.
Qed.

(** C28: [GET /todos/{id}] with an id that is not 24 hex digits is
    answered 404 ["Id is Invalid"] without touching the store. *)
Theorem GetTodoByID_invalid_id (id : string) (e : string) (w : World) :
  ObjectIDFromHex id = Err e ->
  TodoHandler.GetTodoByID id w = (Done (SendErrorResponse StatusNotFound "Id is Invalid"), w).
Proof.
  intros He. rewrite handler_GetTodoByID_unfold, svc_GetTodoByID_spec, He.
  cbv zeta. rewrite decide_True by (right; reflexivity). reflexivity.
Qed.

(** [GET /todos/{id}] on a well-formed id, without store failure: the
    stored document, or 404 ["Task not found"]. *)
Lemma GetTodoByID_quiet (id : string) (oid : ObjectID) (w : World) :
  ObjectIDFromHex id = Ok oid -> faults w = [] ->
  TodoHandler.GetTodoByID id w =
    (Done (match find_one oid (todos w) with
           | Some t => SendSuccessResponse StatusOK "Task founded" (Some (PTodo (Some t))) []
           | None => SendErrorResponse StatusNotFound "Task not found"
           end), w).
Proof.
  intros Hid Hq. rewrite handler_GetTodoByID_unfold, svc_GetTodoByID_spec, Hid. quiet Hq.
  destruct (find_one oid (todos w)); [done|]. cbv zeta. by rewrite decide_True by (left; done).
Qed.
End MongoHandler.

Section HandlerUnfold.
Context `{Svc : TodoService}.

Lemma handler_DeleteTodo_unfold id w :
  TodoHandler.DeleteTodo id w =
    let '(r, w') := svc_DeleteTodo id w in
    match r with
    | Panicked p => (Panicked p, w')
    | Done (Err e) =>
        (Done (if decide (e = "Error the check if todo exists!" \/ e = "Id is Invalid" \/
                          e = "Todo not found")
               then SendErrorResponse StatusNotFound e
               else SendErrorResponse StatusInternalServerError ("Falha ao deletar tarefa: " ++ e)), w')
    | Done (Ok _) => (Done (SendSuccessResponse StatusNoContent "Task deleted!" None []), w')
    end.
Proof.
  unfold TodoHandler.DeleteTodo. rewrite bind_unfold.
  destruct (svc_DeleteTodo id w) as [[[[]|e]|p] w']; [done| |done]. by case_decide.
Qed.

Lemma handler_ToggleTodoComplete_unfold id w :
  TodoHandler.ToggleTodoComplete id w =
    let '(r, w') := svc_ToggleTodoComplete id w in
    match r with
    | Panicked p => (Panicked p, w')
    | Done (Err e) =>
        (Done (if decide (e = "Task not found" \/ e = "Id is Invalid")
               then SendErrorResponse StatusNotFound e
               else SendErrorResponse StatusInternalServerError
                      ("Fail the modificed task status completed : " ++ e)), w')
    | Done (Ok o) =>
        (Done (SendSuccessResponse StatusOK "Status task completed changed" (Some (PTodo o)) []), w')
    end.
Proof.
  unfold TodoHandler.ToggleTodoComplete. rewrite bind_unfold.
  destruct (svc_ToggleTodoComplete id w) as [[[o|e]|p] w']; [done| |done]. by case_decide.
Qed.

Lemma handler_UpdateTodo_unfold id req w :
  TodoHandler.UpdateTodo id (Ok req) w =
    let '(r, w') := svc_UpdateTodo id (TodoHandler.todo_to_update req) w in
    match r with
    | Panicked p => (Panicked p, w')
    | Done (Err e) =>
        (Done (if decide (e = "Todo not found" \/ e = "Id is Invalid" \/
                          e = "Error the check if todo exists!")
               then SendErrorResponse StatusNotFound e
               else SendErrorResponse StatusBadRequest ("Fail the to update todo: " ++ e)), w')
    | Done (Ok o) => (Done (SendSuccessResponse StatusOK "Task updated" (Some (PTodo o)) []), w')
    end.
Proof.
  unfold TodoHandler.UpdateTodo. rewrite bind_unfold.
  destruct (svc_UpdateTodo id _ w) as [[[o|e]|p] w']; [done| |done]. by case_decide.
Qed.

Lemma handler_CreateTodo_unfold req w :
  TodoHandler.CreateTodo (Ok req) w =
    let todo := mkTodo NilObjectID (CreateTodoRequest.Title req)
                  (CreateTodoRequest.Description req) false 0 0 in
    let '(r, w') := svc_CreateTodo todo w in
    match r with
    | Panicked p => (Panicked p, w')
    | Done (Err _) => (Done (SendErrorResponse StatusBadRequest "Fail the to create new todo"), w')
    | Done (Ok t) =>
        (Done (SendSuccessResponse StatusCreated "Todo created with success!" (Some (PTodo (Some t))) []), w')
    end.
Proof.
  unfold TodoHandler.CreateTodo. rewrite bind_unfold. cbv zeta.
  by destruct (svc_CreateTodo _ w) as [[[t|e]|p] w'].
Qed.
End HandlerUnfold.

(** [PUT /todos/{id}] with an empty (or absent) [title] fails validation,
    whatever the repository: [StructPartial] lists ["Title"], whose tag is
    [required]. *)
Section AnyRepository.
Context `{Repo : TodoRepository}.

(** C29: [PUT /todos/{id}] whose body has no (or an empty) [title] is
    answered 400 with the validator's message and changes nothing, even
    when it carries a new [description] or [complete]: a partial update
    must repeat the title. *)
Theorem UpdateTodo_requires_title (id : string) (oid : ObjectID) (req : UpdateTodoRequest.t) (w : World) :
  ObjectIDFromHex id = Ok oid -> UpdateTodoRequest.Title req = "" ->
  TodoHandler.UpdateTodo id (Ok req) w =
    (Done (SendErrorResponse StatusBadRequest
             ("Fail the to update todo: Validation error: " ++ title_required_error)), w).
Proof.
  intros Hid Ht. rewrite handler_UpdateTodo_unfold.
  change (svc_UpdateTodo id ?t w) with (TodoSvc.UpdateTodo id t w).
  unfold TodoSvc.UpdateTodo. rewrite Hid.
  unfold StructPartial, TodoHandler.todo_to_update. cbn [Title].
  rewrite Ht, decide_True by (split; [set_solver|by destruct (decide _)]).
  reflexivity.
Qed.
End AnyRepository.

Section MongoHandlerOps.
Context `{RX : RegexEngine}.

(** C4: [PUT /todos/{id}] on an existing document, without store failure
    and with a non-empty [title]: 200 with the document as stored after
    the update.  The title is replaced, the description only when the
    body has a non-empty one, [complete] is set to the body's value or
    to [false] when the body has none, [createdAt] and [_id] stay,
    [updatedAt] is the clock of the update (in milliseconds), and no
    other document changes. *)
Theorem UpdateTodo_quiet (id : string) (oid : ObjectID) (req : UpdateTodoRequest.t)
    (c : Todo) (w : World) :
  ObjectIDFromHex id = Ok oid -> faults w = [] -> find_one oid (todos w) = Some c ->
  UpdateTodoRequest.Title req <> "" ->
  exists t' w',
    TodoHandler.UpdateTodo id (Ok req) w =
      (Done (SendSuccessResponse StatusOK "Task updated" (Some (PTodo (Some t'))) []), w') /\
    find_one oid (todos w') = Some t' /\
    ID t' = oid /\ Title t' = UpdateTodoRequest.Title req /\
    Description t' = (if decide (UpdateTodoRequest.Description req <> "")
                      then UpdateTodoRequest.Description req else Description c) /\
    Complete t' = match UpdateTodoRequest.Complete req with Some b => b | None => false end /\
    CreatedAt t' = CreatedAt c /\ UpdatedAt t' = bson_time (clock w') /\
    clock w <= clock w' /\
    (forall id', id' <> oid -> find_one id' (todos w') = find_one id' (todos w)).
Proof.
  intros Hid Hq Hc Ht. rewrite handler_UpdateTodo_unfold.
  change (svc_UpdateTodo id ?t w) with (TodoSvc.UpdateTodo id t w).
  rewrite svc_UpdateTodo_spec, Hid. unfold StructPartial at 1.
  rewrite decide_False by (unfold TodoHandler.todo_to_update; cbn [Title];
    rewrite decide_True by done; tauto).
  quiet Hq. rewrite Hc. cbv zeta. quiet Hq.
  set (upd := updated_doc _ _).
  assert (Hid_upd : forall t, ID (upd t) = ID t) by reflexivity.
  rewrite (find_one_and_update_found _ _ _ _ Hc).
  destruct (find_one_Some _ _ _ Hc) as [_ HcID].
  eexists _, _. split; [reflexivity|]. cbn [todos with_todos clock].
  split; [by apply find_one_and_update_find|].
  unfold upd, updated_doc, TodoRepo.set_update, TodoSvc.merge_update, TodoHandler.todo_to_update.
  cbn [ID Title Description Complete CreatedAt UpdatedAt].
  rewrite !(decide_True (P := UpdateTodoRequest.Title req <> "")) by done.
  split_and!; try done.
  - repeat case_decide; tauto.
  - apply tick_clock.
  - intros id' Hne. by apply find_one_and_update_other.
Qed.

(** C32: [PUT /todos/{id}] when the store fails the service's lookup of
    the task: the service reports ["Error the check if todo exists!"],
    which the handler maps to 404, as if the task did not exist; nothing
    is written. *)
Theorem UpdateTodo_lookup_failure_404 (id : string) (oid : ObjectID) (req : UpdateTodoRequest.t)
    (e : string) (w : World) :
  ObjectIDFromHex id = Ok oid -> UpdateTodoRequest.Title req <> "" -> next_fault w = Some e ->
  TodoHandler.UpdateTodo id (Ok req) w =
    (Done (SendErrorResponse StatusNotFound "Error the check if todo exists!"), pop_fault w).
Proof.
  intros Hid Ht He. rewrite handler_UpdateTodo_unfold.
  change (svc_UpdateTodo id ?t w) with (TodoSvc.UpdateTodo id t w).
  rewrite svc_UpdateTodo_spec, Hid. unfold StructPartial at 1.
  rewrite decide_False by (unfold TodoHandler.todo_to_update; cbn [Title];
    rewrite decide_True by done; tauto).
  rewrite He. cbv zeta. rewrite decide_True by (right; right; reflexivity). reflexivity.
Qed.

Lemma handler_DeleteTodo_mongo id w :
  TodoHandler.DeleteTodo id w =
    let '(r, w') := TodoSvc.DeleteTodo id w in
    match r with
    | Panicked p => (Panicked p, w')
    | Done (Err e) =>
        (Done (if decide (e = "Error the check if todo exists!" \/ e = "Id is Invalid" \/
                          e = "Todo not found")
               then SendErrorResponse StatusNotFound e
               else SendErrorResponse StatusInternalServerError ("Falha ao deletar tarefa: " ++ e)), w')
    | Done (Ok _) => (Done (SendSuccessResponse StatusNoContent "Task deleted!" None []), w')
    end.
Proof. exact (handler_DeleteTodo_unfold (Svc := todoService) id w). Qed.

(** C27: [DELETE /todos/{id}] answers 500 where the specification says
    404, in both not-found cases: a well-formed id that names no document
    gets the repository's ["No tasks found with id to delete"], and a
    malformed id the service's ["Id is invalid! Error: ..."]; neither is
    a text the handler maps to 404 (it expects ["Id is Invalid"]).
    Deleting twice therefore gives 204, then 500. *)
Theorem DeleteTodo_errors_500 (id id' : string) (oid : ObjectID) (e : string) (w : World) :
  (ObjectIDFromHex id = Ok oid -> faults w = [] -> oid ∉ map ID (todos w) ->
   TodoHandler.DeleteTodo id w =
     (Done (SendErrorResponse StatusInternalServerError
              "Falha ao deletar tarefa: No tasks found with id to delete"), w)) /\
  (ObjectIDFromHex id' = Err e ->
   TodoHandler.DeleteTodo id' w =
     (Done (SendErrorResponse StatusInternalServerError
              ("Falha ao deletar tarefa: " ++ ("Id is invalid! Error: " ++ e))), w)).
Proof.
  split.
  - intros Hid Hq Hn. rewrite handler_DeleteTodo_mongo, svc_DeleteTodo_spec, Hid, DeleteTodo_spec.
    quiet Hq. rewrite delete_one_absent by done. cbn [fst snd].
    rewrite decide_True by done. unfold with_todos. cbn. reflexivity.
  - intros Hid. rewrite handler_DeleteTodo_mongo, svc_DeleteTodo_spec, Hid.
    rewrite decide_False; [done|].
    intros [H|[H|H]]; revert H; apply string_app_neq; reflexivity.
Qed.

(** C8: [DELETE /todos/{id}] of a stored document, without store
    failure: 204, the document is gone and no other document changes. *)
Theorem DeleteTodo_present (id : string) (oid : ObjectID) (w : World) :
  ObjectIDFromHex id = Ok oid -> faults w = [] -> ids_unique (todos w) ->
  oid ∈ map ID (todos w) ->
  exists w',
    TodoHandler.DeleteTodo id w =
      (Done (SendSuccessResponse StatusNoContent "Task deleted!" None []), w') /\
    find_one oid (todos w') = None /\
    (forall id', id' <> oid -> find_one id' (todos w') = find_one id' (todos w)) /\
    clock w' = clock w.
Proof.
  intros Hid Hq Hu Hin. rewrite handler_DeleteTodo_mongo, svc_DeleteTodo_spec, Hid, DeleteTodo_spec.
  quiet Hq. rewrite decide_False by (rewrite delete_one_present by done; lia).
  eexists. split; [reflexivity|]. cbn [todos with_todos clock].
  split_and!; [by apply delete_one_gone| |done].
  intros id' Hne. by apply delete_one_other.
Qed.

Lemma handler_Toggle_mongo id w :
  TodoHandler.ToggleTodoComplete id w =
    let '(r, w') := TodoSvc.ToggleTodoComplete id w in
    match r with
    | Panicked p => (Panicked p, w')
    | Done (Err e) =>
        (Done (if decide (e = "Task not found" \/ e = "Id is Invalid")
               then SendErrorResponse StatusNotFound e
               else SendErrorResponse StatusInternalServerError
                      ("Fail the modificed task status completed : " ++ e)), w')
    | Done (Ok o) =>
        (Done (SendSuccessResponse StatusOK "Status task completed changed" (Some (PTodo o)) []), w')
    end.
Proof. exact (handler_ToggleTodoComplete_unfold (Svc := todoService) id w). Qed.

(** [PATCH /todos/{id}/toggle] on a stored document without store
    failure, in closed form: the read copy, flipped, is written with the
    clock of the write. *)
Lemma ToggleTodoComplete_run (id : string) (oid : ObjectID) (t : Todo) (w : World) :
  ObjectIDFromHex id = Ok oid -> faults w = [] -> find_one oid (todos w) = Some t ->
  TodoHandler.ToggleTodoComplete id w =
    (Done (SendSuccessResponse StatusOK "Status task completed changed"
             (Some (PTodo (Some (updated_doc (TodoSvc.flip_complete t) (clock (tick w)) t)))) []),
     with_todos (find_one_and_update oid (updated_doc (TodoSvc.flip_complete t) (clock (tick w)))
                   (todos w)).2 (tick w)).
Proof.
  intros Hid Hq Ht. rewrite handler_Toggle_mongo, svc_Toggle_spec, Hid. quiet Hq.
  rewrite Ht, UpdateTodo_spec. cbv zeta. quiet Hq.
  by rewrite (find_one_and_update_found _ _ _ _ Ht).
Qed.

(** [POST /todos] without store failure and with a fresh id, in closed
    form. *)
Lemma CreateTodo_run (req : CreateTodoRequest.t) (w : World) :
  faults w = [] -> next_oid w ∉ map ID (todos w) ->
  let t := created_doc (mkTodo NilObjectID (CreateTodoRequest.Title req)
                          (CreateTodoRequest.Description req) false 0 0) w in
  TodoHandler.CreateTodo (Ok req) w =
    (Done (SendSuccessResponse StatusCreated "Todo created with success!"
             (Some (PTodo (Some t))) []),
     with_todos (todos w ++ [to_bson t])%list (create_w3 w)).
Proof.
  intros Hq Hfresh. rewrite handler_CreateTodo_unfold. cbv zeta.
  change (svc_CreateTodo ?t w) with (TodoRepo.CreateTodo t w).
  rewrite CreateTodo_spec. cbv zeta. quiet Hq.
  by rewrite insert_one_fresh by exact Hfresh.
Qed.

(** C5: [PATCH /todos/{id}/toggle] on a stored document, without store
    failure: 200 with the stored document, whose [complete] is flipped
    and whose [updatedAt] is the clock of the write; nothing else of it
    and no other document changes. *)
Theorem ToggleTodoComplete_quiet (id : string) (oid : ObjectID) (t : Todo) (w : World) :
  ObjectIDFromHex id = Ok oid -> faults w = [] -> find_one oid (todos w) = Some t ->
  exists t' w',
    TodoHandler.ToggleTodoComplete id w =
      (Done (SendSuccessResponse StatusOK "Status task completed changed"
               (Some (PTodo (Some t'))) []), w') /\
    find_one oid (todos w') = Some t' /\
    t' = mkTodo (ID t) (Title t) (Description t) (negb (Complete t)) (CreatedAt t)
                (bson_time (clock w')) /\
    clock w <= clock w' /\ faults w' = faults w /\
    (forall id', id' <> oid -> find_one id' (todos w') = find_one id' (todos w)).
Proof.
  intros Hid Hq Ht. rewrite (ToggleTodoComplete_run id oid t w) by done.
  eexists _, _. split; [reflexivity|]. cbn [todos with_todos clock faults].
  split_and!; [by apply find_one_and_update_find|reflexivity|apply tick_clock|done|].
  intros id' Hne. by apply find_one_and_update_other.
Qed.

(** C15: two toggles in a row, with no write in between and no store
    failure: the first answers the task with its [complete] flag
    negated, the second with the flag back to its original value, and the
    stored document ends as it started but for [updatedAt], which is the
    clock of the second write and not earlier than the first's. *)
Theorem ToggleTodoComplete_twice (id : string) (oid : ObjectID) (t : Todo) (w : World) :
  ObjectIDFromHex id = Ok oid -> faults w = [] -> find_one oid (todos w) = Some t ->
  exists t1 t2 w1 w2,
    TodoHandler.ToggleTodoComplete id w =
      (Done (SendSuccessResponse StatusOK "Status task completed changed" (Some (PTodo (Some t1))) []), w1) /\
    TodoHandler.ToggleTodoComplete id w1 =
      (Done (SendSuccessResponse StatusOK "Status task completed changed" (Some (PTodo (Some t2))) []), w2) /\
    Complete t1 = negb (Complete t) /\
    find_one oid (todos w2) = Some t2 /\
    t2 = mkTodo (ID t) (Title t) (Description t) (Complete t) (CreatedAt t) (bson_time (clock w2)) /\
    UpdatedAt t1 <= UpdatedAt t2.
Proof.
  intros Hid Hq Ht. rewrite (ToggleTodoComplete_run id oid t w) by done.
  set (w1 := with_todos _ (tick w)).
  assert (Ht1 : find_one oid (todos w1) = Some (updated_doc (TodoSvc.flip_complete t) (clock (tick w)) t))
    by (apply find_one_and_update_find; done).
  eexists _, _, w1, _. split; [reflexivity|].
  rewrite (ToggleTodoComplete_run id oid _ w1) by done.
  split_and!; [reflexivity|reflexivity| | |].
  - cbn [todos with_todos]. apply find_one_and_update_find; [done|exact Ht1].
  - unfold updated_doc, TodoRepo.set_update, TodoSvc.flip_complete. cbn. by rewrite negb_involutive.
  - unfold updated_doc, TodoRepo.set_update. cbn [UpdatedAt]. apply bson_time_mono.
    pose proof (tick_clock w1). cbn [clock with_todos w1] in *. lia.
Qed.

(** C6: [POST /todos] without store failure, when the id [NewObjectID]
    stamps is not taken: 201 with the created task, whose [complete] is
    [false] whatever the body, whose title and description are the
    body's (an empty title is accepted: [CreateTodo] validates no
    field), whose timestamps are clock readings of the call with
    [createdAt <= updatedAt]; the stored copy is appended. *)
Theorem CreateTodo_quiet (req : CreateTodoRequest.t) (w : World) :
  faults w = [] -> next_oid w ∉ map ID (todos w) ->
  exists t w',
    TodoHandler.CreateTodo (Ok req) w =
      (Done (SendSuccessResponse StatusCreated "Todo created with success!"
               (Some (PTodo (Some t))) []), w') /\
    ID t = next_oid w /\ Title t = CreateTodoRequest.Title req /\
    Description t = CreateTodoRequest.Description req /\ Complete t = false /\
    clock w <= CreatedAt t <= UpdatedAt t /\ UpdatedAt t = clock w' /\
    todos w' = (todos w ++ [to_bson t])%list /\ faults w' = faults w /\
    oidgen w' = (NewObjectID (clock (tick w)) (oidgen w)).2.
Proof.
  intros Hq Hfresh. rewrite CreateTodo_run by done. cbv zeta.
  eexists _, _. split; [reflexivity|].
  unfold created_doc, create_w3, create_w1. cbn [ID Title Description Complete CreatedAt UpdatedAt].
  pose proof (tick_clock w). pose proof (tick_clock (with_gen (NewObjectID (clock (tick w)) (oidgen (tick w))).2 (tick w))).
  pose proof (tick_clock (tick (with_gen (NewObjectID (clock (tick w)) (oidgen (tick w))).2 (tick w)))).
  cbn [todos clock with_todos with_gen faults oidgen tick] in *. split_and!; try done; lia.
Qed.

(** C16: the id of a created task, in the hex form the response carries,
    names it in the next request: [GET /todos/{hex}] right after
    [POST /todos] returns 200 with the stored copy (timestamps in
    milliseconds). *)
Theorem CreateTodo_then_GetTodoByID (req : CreateTodoRequest.t) (w : World) :
  faults w = [] -> gen_valid (oidgen w) -> next_oid w ∉ map ID (todos w) ->
  exists t w',
    TodoHandler.CreateTodo (Ok req) w =
      (Done (SendSuccessResponse StatusCreated "Todo created with success!"
               (Some (PTodo (Some t))) []), w') /\
    TodoHandler.GetTodoByID (Hex (ID t)) w' =
      (Done (SendSuccessResponse StatusOK "Task founded" (Some (PTodo (Some (to_bson t)))) []), w').
Proof.
  intros Hq Hg Hfresh. rewrite CreateTodo_run by done. cbv zeta.
  eexists _, _. split; [reflexivity|].
  assert (Hvalid : oid_valid (next_oid w)) by apply (NewObjectID_valid _ _ Hg).
  rewrite (GetTodoByID_quiet _ (next_oid w)); [|unfold ObjectIDFromHex|done].
  2:{ rewrite decide_True by apply Hex_length. by apply hex_decode_Hex. }
  cbn [todos with_todos]. rewrite find_one_app_fresh by exact Hfresh.
  rewrite find_one_cons, decide_True by reflexivity. reflexivity.
Qed.
(** C12: a created task can be deleted by the id the response carries:
    right after [POST /todos], [DELETE /todos/{hex}] answers 204 and
    leaves the collection exactly as it was before the creation, and a
    [GET /todos/{hex}] then answers 404 ["Task not found"]. *)
Theorem CreateTodo_then_DeleteTodo (req : CreateTodoRequest.t) (w : World) :
  faults w = [] -> gen_valid (oidgen w) -> next_oid w ∉ map ID (todos w) ->
  exists t w1 w2,
    TodoHandler.CreateTodo (Ok req) w =
      (Done (SendSuccessResponse StatusCreated "Todo created with success!"
               (Some (PTodo (Some t))) []), w1) /\
    TodoHandler.DeleteTodo (Hex (ID t)) w1 =
      (Done (SendSuccessResponse StatusNoContent "Task deleted!" None []), w2) /\
    todos w2 = todos w /\
    TodoHandler.GetTodoByID (Hex (ID t)) w2 = (Done (SendErrorResponse StatusNotFound "Task not found"), w2).
Proof.
  intros Hq Hg Hfresh. rewrite CreateTodo_run by done. cbv zeta.
  assert (Hvalid : oid_valid (next_oid w)) by apply (NewObjectID_valid _ _ Hg).
  assert (Hhex : ObjectIDFromHex (Hex (next_oid w)) = Ok (next_oid w)).
  { unfold ObjectIDFromHex. rewrite decide_True by apply Hex_length. by apply hex_decode_Hex. }
  eexists _, _, _. split; [reflexivity|]. cbn [ID created_doc].
  change (NewObjectID (clock (tick w)) (oidgen (tick w))).1 with (next_oid w).
  rewrite handler_DeleteTodo_mongo, svc_DeleteTodo_spec, Hhex, DeleteTodo_spec.
  quiet Hq. cbn [todos with_todos]. rewrite delete_one_last by done. cbn [fst snd].
  rewrite decide_False by lia. split; [reflexivity|]. split; [reflexivity|].
  rewrite (GetTodoByID_quiet _ (next_oid w)) by done. cbn [todos with_todos].
  rewrite (proj2 (find_one_None _ _) Hfresh). reflexivity.
Qed.
End MongoHandlerOps.

(** ** [totalPages] in 64 bits *)

(** C35: [totalPages] at 64 bits: while [total + pageSize] fits in an
    [int64] it is [ceil(total / pageSize)], i.e.
    [(total + pageSize - 1) / pageSize]; with [pageSize =
    9223372036854775807] (the largest value [Atoi] accepts) and at least
    two matching tasks, [total + pageSize] overflows and [totalPages] is 0
    or negative, where the ceiling is 1. *)
Theorem total_pages_bounds (total ps total' : Z) :
  (0 <= total -> 1 <= ps -> total + ps <= int64_max ->
   TodoHandler.total_pages total ps = (total + ps - 1) / ps) /\
  (2 <= total' <= int64_max -> TodoHandler.total_pages total' int64_max <= 0).
Proof.
  split.
  - intros Ht Hp Hmax. unfold TodoHandler.total_pages, int64_max in *.
    rewrite add64_exact, sub64_exact by (unfold in_int64, int64_min, int64_max; lia).
    assert (0 <= (total + ps - 1) / ps <= total + ps - 1)
      by (split; [apply Z.div_pos|apply Z.div_le_upper_bound]; nia).
    rewrite quot64_exact; rewrite Z.quot_div_nonneg by lia; [done|].
    unfold in_int64, int64_min, int64_max. lia.
  - intros Ht. unfold TodoHandler.total_pages, add64, quot64, int64_max in *.
    replace (total' + (2 ^ 63 - 1)) with ((total' - 2 ^ 63 - 1) + 1 * 2 ^ 64) by lia.
    rewrite wrap64_add_mod, (wrap64_id (total' - 2 ^ 63 - 1))
      by (unfold in_int64, int64_min, int64_max; lia).
    rewrite sub64_exact by (unfold in_int64, int64_min, int64_max; lia).
    replace (total' - 2 ^ 63 - 1 - 1) with (- (2 ^ 63 + 2 - total')) by lia.
    rewrite Z.quot_opp_l, Z.quot_div_nonneg by lia.
    assert (0 <= (2 ^ 63 + 2 - total') / (2 ^ 63 - 1) <= 2)
      by (split; [apply Z.div_pos|apply Z.div_le_upper_bound]; lia).
    rewrite wrap64_id by (unfold in_int64, int64_min, int64_max; lia). lia.
Qed.
