(* ===== verification/Body.v ===== *)
(** * Body: [c.BodyParser] into the request DTOs

    The handlers decode the request body with fiber's [c.BodyParser(&req)],
    which for a JSON content type calls [encoding/json]'s [Unmarshal] into
    [dtos.CreateTodoRequest] or [dtos.UpdateTodoRequest] (src/dtos/).  The
    body is given already tokenised as a JSON object, a list of members in
    document order; the decoding follows [Unmarshal]'s rules for these two
    structs: a member sets the field whose [json] tag equals its key up to
    case, the last such member wins, [null] leaves the field as it is,
    unknown keys are skipped, and a value of the wrong type leaves the field
    and makes the whole call fail with the first such error.  A body that is
    not JSON (no JSON content type) is fiber's [ErrUnprocessableEntity];
    a body that does not parse carries the parser's message.  The
    decoding is then characterised field by field against a reference
    reading of the object by the API's field names ([body_decoding]). *)

From S2P Require Import Prelude Model.

Inductive JValue :=
  | JString (s : string)
  | JBool (b : bool)
  | JNumber (z : Z)
  | JNull
  | JArray
  | JObject.

Inductive ReqBody :=
  | NoJSON                                      (** no JSON content type *)
  | BadJSON (msg : string)                      (** [Unmarshal]'s syntax error *)
  | JSONObject (members : list (string * JValue)).

(** The kind [Unmarshal] names in a type error. *)
Definition json_kind (v : JValue) : string :=
  match v with
  | JString _ => "string" | JBool _ => "bool" | JNumber _ => "number"
  | JNull => "null" | JArray => "array" | JObject => "object"
  end.

Definition unmarshal_type_error (v : JValue) (field typ : string) : string :=
  "json: cannot unmarshal " ++ json_kind v ++ " into Go struct field " ++ field ++ " of type " ++ typ.

(** [encoding/json] matches keys to tags case-insensitively. *)
Definition key_is (k tag : string) : bool := bool_decide (string_lower k = string_lower tag).

(** The first error of the call is the one it returns. *)
Definition first_error (e e' : option string) : option string :=
  match e with Some _ => e | None => e' end.

(** A [string] field: [null] leaves it, another kind is an error. *)
Definition decode_string (field : string) (v : JValue) (cur : string) : string * option string :=
  match v with
  | JString s => (s, None)
  | JNull => (cur, None)
  | _ => (cur, Some (unmarshal_type_error v field "string"))
  end.

(** A [*bool] field: [null] leaves it [nil]. *)
Definition decode_bool_ptr (field : string) (v : JValue) (cur : option bool)
    : option bool * option string :=
  match v with
  | JBool b => (Some b, None)
  | JNull => (cur, None)
  | _ => (cur, Some (unmarshal_type_error v field "bool"))
  end.

(** The fiber error of a body without a known content type. *)
Definition ErrUnprocessableEntity : string := "Unprocessable Entity".

Definition create_member (acc : CreateTodoRequest.t * option string) (m : string * JValue)
    : CreateTodoRequest.t * option string :=
  let '(r, e) := acc in
  let '(k, v) := m in
  if key_is k "title" then
    let '(s, e') := decode_string "CreateTodoRequest.title" v (CreateTodoRequest.Title r) in
    (CreateTodoRequest.mk s (CreateTodoRequest.Description r), first_error e e')
  else if key_is k "description" then
    let '(s, e') := decode_string "CreateTodoRequest.description" v (CreateTodoRequest.Description r) in
    (CreateTodoRequest.mk (CreateTodoRequest.Title r) s, first_error e e')
  else acc.

Definition update_member (acc : UpdateTodoRequest.t * option string) (m : string * JValue)
    : UpdateTodoRequest.t * option string :=
  let '(r, e) := acc in
  let '(k, v) := m in
  if key_is k "title" then
    let '(s, e') := decode_string "UpdateTodoRequest.title" v (UpdateTodoRequest.Title r) in
    (UpdateTodoRequest.mk s (UpdateTodoRequest.Description r) (UpdateTodoRequest.Complete r),
     first_error e e')
  else if key_is k "description" then
    let '(s, e') := decode_string "UpdateTodoRequest.description" v (UpdateTodoRequest.Description r) in
    (UpdateTodoRequest.mk (UpdateTodoRequest.Title r) s (UpdateTodoRequest.Complete r),
     first_error e e')
  else if key_is k "complete" then
    let '(b, e') := decode_bool_ptr "UpdateTodoRequest.complete" v (UpdateTodoRequest.Complete r) in
    (UpdateTodoRequest.mk (UpdateTodoRequest.Title r) (UpdateTodoRequest.Description r) b,
     first_error e e')
  else acc.

(** [c.BodyParser(&req)] into a zero-valued [CreateTodoRequest]. *)
Definition parse_create (b : ReqBody) : result CreateTodoRequest.t :=
  match b with
  | NoJSON => Err ErrUnprocessableEntity
  | BadJSON msg => Err msg
  | JSONObject ms =>
      match foldl create_member (CreateTodoRequest.mk "" "", None) ms with
      | (r, None) => Ok r
      | (_, Some e) => Err e
      end
  end.

Definition parse_update (b : ReqBody) : result UpdateTodoRequest.t :=
  match b with
  | NoJSON => Err ErrUnprocessableEntity
  | BadJSON msg => Err msg
  | JSONObject ms =>
      match foldl update_member (UpdateTodoRequest.mk "" "" None, None) ms with
      | (r, None) => Ok r
      | (_, Some e) => Err e
      end
  end.

(** ** What a decoded body holds, field by field

    The reference reading of a JSON object for a DTO: for each field, the
    values of the members whose key, lower-cased, is the field's name of
    the API ([title], [description], [complete]), in document order; the
    field is the last value of its type among them ([null]s skipped), and
    the call succeeds when each of them is of the field's type or
    [null]. *)

Definition field_values (name : string) (ms : list (string * JValue)) : list JValue :=
  map snd (filter (fun m => string_lower m.1 = name) ms).

Definition json_string (v : JValue) : option string := match v with JString s => Some s | _ => None end.
Definition json_bool (v : JValue) : option bool := match v with JBool b => Some b | _ => None end.

Definition string_or_null (v : JValue) : bool :=
  match v with JString _ | JNull => true | _ => false end.
Definition bool_or_null (v : JValue) : bool :=
  match v with JBool _ | JNull => true | _ => false end.

Definition last_string (vs : list JValue) : string := default "" (last (omap json_string vs)).
Definition last_bool (vs : list JValue) : option bool := last (omap json_bool vs).

Definition create_ok (ms : list (string * JValue)) : bool :=
  forallb string_or_null (field_values "title" ms) &&
  forallb string_or_null (field_values "description" ms).

Definition update_ok (ms : list (string * JValue)) : bool :=
  create_ok ms && forallb bool_or_null (field_values "complete" ms).

(** *** The decoders against the reference *)

Lemma field_values_cons name k v ms :
  string_lower name = name ->
  field_values name ((k, v) :: ms) =
    if key_is k name then v :: field_values name ms else field_values name ms.
Proof.
  intros Hn. unfold field_values, key_is. rewrite filter_cons, Hn. cbn [fst].
  case_decide; [rewrite bool_decide_true|rewrite bool_decide_false]; done.
Qed.

(** A key names at most one of the API's fields. *)
Lemma key_is_excl k a b :
  string_lower a = a -> string_lower b = b -> a <> b -> key_is k a = true -> key_is k b = false.
Proof.
  unfold key_is. intros Ha Hb Hne. rewrite Ha, Hb, !bool_decide_eq_true.
  intros ->. by apply bool_decide_false.
Qed.

(** The last value of a type in [v :: vs]: the last in [vs], or [v]. *)
Lemma from_option_last_omap {A B C} (f : A -> option B) (g : B -> C) c v vs :
  from_option g c (last (omap f (v :: vs))) = from_option g (from_option g c (f v)) (last (omap f vs)).
Proof.
  change (omap f (v :: vs)) with (match f v with Some y => y :: omap f vs | None => omap f vs end).
  destruct (f v); [rewrite last_cons|]; cbn; by destruct (last (omap f vs)).
Qed.

Lemma first_error_None e e' : first_error e e' = None <-> e = None /\ e' = None.
Proof. destruct e; cbn; naive_solver. Qed.


(** Split a member on the field its key names. *)
Ltac member_key k :=
  let H1 := fresh in let H2 := fresh in let H3 := fresh in
  destruct (key_is k "title") eqn:H1;
  [assert (H2 : key_is k "description" = false) by (revert H1; apply key_is_excl; done);
   assert (H3 : key_is k "complete" = false) by (revert H1; apply key_is_excl; done)
  |destruct (key_is k "description") eqn:H2;
   [assert (H3 : key_is k "complete" = false) by (revert H2; apply key_is_excl; done)
   |destruct (key_is k "complete") eqn:H3]];
  rewrite ?field_values_cons by done.

Ltac rewrite_keys :=
  repeat match goal with H : key_is ?k ?n = _ |- context [key_is ?k ?n] => rewrite H end.

Lemma create_fold_req ms r e :
  (foldl create_member (r, e) ms).1 =
    CreateTodoRequest.mk
      (default (CreateTodoRequest.Title r) (last (omap json_string (field_values "title" ms))))
      (default (CreateTodoRequest.Description r) (last (omap json_string (field_values "description" ms)))).
Proof.
  revert r e. induction ms as [|[k v] ms IH]; intros [t d] e; [done|]. cbn [foldl].
  member_key k; unfold create_member at 2;
    rewrite_keys;
    destruct v; cbn [decode_string]; rewrite ?IH, ?from_option_last_omap; reflexivity.
Qed.

Lemma create_fold_err ms r e :
  (foldl create_member (r, e) ms).2 = None <-> e = None /\ create_ok ms = true.
Proof.
  unfold create_ok. revert r e. induction ms as [|[k v] ms IH]; intros [t d] e; [cbn; naive_solver|].
  cbn [foldl]. member_key k; unfold create_member at 2;
    rewrite_keys;
    destruct v; cbn [decode_string]; rewrite IH, ?first_error_None; cbn [forallb string_or_null];
    rewrite ?andb_true_iff; naive_solver.
Qed.

Lemma update_fold_req ms r e :
  (foldl update_member (r, e) ms).1 =
    UpdateTodoRequest.mk
      (default (UpdateTodoRequest.Title r) (last (omap json_string (field_values "title" ms))))
      (default (UpdateTodoRequest.Description r) (last (omap json_string (field_values "description" ms))))
      (from_option Some (UpdateTodoRequest.Complete r) (last (omap json_bool (field_values "complete" ms)))).
Proof.
  revert r e. induction ms as [|[k v] ms IH]; intros [t d c] e; [done|]. cbn [foldl].
  member_key k; unfold update_member at 2;
    rewrite_keys;
    destruct v; cbn [decode_string decode_bool_ptr]; rewrite ?IH, ?from_option_last_omap; reflexivity.
Qed.

Lemma update_fold_err ms r e :
  (foldl update_member (r, e) ms).2 = None <-> e = None /\ update_ok ms = true.
Proof.
  unfold update_ok, create_ok. revert r e. induction ms as [|[k v] ms IH]; intros [t d c] e; [cbn; naive_solver|].
  cbn [foldl]. member_key k; unfold update_member at 2;
    rewrite_keys;
    destruct v; cbn [decode_string decode_bool_ptr]; rewrite IH, ?first_error_None;
    cbn [forallb string_or_null bool_or_null]; rewrite ?andb_true_iff; naive_solver.
Qed.

