(* ===== verification/Guarantee.v ===== *)
(** * Guarantee: what a computation promises about the world it leaves

    A computation [m : M A] guarantees a relation [R] between worlds when
    every run of [m] from [w] ends in a world [w'] with [R w w'], whether it
    finishes or panics.  For a preorder [R] the guarantee is closed under
    [mret] and [mbind], so a layer that only composes the calls of the layer
    below inherits what that layer guarantees.  This is stated as two
    interfaces: [RepoGuarantees R] is what a [TodoRepository] promises to
    the service, [SvcGuarantees R] what a [TodoService] promises to the
    handler.  [todoService] discharges [SvcGuarantees R] from
    [RepoGuarantees R] for any repository, and every handler method
    guarantees [R] over any service that promises it.  An invariant [P] is
    the preorder [inv_rel P]. *)

From S2P Require Import Prelude ObjectId Model Store Repository Service Strconv Response Handler.
Open Scope Z_scope.

Definition guarantees (R : relation World) {A} (m : M A) : Prop := forall w, R w (m w).2.

(** An invariant as a preorder: [P] holds after whenever it held before. *)
Definition inv_rel (P : World -> Prop) : relation World := fun w w' => P w -> P w'.

#[export] Instance inv_rel_preorder P : PreOrder (inv_rel P).
Proof. split; unfold inv_rel; [intros ??|intros ??? H1 H2 ?]; auto. Qed.

(** What a repository promises its clients: each method leaves a world
    related to the one it started in. *)
Class RepoGuarantees (R : relation World) `{TodoRepository} := {
  g_repo_CreateTodo t : guarantees R (repo_CreateTodo t);
  g_repo_GetAll f l s : guarantees R (repo_GetAll f l s);
  g_repo_GetTodoByID id : guarantees R (repo_GetTodoByID id);
  g_repo_UpdateTodo id t : guarantees R (repo_UpdateTodo id t);
  g_repo_DeleteTodo id : guarantees R (repo_DeleteTodo id);
  g_repo_CountTodos f : guarantees R (repo_CountTodos f)
}.

(** What a service promises the handler. *)
Class SvcGuarantees (R : relation World) `{TodoService} := {
  g_svc_CreateTodo t : guarantees R (svc_CreateTodo t);
  g_svc_GetAllTodos ti c p ps : guarantees R (svc_GetAllTodos ti c p ps);
  g_svc_GetTodoByID id : guarantees R (svc_GetTodoByID id);
  g_svc_UpdateTodo id t : guarantees R (svc_UpdateTodo id t);
  g_svc_DeleteTodo id : guarantees R (svc_DeleteTodo id);
  g_svc_ToggleTodoComplete id : guarantees R (svc_ToggleTodoComplete id)
}.

Create HintDb guarantee discriminated.
#[export] Hint Resolve g_repo_CreateTodo g_repo_GetAll g_repo_GetTodoByID g_repo_UpdateTodo
  g_repo_DeleteTodo g_repo_CountTodos : guarantee.
#[export] Hint Resolve g_svc_CreateTodo g_svc_GetAllTodos g_svc_GetTodoByID g_svc_UpdateTodo
  g_svc_DeleteTodo g_svc_ToggleTodoComplete : guarantee.

Section Closure.
Context (R : relation World) `{!PreOrder R}.

Lemma guarantees_ret {A} (a : A) : guarantees R (mret a).
Proof. intros w. simpl. reflexivity. Qed.

Lemma guarantees_bind {A B} (m : M A) (k : A -> M B) :
  guarantees R m -> (forall a, guarantees R (k a)) -> guarantees R (x ← m; k x).
Proof.
  intros Hm Hk w. cbv [mbind st_bind]. specialize (Hm w).
  destruct (m w) as [[a|p] w1]; simpl in *; [|done].
  etrans; [exact Hm|]. apply Hk.
Qed.

Lemma guarantees_panic {A} msg : guarantees R (panic (A := A) msg).
Proof. intros w. simpl. reflexivity. Qed.
End Closure.

#[export] Hint Resolve guarantees_ret guarantees_panic : guarantee.

(** Break a composed computation into the calls it makes. *)
Ltac guarantee :=
  repeat first
    [ apply guarantees_ret
    | lazymatch goal with
      | |- guarantees ?R (mbind _ _) => refine (guarantees_bind R _ _ _ _); [|intros ?]
      end
    | match goal with
      | |- guarantees _ (match ?x with _ => _ end) => destruct x; cbv beta iota
      end
    | solve [eauto with guarantee typeclass_instances] ].

(** ** The service inherits the repository's guarantee *)

Section Service.
Context (R : relation World) `{!PreOrder R} `{Repo : TodoRepository} `{!RepoGuarantees R}.

#[export] Instance todoService_guarantees : SvcGuarantees R.
Proof.
  split; intros;
    cbv [svc_CreateTodo svc_GetAllTodos svc_GetTodoByID svc_UpdateTodo svc_DeleteTodo
         svc_ToggleTodoComplete todoService];
    cbv [TodoSvc.CreateTodo TodoSvc.GetAllTodos TodoSvc.GetTodoByID TodoSvc.UpdateTodo
         TodoSvc.DeleteTodo TodoSvc.ToggleTodoComplete TodoSvc.toggle_read TodoSvc.toggle_write];
    cbv zeta; guarantee.
Qed.
End Service.

(** ** Every handler method inherits the service's guarantee *)

Section Handler.
Context (R : relation World) `{!PreOrder R} `{Svc : TodoService} `{!SvcGuarantees R}.

Lemma handler_guarantees_CreateTodo body : guarantees R (TodoHandler.CreateTodo body).
Proof. unfold TodoHandler.CreateTodo. cbv zeta. guarantee. Qed.

Lemma handler_guarantees_GetAllTodos q : guarantees R (TodoHandler.GetAllTodos q).
Proof. unfold TodoHandler.GetAllTodos. cbv zeta. guarantee. Qed.

Lemma handler_guarantees_GetTodoByID id : guarantees R (TodoHandler.GetTodoByID id).
Proof. unfold TodoHandler.GetTodoByID. guarantee. Qed.

Lemma handler_guarantees_UpdateTodo id body : guarantees R (TodoHandler.UpdateTodo id body).
Proof. unfold TodoHandler.UpdateTodo. guarantee. Qed.

Lemma handler_guarantees_DeleteTodo id : guarantees R (TodoHandler.DeleteTodo id).
Proof. unfold TodoHandler.DeleteTodo. guarantee. Qed.

Lemma handler_guarantees_ToggleTodoComplete id :
  guarantees R (TodoHandler.ToggleTodoComplete id).
Proof. unfold TodoHandler.ToggleTodoComplete. guarantee. Qed.
End Handler.

#[export] Hint Resolve handler_guarantees_CreateTodo handler_guarantees_GetAllTodos
  handler_guarantees_GetTodoByID handler_guarantees_UpdateTodo handler_guarantees_DeleteTodo
  handler_guarantees_ToggleTodoComplete : guarantee.
