(* ===== verification/Envelope.v ===== *)
(** * Envelope: what the handlers can answer

    Properties of every answer a handler of src/handlers/todo_handler.go
    builds with src/utils/response.go, whatever the service returns: the
    status codes each route can produce (the specification's table of
    section 6), and that only the list carries a [meta] block (section
    4.4).  [answers P m] says that every value [m] returns, from any world,
    satisfies [P]; it is closed under [mret] and [mbind], so the proofs
    follow the handlers' code branch by branch.  The theorems hold for
    any [TodoService]. *)

From S2P Require Import Prelude Model Response Service Handler.
Open Scope Z_scope.

Definition answers {A} (P : A -> Prop) (m : M A) : Prop :=
  forall w, match (m w).1 with Done a => P a | Panicked _ => True end.

Section Closure.
Context {A : Type} (P : A -> Prop).

Lemma answers_ret a : P a -> answers P (mret a).
Proof. intros Ha w. exact Ha. Qed.

Lemma answers_bind {B} (m : M B) (k : B -> M A) :
  (forall b, answers P (k b)) -> answers P (x ← m; k x).
Proof.
  intros Hk w. cbv [mbind st_bind]. destruct (m w) as [[b|p] w1]; [apply Hk|exact I].
Qed.
End Closure.

(** Follow a handler's branches to the answers it builds. *)
Ltac answer :=
  repeat first
    [ progress cbv zeta
    | lazymatch goal with
      | |- answers _ (mbind _ _) => refine (answers_bind _ _ _ _); intros ?
      | |- answers _ (mret _) => apply answers_ret; cbn [Status Meta SendErrorResponse SendSuccessResponse]
      | |- answers _ (match ?x with _ => _ end) => destruct x; cbv beta iota
      end ].

Ltac status_in := repeat (apply elem_of_cons; first [by left|right]).

Section AnyService.
Context `{Svc : TodoService}.

(** C21: every route answers only with the status codes of the
    specification's table: create 201 or 400; list 200, 400 or 500; get
    200, 404 or 500; update 200, 400 or 404; delete 204, 404 or 500;
    toggle 200, 404 or 500 — whatever the service returns. *)
Theorem handler_statuses body q id ubody :
  answers (fun r => Status r ∈ [201; 400]) (TodoHandler.CreateTodo body) /\
  answers (fun r => Status r ∈ [200; 400; 500]) (TodoHandler.GetAllTodos q) /\
  answers (fun r => Status r ∈ [200; 404; 500]) (TodoHandler.GetTodoByID id) /\
  answers (fun r => Status r ∈ [200; 400; 404]) (TodoHandler.UpdateTodo id ubody) /\
  answers (fun r => Status r ∈ [204; 404; 500]) (TodoHandler.DeleteTodo id) /\
  answers (fun r => Status r ∈ [200; 404; 500]) (TodoHandler.ToggleTodoComplete id).
Proof.
  cbv [TodoHandler.CreateTodo TodoHandler.GetAllTodos TodoHandler.GetTodoByID
       TodoHandler.UpdateTodo TodoHandler.DeleteTodo TodoHandler.ToggleTodoComplete].
  split_and!; answer; cbv [StatusOK StatusCreated StatusNoContent StatusBadRequest
    StatusNotFound StatusInternalServerError]; status_in.
Qed.

(** C22: only the list carries a [meta] block: the answers of create,
    get, update, delete and toggle have none, and every 200 answer of the
    list has one. *)
Theorem handler_meta_list_only body q id ubody :
  answers (fun r => Meta r = None) (TodoHandler.CreateTodo body) /\
  answers (fun r => Meta r = None) (TodoHandler.GetTodoByID id) /\
  answers (fun r => Meta r = None) (TodoHandler.UpdateTodo id ubody) /\
  answers (fun r => Meta r = None) (TodoHandler.DeleteTodo id) /\
  answers (fun r => Meta r = None) (TodoHandler.ToggleTodoComplete id) /\
  answers (fun r => Status r = 200 -> is_Some (Meta r)) (TodoHandler.GetAllTodos q).
Proof.
  cbv [TodoHandler.CreateTodo TodoHandler.GetAllTodos TodoHandler.GetTodoByID
       TodoHandler.UpdateTodo TodoHandler.DeleteTodo TodoHandler.ToggleTodoComplete].
  split_and!; answer; try reflexivity; intros Hs; [by eexists|..];
    cbv [StatusOK StatusBadRequest StatusInternalServerError] in Hs; discriminate.
Qed.
End AnyService.
