(* ===== verification/System.v ===== *)
(** * System: the collection invariant over every run of the server

    The well-formedness of a world, [wf]: the [_id]s of the collection are
    unique, every stored document has a 96-bit id, millisecond-aligned
    timestamps with [CreatedAt <= UpdatedAt <= clock], and the ObjectID
    generator's state is in range.  [mongoRepository] promises to keep it
    ([RepoGuarantees (inv_rel wf)]), so by [Guarantee] the service and
    every handler keep it, panicking runs included. *)

From S2P Require Import Prelude ObjectId Model Store Repository Service Strconv Response Handler Guarantee.
Open Scope Z_scope.

(** ** The invariant *)

Definition doc_wf (now : Z) (t : Todo) : Prop :=
  oid_valid (ID t) /\
  bson_time (CreatedAt t) = CreatedAt t /\ bson_time (UpdatedAt t) = UpdatedAt t /\
  CreatedAt t <= UpdatedAt t <= now.

Definition wf (w : World) : Prop :=
  ids_unique (todos w) /\ Forall (doc_wf (clock w)) (todos w) /\ gen_valid (oidgen w).

(** ** The invariant under the world primitives *)

Lemma doc_wf_mono c c' t : c <= c' -> doc_wf c t -> doc_wf c' t.
Proof. unfold doc_wf. intros ? (?&?&?&?). split_and!; auto; lia. Qed.

Lemma Forall_doc_wf_mono c c' docs :
  c <= c' -> Forall (doc_wf c) docs -> Forall (doc_wf c') docs.
Proof. intros Hc H. eapply Forall_impl; [exact H|]. eauto using doc_wf_mono. Qed.

Lemma wf_tick w : wf w -> wf (tick w).
Proof.
  intros (Hu & Hd & Hg). split_and!; [done| |done].
  eapply Forall_doc_wf_mono; [apply tick_clock|done].
Qed.

Lemma wf_pop_fault w : wf w -> wf (pop_fault w).
Proof. done. Qed.

Lemma wf_with_gen g w : gen_valid g -> wf w -> wf (with_gen g w).
Proof. intros Hg (Hu & Hd & _). by split_and!. Qed.

Lemma wf_with_todos docs w :
  ids_unique docs -> Forall (doc_wf (clock w)) docs -> gen_valid (oidgen w) ->
  wf (with_todos docs w).
Proof. intros Hu Hd Hg. split; [exact Hu|split; [exact Hd|exact Hg]]. Qed.

Lemma Forall_sublist {A} (P : A -> Prop) l l' : l' `sublist_of` l -> Forall P l -> Forall P l'.
Proof.
  rewrite !Forall_forall. intros Hs HP x Hx. apply HP. by eapply elem_of_sublist.
Qed.

Lemma Forall_find_one_and_update (P : Todo -> Prop) id upd docs :
  (forall t, P t -> P (upd t)) -> Forall P docs -> Forall P (find_one_and_update id upd docs).2.
Proof.
  intros Hupd. induction docs as [|t docs IH]; [done|]. intros [Ht Hd]%Forall_cons.
  cbn [find_one_and_update]. case_decide; [by constructor; auto|].
  destruct (find_one_and_update id upd docs) eqn:E. cbn [snd] in *. constructor; auto.
Qed.

#[export] Hint Resolve wf_tick wf_pop_fault : todo.

(** ** The repository's documents are well formed *)

(** The [$set] of [UpdateTodo] keeps a document well formed: [createdAt]
    stays, [updatedAt] becomes the current reading in milliseconds. *)
Lemma updated_doc_wf todo now t : doc_wf now t -> doc_wf now (updated_doc todo now t).
Proof.
  unfold doc_wf, updated_doc, TodoRepo.set_update. cbn. intros (Hid & Hc & Hu & Hle).
  rewrite bson_time_idem. pose proof (bson_time_le now).
  pose proof (bson_time_mono (CreatedAt t) now ltac:(lia)). split_and!; auto; lia.
Qed.

(** The world [CreateTodo] writes in is well formed, and the document it
    stores is well formed there. *)
Lemma create_w3_wf w : wf w -> wf (create_w3 w).
Proof.
  intros Hw. unfold create_w3, create_w1. apply wf_tick, wf_tick, wf_with_gen; [|by apply wf_tick].
  destruct Hw as (_ & _ & Hg). by apply NewObjectID_valid.
Qed.

Lemma created_doc_wf todo w : wf w -> doc_wf (clock (create_w3 w)) (to_bson (created_doc todo w)).
Proof.
  intros (_ & _ & Hg). unfold doc_wf, to_bson, created_doc, create_w3. cbn [ID CreatedAt UpdatedAt].
  rewrite !bson_time_idem. split_and!; [by apply NewObjectID_valid|done|done| |].
  - apply bson_time_mono, tick_clock.
  - etrans; [apply bson_time_le|]. reflexivity.
Qed.

Section Mongo.
Context `{RX : RegexEngine}.

Lemma wf_repo_CreateTodo todo w : wf w -> wf (TodoRepo.CreateTodo todo w).2.
Proof.
  intros Hw. rewrite CreateTodo_spec. cbv zeta. pose proof (create_w3_wf w Hw) as Hw3.
  destruct (next_fault _); [by apply wf_pop_fault|].
  destruct (insert_one _ _) as [docs'|] eqn:E; [|by apply wf_pop_fault].
  destruct Hw3 as (Hu & Hd & Hg). apply wf_with_todos; [by eapply insert_one_unique| |done].
  revert E. unfold insert_one. case_decide; [done|]. intros [= <-].
  apply Forall_app. split; [done|]. constructor; [|done]. by apply created_doc_wf.
Qed.

Lemma wf_repo_UpdateTodo id todo w : wf w -> wf (TodoRepo.UpdateTodo id todo w).2.
Proof.
  intros Hw. rewrite UpdateTodo_spec. cbv zeta. apply wf_tick in Hw.
  destruct (next_fault _); [by apply wf_pop_fault|].
  destruct Hw as (Hu & Hd & Hg). apply wf_with_todos; [| |done].
  - unfold ids_unique. rewrite find_one_and_update_ids by done. done.
  - apply Forall_find_one_and_update; [|done]. intros t. apply updated_doc_wf.
Qed.

Lemma wf_repo_DeleteTodo id w : wf w -> wf (TodoRepo.DeleteTodo id w).2.
Proof.
  intros Hw. rewrite DeleteTodo_spec. destruct (next_fault _); [by apply wf_pop_fault|].
  destruct Hw as (Hu & Hd & Hg). apply wf_with_todos; [| |done].
  - by eapply sublist_ids_unique; [apply delete_one_sublist|].
  - by eapply Forall_sublist; [apply delete_one_sublist|].
Qed.

#[export] Instance mongoRepository_wf : RepoGuarantees (inv_rel wf).
Proof.
  split; intros; intros w Hw; cbv [repo_CreateTodo repo_GetAll repo_GetTodoByID
    repo_UpdateTodo repo_DeleteTodo repo_CountTodos mongoRepository].
  - by apply wf_repo_CreateTodo.
  - rewrite GetAll_spec. destruct (next_fault w); [done|]. done.
  - by rewrite GetTodoByID_spec.
  - by apply wf_repo_UpdateTodo.
  - by apply wf_repo_DeleteTodo.
  - by rewrite CountTodos_spec.
Qed.
End Mongo.
