(* ===== verification/Abstract.v ===== *)
(** * Abstract: the repository's contract over a finite map of tasks

    What the service needs of a [TodoRepository], stated without the
    collection's list, its insertion order or the driver: the collection
    seen as a finite map from [_id] to document ([abs]), and for each
    method of src/repositories/todo_repository.go a relation between the
    map before, the Go result and the map after ([create_spec], ...,
    [count_spec]).  [refines m spec] says that a run of [m] from a
    well-formed world keeps [wf], keeps a quiet environment quiet, and
    either does what [spec] says or, when the environment fails a round
    trip, fails (error or panic) and leaves the map as it was.  The class
    [RepoContract] collects the six laws; [mongoRepository] meets it
    ([mongoRepository_refines]), and the service's theorems in [Section
    Client] are proved against the class alone. *)

From S2P Require Import Prelude ObjectId Model Store Repository Service System.
Open Scope Z_scope.

(** ** The abstract state *)

Notation TaskMap := (gmap ObjectID Todo).

(** The collection as a map: the first document under each [_id], which
    is the one [FindOne] returns. *)
Definition abs (docs : list Todo) : TaskMap :=
  list_to_map ((fun d => (ID d, d)) <$> docs).

Section Specs.
Context `{RX : RegexEngine}.

(** The documents a filter selects. *)
Definition abs_matching (flt : Filter) (S : TaskMap) : TaskMap :=
  filter (fun kv => filter_matches flt kv.2 = true) S.

Definition abs_count (flt : Filter) (S : TaskMap) : Z := Z.of_nat (size (abs_matching flt S)).

(** The size of a page of [n] matching documents: [skip] applies when
    non-negative, [limit] when positive (the options [GetAll] sets). *)
Definition page_len (limit skip n : Z) : Z :=
  let n' := if decide (skip >= 0) then Z.max 0 (n - skip) else n in
  if decide (limit > 0) then Z.min limit n' else n'.

(** [CreateTodo]: a fresh id holding the stored (millisecond) copy of the
    returned task, which carries the request's fields and is newer than
    every stored task; or the duplicate-key error of an id already taken. *)
Definition create_spec (todo : Todo) (S : TaskMap) (r : result Todo) (S' : TaskMap) : Prop :=
  (exists d, r = Ok d /\ S !! ID d = None /\ S' = <[ID d := to_bson d]> S /\
     Title d = Title todo /\ Description d = Description todo /\ Complete d = Complete todo /\
     CreatedAt d <= UpdatedAt d /\ map_Forall (fun _ d0 => UpdatedAt d0 <= CreatedAt d) S) \/
  (exists id, is_Some (S !! id) /\
     r = Err ("Error the to create task: " ++ dup_key_error id) /\ S' = S).

(** [GetAll]: a page of distinct stored documents that pass the filter,
    newest first, of the size [page_len] gives. *)
Definition getall_spec (flt : Filter) (limit skip : Z) (S : TaskMap)
    (r : result (list Todo)) (S' : TaskMap) : Prop :=
  S' = S /\
  exists l, r = Ok l /\ NoDup (map ID l) /\ StronglySorted created_desc l /\
    Forall (fun d => S !! ID d = Some d /\ filter_matches flt d = true) l /\
    Z.of_nat (length l) = page_len limit skip (abs_count flt S).

Definition get_spec (id : ObjectID) (S : TaskMap) (r : result (option Todo)) (S' : TaskMap) : Prop :=
  r = Ok (S !! id) /\ S' = S.

(** [UpdateTodo]: the stored document takes the request's three fields
    and a later [updatedAt], and keeps its id and [createdAt]; an absent
    id is [(nil, nil)]. *)
Definition update_spec (id : ObjectID) (todo : Todo) (S : TaskMap)
    (r : result (option Todo)) (S' : TaskMap) : Prop :=
  match S !! id with
  | None => r = Ok None /\ S' = S
  | Some d =>
      exists d', r = Ok (Some d') /\ S' = <[id := d']> S /\
        ID d' = id /\ Title d' = Title todo /\ Description d' = Description todo /\
        Complete d' = Complete todo /\ CreatedAt d' = CreatedAt d /\ UpdatedAt d <= UpdatedAt d'
  end.

Definition delete_spec (id : ObjectID) (S : TaskMap) (r : result unit) (S' : TaskMap) : Prop :=
  S' = delete id S /\
  r = match S !! id with Some _ => Ok tt | None => Err "No tasks found with id to delete" end.

Definition count_spec (flt : Filter) (S : TaskMap) (r : result Z) (S' : TaskMap) : Prop :=
  r = Ok (abs_count flt S) /\ S' = S.
End Specs.

(** ** Refinement of one method *)

Definition is_err {A} (r : result A) : Prop := match r with Err _ => True | Ok _ => False end.

(** A failure is only allowed when the environment has failures pending,
    and it leaves the map unchanged. *)
Definition outcome_refines {A} (spec : TaskMap -> result A -> TaskMap -> Prop)
    (env : list (option string)) (S : TaskMap) (o : outcome (result A)) (S' : TaskMap) : Prop :=
  match o with
  | Done r => spec S r S' \/ (env <> [] /\ is_err r /\ S' = S)
  | Panicked _ => env <> [] /\ S' = S
  end.

Definition refines {A} (m : M (result A)) (spec : TaskMap -> result A -> TaskMap -> Prop) : Prop :=
  forall w, wf w ->
    wf (m w).2 /\ (faults w = [] -> faults (m w).2 = []) /\
    outcome_refines spec (faults w) (abs (todos w)) (m w).1 (abs (todos (m w).2)).

(** ** The contract *)

Class RepoContract `{RX : RegexEngine} `{Repo : TodoRepository} := {
  contract_CreateTodo todo : refines (repo_CreateTodo todo) (create_spec todo);
  contract_GetAll flt limit skip : refines (repo_GetAll flt limit skip) (getall_spec flt limit skip);
  contract_GetTodoByID id : refines (repo_GetTodoByID id) (get_spec id);
  contract_UpdateTodo id todo : refines (repo_UpdateTodo id todo) (update_spec id todo);
  contract_DeleteTodo id : refines (repo_DeleteTodo id) (delete_spec id);
  contract_CountTodos flt : refines (repo_CountTodos flt) (count_spec flt)
}.

(** ** The abstraction of the collection commands *)

Lemma abs_cons d docs : abs (d :: docs) = <[ID d := d]> (abs docs).
Proof. reflexivity. Qed.

Lemma abs_lookup id docs : abs docs !! id = find_one id docs.
Proof.
  induction docs as [|d docs IH]; [done|].
  rewrite abs_cons, find_one_cons, lookup_insert. by case_decide.
Qed.

Lemma abs_ext docs docs' : (forall id, find_one id docs = find_one id docs') -> abs docs = abs docs'.
Proof. intros H. apply map_eq. intros id. by rewrite !abs_lookup. Qed.

Lemma find_one_app id docs extra :
  find_one id (docs ++ extra) = match find_one id docs with Some t => Some t | None => find_one id extra end.
Proof.
  induction docs as [|d docs IH]; [done|]. simpl. rewrite !find_one_cons. by case_decide.
Qed.

(** With unique ids, a stored document is the one found under its id. *)
Lemma find_one_elem docs d : ids_unique docs -> d ∈ docs -> find_one (ID d) docs = Some d.
Proof.
  unfold ids_unique. induction docs as [|d' docs IH]; [set_solver|].
  intros [Hn Hu]%NoDup_cons [->|Hin]%elem_of_cons; rewrite find_one_cons.
  - by rewrite decide_True.
  - rewrite decide_False; [by apply IH|]. intros Heq. apply Hn. rewrite Heq.
    by apply list_elem_of_fmap_2.
Qed.

Lemma abs_insert_one doc docs docs' :
  insert_one doc docs = Ok docs' -> abs docs' = <[ID doc := to_bson doc]> (abs docs).
Proof.
  unfold insert_one. case_decide as Hin; [done|]. intros [= <-].
  apply map_eq. intros id. rewrite abs_lookup, find_one_app, lookup_insert, abs_lookup.
  case_decide as He.
  - subst. by rewrite (proj2 (find_one_None _ _) Hin), find_one_cons, decide_True.
  - destruct (find_one id docs); [done|]. by rewrite find_one_cons, decide_False.
Qed.

Lemma abs_find_one_and_update id upd docs :
  (forall t, ID (upd t) = ID t) ->
  (find_one_and_update id upd docs).1 = upd <$> abs docs !! id /\
  abs (find_one_and_update id upd docs).2 =
    match abs docs !! id with Some t => <[id := upd t]> (abs docs) | None => abs docs end.
Proof.
  intros Hupd. rewrite abs_lookup. destruct (find_one id docs) as [t|] eqn:Ht.
  - split; [by apply find_one_and_update_found|]. apply map_eq. intros id'.
    rewrite abs_lookup, lookup_insert, abs_lookup. case_decide; subst.
    + by apply find_one_and_update_find.
    + by apply find_one_and_update_other.
  - rewrite find_one_and_update_absent by by apply find_one_None. done.
Qed.

Lemma abs_delete_one id docs :
  ids_unique docs -> abs (delete_one id docs).2 = delete id (abs docs).
Proof.
  intros Hu. apply map_eq. intros id'. rewrite abs_lookup.
  destruct (decide (id = id')) as [<-|Hne].
  - rewrite lookup_delete_eq. by apply delete_one_gone.
  - rewrite lookup_delete_ne, abs_lookup by done. by apply delete_one_other.
Qed.

Lemma delete_one_count id docs :
  (delete_one id docs).1 = 0 <-> abs docs !! id = None.
Proof.
  rewrite abs_lookup, find_one_None. split.
  - intros H0 Hin. rewrite delete_one_present in H0 by done. lia.
  - intros Hn. by rewrite delete_one_absent.
Qed.

Section Collection.
Context `{RX : RegexEngine}.

Lemma abs_count_cons flt d docs :
  abs docs !! ID d = None ->
  abs_count flt (abs (d :: docs)) = (if filter_matches flt d then 1 else 0) + abs_count flt (abs docs).
Proof.
  intros Hn. unfold abs_count, abs_matching. rewrite abs_cons.
  destruct (filter_matches flt d) eqn:Hm.
  - rewrite map_filter_insert_True by done. rewrite map_size_insert_None; [lia|].
    by apply map_lookup_filter_None_2; left.
  - rewrite map_filter_insert_False by (cbn; congruence). by rewrite delete_id.
Qed.

(** With unique ids, [CountDocuments] counts the matching tasks of the map. *)
Lemma count_documents_abs flt docs :
  ids_unique docs -> count_documents flt docs = abs_count flt (abs docs).
Proof.
  unfold ids_unique. induction docs as [|d docs IH]; [done|]. intros [Hn Hu]%NoDup_cons.
  rewrite abs_count_cons by (rewrite abs_lookup; by apply find_one_None).
  rewrite <- IH by done. unfold count_documents, matching. rewrite filter_cons.
  destruct (filter_matches flt d); simpl; lia.
Qed.

Lemma find_page_len flt limit skip docs :
  Z.of_nat (length (find flt (getall_options limit skip) docs)) =
    page_len limit skip (count_documents flt docs).
Proof.
  unfold find, getall_options, page_len, count_documents.
  rewrite <- (Permutation_length (merge_sort_Permutation created_desc (matching flt docs))).
  destruct (decide (skip >= 0)), (decide (limit > 0)); cbn [apply_limit apply_skip opt_limit opt_skip];
    rewrite ?decide_False by lia; rewrite ?length_take, ?length_drop; lia.
Qed.

Lemma find_ids_unique flt o docs : ids_unique docs -> NoDup (map ID (find flt o docs)).
Proof.
  intros Hu. apply (sublist_ids_unique (merge_sort created_desc (matching flt docs))).
  - apply find_sublist_sorted.
  - unfold ids_unique. apply (NoDup_Permutation_proper _ _ (Permutation_map ID (merge_sort_Permutation _ _))).
    apply (sublist_ids_unique docs); [apply sublist_filter|done].
Qed.
End Collection.

(** ** The environment of a run *)

Lemma faults_pop_quiet w : faults w = [] -> faults (pop_fault w) = [].
Proof. intros H. cbn. by rewrite H. Qed.

(** A round trip after steps that leave the failures alone. *)
Lemma pop_quiet_conv w w' : faults w' = faults w -> faults w = [] -> faults (pop_fault w') = [].
Proof. intros E H. change (tail (faults w') = []). by rewrite E, H. Qed.

Ltac keep_quiet :=
  let Hq := fresh in intros Hq; eapply pop_quiet_conv; [reflexivity|exact Hq].

Lemma next_fault_pending w e : next_fault w = Some e -> faults w <> [].
Proof. unfold next_fault. by destruct (faults w). Qed.

Lemma pop_fault_pending w : faults (pop_fault w) <> [] -> faults w <> [].
Proof. cbn. by destruct (faults w). Qed.

(** The failure branch of [outcome_refines]: the failing round trip shows
    that failures were pending. *)
Ltac refine_failure :=
  right; split_and!;
  [ let Hq := fresh in intros Hq;
    match goal with H : next_fault ?x = Some _ |- _ =>
      rewrite next_fault_quiet in H; [discriminate|];
      first [exact Hq | apply faults_pop_quiet; exact Hq] end
  | done | reflexivity ].

(** ** [mongoRepository] meets the contract *)

Section Mongo.
Context `{RX : RegexEngine}.

Lemma refines_GetTodoByID id : refines (TodoRepo.GetTodoByID id) (get_spec id).
Proof.
  intros w Hw. rewrite GetTodoByID_spec. cbn [fst snd]. split_and!; [by apply wf_pop_fault|keep_quiet|].
  destruct (next_fault w) eqn:Hf; [refine_failure|]. left. split; [by rewrite abs_lookup|reflexivity].
Qed.

Lemma refines_CountTodos flt : refines (TodoRepo.CountTodos flt) (count_spec flt).
Proof.
  intros w Hw. rewrite CountTodos_spec. cbn [fst snd]. split_and!; [by apply wf_pop_fault|keep_quiet|].
  destruct (next_fault w) eqn:Hf; [refine_failure|]. left. split; [|reflexivity].
  f_equal. apply count_documents_abs, Hw.
Qed.

Lemma refines_DeleteTodo id : refines (TodoRepo.DeleteTodo id) (delete_spec id).
Proof.
  intros w Hw. split; [by apply wf_repo_DeleteTodo|]. rewrite DeleteTodo_spec.
  destruct (next_fault w) eqn:Hf; cbn [fst snd]; (split; [keep_quiet|]); [refine_failure|].
  left. split; [apply abs_delete_one, Hw|].
  destruct (abs (todos w) !! id) eqn:Hl.
  - rewrite decide_False; [done|]. rewrite delete_one_count. congruence.
  - by rewrite decide_True by (by apply delete_one_count).
Qed.
(** A stored document's [updatedAt] is at most the stored reading of any
    later clock. *)
Lemma stored_updated_le w d now :
  wf w -> abs (todos w) !! ID d = Some d -> clock w <= now -> UpdatedAt d <= bson_time now.
Proof.
  intros (_ & Hd & _) Hl Hc. rewrite abs_lookup in Hl. apply find_one_Some in Hl as [Hin _].
  rewrite Forall_forall in Hd. destruct (Hd d Hin) as (_ & _ & Hb & _ & Hle).
  rewrite <- Hb. by apply bson_time_mono; lia.
Qed.

Lemma refines_UpdateTodo id todo : refines (TodoRepo.UpdateTodo id todo) (update_spec id todo).
Proof.
  intros w Hw. split; [by apply wf_repo_UpdateTodo|]. rewrite UpdateTodo_spec. cbv zeta.
  destruct (next_fault (tick w)) eqn:Hf; cbn [fst snd]; (split; [keep_quiet|]); [refine_failure|].
  left. set (upd := updated_doc todo (clock (tick w))).
  destruct (abs_find_one_and_update id upd (todos (tick w)) (fun _ => eq_refl)) as [Hr Hs].
  cbn [todos with_todos]. rewrite Hs, Hr. unfold update_spec.
  change (todos (tick w)) with (todos w). destruct (abs (todos w) !! id) as [d|] eqn:Hl; [|done].
  exists (upd d). split_and!; try reflexivity.
  - rewrite abs_lookup in Hl. by apply find_one_Some in Hl as [_ <-].
  - cbn. apply (stored_updated_le w); [done| |apply tick_clock].
    rewrite abs_lookup in *. apply find_one_Some in Hl as Hd. by destruct Hd as [_ ->].
Qed.

Lemma refines_GetAll flt limit skip :
  refines (TodoRepo.GetAll flt limit skip) (getall_spec flt limit skip).
Proof.
  intros w Hw. rewrite GetAll_spec.
  destruct (next_fault w) eqn:Hf; cbn [fst snd];
    [split_and!; [by apply wf_pop_fault|apply faults_pop_quiet|by split; [eapply next_fault_pending|]]|].
  destruct (next_fault (pop_fault w)) eqn:Hf'; cbn [fst snd];
    (split_and!; [by do 2 apply wf_pop_fault|intros; by do 2 apply faults_pop_quiet|]); [refine_failure|].
  left. split; [reflexivity|]. destruct Hw as (Hu & _ & _).
  eexists. split_and!; [reflexivity|by apply find_ids_unique|apply find_sorted| |].
  - apply Forall_forall. intros d Hd. apply find_elem in Hd as [Hin Hm].
    rewrite abs_lookup. split; [by apply find_one_elem|done].
  - rewrite find_page_len. f_equal. by apply count_documents_abs.
Qed.
Lemma refines_CreateTodo todo : refines (TodoRepo.CreateTodo todo) (create_spec todo).
Proof.
  intros w Hw. split; [by apply wf_repo_CreateTodo|]. rewrite CreateTodo_spec. cbv zeta.
  destruct (next_fault (create_w3 w)) eqn:Hf; cbn [fst snd]; [split; [keep_quiet|refine_failure]|].
  change (todos (create_w3 w)) with (todos w).
  destruct (insert_one (created_doc todo w) (todos w)) as [docs'|e] eqn:Hi; cbn [fst snd];
    (split; [keep_quiet|]); left; [left|right].
  - exists (created_doc todo w). cbn [todos with_todos]. split_and!; try reflexivity.
    + rewrite abs_lookup. apply find_one_None. unfold insert_one in Hi. by case_decide.
    + by apply abs_insert_one.
    + apply tick_clock.
    + intros k d0 Hl. rewrite abs_lookup in Hl. apply find_one_Some in Hl as [Hin _].
      destruct Hw as (_ & Hd & _). rewrite Forall_forall in Hd.
      destruct (Hd _ Hin) as (_ & _ & _ & _ & Hle).
      pose proof (tick_clock w). pose proof (tick_clock (create_w1 w)).
      change (clock (create_w1 w)) with (clock (tick w)) in *. cbn [created_doc CreatedAt]. lia.
  - exists (ID (created_doc todo w)). unfold insert_one in Hi.
    case_decide as Hin; [|done]. injection Hi as <-. split_and!; [|reflexivity|reflexivity].
    rewrite abs_lookup. destruct (find_one _ (todos w)) eqn:E; [done|].
    by apply find_one_None in E.
Qed.

#[export] Instance mongoRepository_contract : RepoContract (Repo := mongoRepository) := {
  contract_CreateTodo := refines_CreateTodo;
  contract_GetAll := refines_GetAll;
  contract_GetTodoByID := refines_GetTodoByID;
  contract_UpdateTodo := refines_UpdateTodo;
  contract_DeleteTodo := refines_DeleteTodo;
  contract_CountTodos := refines_CountTodos
}.
(** C2: refinement: every method of [mongoRepository], run from a
    well-formed world, keeps it well formed and a quiet environment quiet,
    and either does on the map of tasks what the abstract specification
    of the method says ([create_spec], [getall_spec], [get_spec],
    [update_spec], [delete_spec], [count_spec]) or, only when store
    failures are pending, fails and leaves the map as it was. *)
Theorem mongoRepository_refines : RepoContract (Repo := mongoRepository).
Proof.
  split; [exact refines_CreateTodo|exact refines_GetAll|exact refines_GetTodoByID
         |exact refines_UpdateTodo|exact refines_DeleteTodo|exact refines_CountTodos].
Qed.
End Mongo.

(** ** The service against the contract

    The theorems of this section hold for every repository that meets
    [RepoContract]; nothing of the collection's list is used. *)

Section Client.
Context `{RX : RegexEngine} `{Repo : TodoRepository} {RC : RepoContract}.

(** In a quiet environment a method of the contract runs to a result its
    specification allows. *)
Lemma refines_quiet {A} (m : M (result A)) spec w :
  refines m spec -> wf w -> faults w = [] ->
  exists r w', m w = (Done r, w') /\ spec (abs (todos w)) r (abs (todos w')) /\ wf w' /\ faults w' = [].
Proof.
  intros Hr Hw Hq. destruct (Hr w Hw) as (Hw' & Hq' & Ho). rewrite Hq in Ho.
  destruct (m w) as [[r|p] w']; cbn [fst snd] in *; [|by destruct Ho].
  destruct Ho as [Hs|[[] _]]; [|done]. exists r, w'. auto.
Qed.

Lemma svc_toggle_read_quiet oid t w :
  wf w -> faults w = [] -> abs (todos w) !! oid = Some t ->
  exists w1, TodoSvc.toggle_read oid w = (Done (Ok t), w1) /\
    abs (todos w1) = abs (todos w) /\ wf w1 /\ faults w1 = [].
Proof.
  intros Hw Hq Ht. unfold TodoSvc.toggle_read. rewrite bind_unfold.
  destruct (refines_quiet _ _ w (contract_GetTodoByID oid) Hw Hq) as (r & w1 & -> & [-> Hs] & Hw1 & Hq1).
  rewrite Ht. by exists w1.
Qed.

(** C9: against the contract, toggling a stored task answers the task
    with [complete] negated, its title, description, id and [createdAt]
    kept and a later [updatedAt], and the map holds the answered task
    under its id; nothing else changes. *)
Theorem ToggleTodoComplete_contract id oid t w :
  ObjectIDFromHex id = Ok oid -> wf w -> faults w = [] -> abs (todos w) !! oid = Some t ->
  exists t' w', TodoSvc.ToggleTodoComplete id w = (Done (Ok (Some t')), w') /\
    abs (todos w') = <[oid := t']> (abs (todos w)) /\ ID t' = oid /\
    Complete t' = negb (Complete t) /\ Title t' = Title t /\ Description t' = Description t /\
    CreatedAt t' = CreatedAt t /\ UpdatedAt t <= UpdatedAt t' /\ wf w'.
Proof.
  intros Hid Hw Hq Ht. unfold TodoSvc.ToggleTodoComplete. rewrite Hid, bind_unfold.
  destruct (svc_toggle_read_quiet oid t w Hw Hq Ht) as (w1 & -> & Hs1 & Hw1 & Hq1).
  unfold TodoSvc.toggle_write. rewrite bind_unfold.
  destruct (refines_quiet _ _ w1 (contract_UpdateTodo oid (TodoSvc.flip_complete t)) Hw1 Hq1)
    as (r & w2 & -> & Hs2 & Hw2 & _).
  unfold update_spec in Hs2. rewrite Hs1, Ht in Hs2.
  destruct Hs2 as (t' & -> & Hs2 & Hid' & Hti & Hde & Hc & Hcr & Hup).
  exists t', w2. by split_and!.
Qed.

(** C13: against the contract, deleting a well-formed id removes it from
    the map, and the answer is success exactly when it was there. *)
Theorem DeleteTodo_contract id oid w :
  ObjectIDFromHex id = Ok oid -> wf w -> faults w = [] ->
  exists w', TodoSvc.DeleteTodo id w =
      (Done (match abs (todos w) !! oid with
             | Some _ => Ok tt | None => Err "No tasks found with id to delete" end), w') /\
    abs (todos w') = delete oid (abs (todos w)) /\ wf w'.
Proof.
  intros Hid Hw Hq. unfold TodoSvc.DeleteTodo. rewrite Hid, bind_unfold.
  destruct (refines_quiet _ _ w (contract_DeleteTodo oid) Hw Hq) as (r & w1 & -> & [Hs ->] & Hw1 & _).
  exists w1. split_and!; [|done|done]. by destruct (abs (todos w) !! oid).
Qed.
(** C10: against the contract, an update with a title of a stored task
    answers the stored result: title and [complete] from the request,
    the description from the request when non-empty and kept otherwise,
    id and [createdAt] kept, [updatedAt] later; the map holds it under
    its id. *)
Theorem UpdateTodo_contract id oid todo t w :
  ObjectIDFromHex id = Ok oid -> Title todo <> "" -> wf w -> faults w = [] ->
  abs (todos w) !! oid = Some t ->
  exists t' w', TodoSvc.UpdateTodo id todo w = (Done (Ok (Some t')), w') /\
    abs (todos w') = <[oid := t']> (abs (todos w)) /\ ID t' = oid /\ Title t' = Title todo /\
    Description t' = (if decide (Description todo <> "") then Description todo else Description t) /\
    Complete t' = Complete todo /\ CreatedAt t' = CreatedAt t /\ UpdatedAt t <= UpdatedAt t' /\ wf w'.
Proof.
  intros Hid Hti Hw Hq Ht. unfold TodoSvc.UpdateTodo, StructPartial. rewrite Hid.
  rewrite decide_False by tauto. rewrite bind_unfold.
  destruct (refines_quiet _ _ w (contract_GetTodoByID oid) Hw Hq) as (r & w1 & -> & [-> Hs1] & Hw1 & Hq1).
  rewrite Ht, bind_unfold.
  destruct (refines_quiet _ _ w1 (contract_UpdateTodo oid (TodoSvc.merge_update t todo)) Hw1 Hq1)
    as (r & w2 & -> & Hs2 & Hw2 & _).
  unfold update_spec in Hs2. rewrite Hs1, Ht in Hs2.
  destruct Hs2 as (t' & -> & Hs2 & Hid' & Htt & Hde & Hc & Hcr & Hup).
  exists t', w2. cbn in Htt. rewrite decide_True in Htt by done. by split_and!.
Qed.

(** C14: against the contract, a list request answers the number of
    matching tasks as the total, and a page of distinct stored tasks that
    pass the filter, newest first, of [page_len] items for the offset the
    service computes; the map is unchanged. *)
Theorem GetAllTodos_contract title complete page pagSize w :
  wf w -> faults w = [] ->
  exists l w', TodoSvc.GetAllTodos title complete page pagSize w =
      (Done (Ok (l, abs_count (TodoSvc.list_filter title complete) (abs (todos w)))), w') /\
    abs (todos w') = abs (todos w) /\ NoDup (map ID l) /\ StronglySorted created_desc l /\
    Forall (fun d => abs (todos w) !! ID d = Some d /\
                     filter_matches (TodoSvc.list_filter title complete) d = true) l /\
    Z.of_nat (length l) = page_len pagSize (mul64 (sub64 page 1) pagSize)
                            (abs_count (TodoSvc.list_filter title complete) (abs (todos w))).
Proof.
  intros Hw Hq. unfold TodoSvc.GetAllTodos. cbv zeta. rewrite bind_unfold.
  destruct (refines_quiet _ _ w (contract_GetAll (TodoSvc.list_filter title complete) pagSize
              (mul64 (sub64 page 1) pagSize)) Hw Hq)
    as (r & w1 & -> & [Hs1 (l & -> & Hl)] & Hw1 & Hq1).
  rewrite bind_unfold.
  destruct (refines_quiet _ _ w1 (contract_CountTodos (TodoSvc.list_filter title complete)) Hw1 Hq1)
    as (r & w2 & -> & [-> Hs2] & _).
  rewrite Hs1. exists l, w2. split; [reflexivity|]. split; [congruence|done].
Qed.
End Client.
