(* ===== verification/Server.v ===== *)
(** * Server: src/main.go's application — routes, middlewares, requests

    [main] builds a fiber app with the middlewares [cors], [logger],
    [recover] and [limiter] (100 requests per 25 seconds per client IP), a
    group [/api/v1/todos] with six routes to the handler, and [/health].
    This file models one request through that app: the limiter's fixed
    window, the router (fiber's default, case-insensitive, non-strict
    routing), the handler call, and [recover], which turns a panic into a
    500 answer.  The server's state is the world and the limiter's store;
    [step] is one request, or the environment choosing new clock and fault
    streams, and [reachable] its reflexive-transitive closure from a fresh
    process.

    [cors] and [logger], in front of [recover], are modelled in
    [Middleware] on top of [serve].  Methods other than the five the
    routes use (fiber also answers [HEAD] and [OPTIONS]) are not modelled
    here; [Middleware] adds the CORS preflight. *)

From S2P Require Import Prelude ObjectId Model Store Repository Service Strconv Response Handler Body Guarantee System.
Open Scope Z_scope.

(** ** Requests and answers *)

Inductive Method := GET | POST | PUT | DELETE | PATCH.

#[export] Instance Method_eq_dec : EqDecision Method.
Proof. solve_decision. Defined.

Definition method_name (m : Method) : string :=
  match m with GET => "GET" | POST => "POST" | PUT => "PUT" | DELETE => "DELETE" | PATCH => "PATCH" end.

Record Request := mkRequest {
  req_ip : string;                         (** [c.IP()] *)
  req_method : Method;
  req_path : string;
  req_query : list (string * string);      (** the query string, in order *)
  req_body : ReqBody
}.

Inductive HttpBody :=
  | BodyAPI (r : APIResponse)      (** [c.JSON(APIResponse)] *)
  | BodyHealth                     (** [{"status": "ok", "message": "API is running!"}] *)
  | BodyText (s : string)          (** fiber's plain-text error answers *)
  | BodyEmpty.

Record HttpResponse := mkHttp { http_status : Z; http_body : HttpBody }.

(** [c.Status(code).JSON(res)]: fasthttp writes no body with a 204. *)
Definition send_api (r : APIResponse) : HttpResponse :=
  if decide (Status r = StatusNoContent) then mkHttp StatusNoContent BodyEmpty
  else mkHttp (Status r) (BodyAPI r).

(** ** The router *)

(** The path cut at ['/']: ["/a/b"] is [[""; "a"; "b"]]. *)
Fixpoint split_slash (s : string) : list string :=
  match s with
  | EmptyString => [""]
  | String c s' =>
      let rest := split_slash s' in
      if decide (Ascii.nat_of_ascii c = 47%nat) then "" :: rest
      else match rest with
           | seg :: rest' => String c seg :: rest'
           | [] => [String c ""]
           end
  end.

(** The segments after the leading ['/'], one trailing ['/'] ignored
    (fiber's [StrictRouting: false]). *)
Definition path_segments (p : string) : option (list string) :=
  match split_slash p with
  | "" :: segs =>
      Some (match reverse segs with "" :: rsegs => reverse rsegs | _ => segs end)
  | _ => None
  end.

(** A literal segment, matched up to case ([CaseSensitive: false]). *)
Definition seg_is (seg lit : string) : bool := bool_decide (string_lower seg = lit).

Inductive Route :=
  | RCreate | RList | RGet (id : string) | RUpdate (id : string)
  | RDelete (id : string) | RToggle (id : string) | RHealth.

(** The route table of [main]: [api.Post("/")], [api.Get("/")],
    [api.Get("/:id")], [api.Put("/:id")], [api.Delete("/:id")],
    [api.Patch("/:id/toggle")], [app.Get("/health")]; a parameter matches
    one non-empty segment. *)
Definition route (m : Method) (segs : list string) : option Route :=
  match segs with
  | [h] => if seg_is h "health" && bool_decide (m = GET) then Some RHealth else None
  | a :: b :: c :: rest =>
      if seg_is a "api" && seg_is b "v1" && seg_is c "todos" then
        match rest, m with
        | [], POST => Some RCreate
        | [], GET => Some RList
        | [id], GET => if decide (id = "") then None else Some (RGet id)
        | [id], PUT => if decide (id = "") then None else Some (RUpdate id)
        | [id], DELETE => if decide (id = "") then None else Some (RDelete id)
        | [id; t], PATCH =>
            if decide (id = "") then None else if seg_is t "toggle" then Some (RToggle id) else None
        | _, _ => None
        end
      else None
  | _ => None
  end.

Definition all_methods : list Method := [GET; POST; PUT; DELETE; PATCH].

(** fiber's answer when no route matches: 405 when the path has a route
    for another method, 404 otherwise. *)
Definition no_route (m : Method) (p : string) (segs : list string) : HttpResponse :=
  if existsb (fun m' => bool_decide (route m' segs <> None)) all_methods
  then mkHttp 405 (BodyText "Method Not Allowed")
  else mkHttp StatusNotFound (BodyText ("Cannot " ++ method_name m ++ " " ++ p)).

Section App.
Context `{Svc : TodoService}.

(** The handler a route reaches, with the body decoded by
    [c.BodyParser] and the path parameter [c.Params("id")]. *)
Definition dispatch (rt : Route) (req : Request) : M HttpResponse :=
  match rt with
  | RHealth => mret (mkHttp StatusOK BodyHealth)
  | RCreate => r ← TodoHandler.CreateTodo (parse_create (req_body req)); mret (send_api r)
  | RList => r ← TodoHandler.GetAllTodos (req_query req); mret (send_api r)
  | RGet id => r ← TodoHandler.GetTodoByID id; mret (send_api r)
  | RUpdate id => r ← TodoHandler.UpdateTodo id (parse_update (req_body req)); mret (send_api r)
  | RDelete id => r ← TodoHandler.DeleteTodo id; mret (send_api r)
  | RToggle id => r ← TodoHandler.ToggleTodoComplete id; mret (send_api r)
  end.

Definition app_routes (req : Request) : M HttpResponse :=
  match path_segments (req_path req) with
  | None => mret (no_route (req_method req) (req_path req) [])
  | Some segs =>
      match route (req_method req) segs with
      | Some rt => dispatch rt req
      | None => mret (no_route (req_method req) (req_path req) segs)
      end
  end.
End App.

(** ** [limiter.New(limiter.Config{Max: 100, Expiration: 25 * time.Second})]

    fiber's fixed-window limiter, keyed by [c.IP()].  Each key has an entry
    [{currHits, exp}] in the in-memory storage, itself stored with an
    expiry of 25 seconds from its last write; an absent or expired storage
    entry reads as [{0, 0}].  Times are fiber's cached Unix timestamp in
    seconds. *)
Module Limiter.
Definition Max : Z := 100.
Definition Expiration : Z := 25.

Record item := mkItem { currHits : Z; exp : Z }.

(** The storage: per key, the item and the storage expiry. *)
Definition store := gmap string (item * Z).

(** [manager.get(key)]: [memory.Get] drops an entry whose expiry is past. *)
Definition get (s : store) (key : string) (ts : Z) : item :=
  match s !! key with
  | Some (e, se) => if decide (se <> 0 /\ se <= ts) then mkItem 0 0 else e
  | None => mkItem 0 0
  end.

(** One request from [key] at time [ts]: whether it may proceed
    ([remaining >= 0]), and the storage after [manager.set]. *)
Definition hit (key : string) (ts : Z) (s : store) : bool * store :=
  let e := get s key ts in
  let e := if decide (exp e = 0) then mkItem (currHits e) (ts + Expiration)
           else if decide (ts >= exp e) then mkItem 0 (ts + Expiration)
           else e in
  let e := mkItem (currHits e + 1) (exp e) in
  let remaining := Max - currHits e in
  (bool_decide (0 <= remaining), <[key := (e, ts + Expiration)]> s).
End Limiter.

(** ** One request through the app *)

Record Server := mkServer { world : World; limits : Limiter.store }.

Section Serve.
Context `{Svc : TodoService}.

(** [app.Use(recover.New())] then [app.Use(limiter.New(...))], then the
    router.  A panic below [recover] becomes fiber's default error
    answer: status 500 with the panic's text. *)
Definition serve (req : Request) (s : Server) : HttpResponse * Server :=
  let ts := unix_seconds (clock (world s)) in
  let '(pass, lim) := Limiter.hit (req_ip req) ts (limits s) in
  if pass then
    match app_routes req (world s) with
    | (Done r, w') => (r, mkServer w' lim)
    | (Panicked msg, w') => (mkHttp StatusInternalServerError (BodyText msg), mkServer w' lim)
    end
  else (mkHttp 429 (BodyText "Too Many Requests"), mkServer (world s) lim).

(** A step of the system: a request is served, or the environment picks
    the clock advances and store failures to come. *)
Inductive step : Server -> Server -> Prop :=
  | step_serve req s : step s (serve req s).2
  | step_env s ts fs :
      step s (mkServer (mkWorld (todos (world s)) (clock (world s)) ts fs (oidgen (world s)))
                (limits s)).

(** A sequence of requests served in order. *)
Fixpoint serve_all (reqs : list Request) (s : Server) : list HttpResponse * Server :=
  match reqs with
  | [] => ([], s)
  | req :: reqs' =>
      let '(r, s1) := serve req s in
      let '(rs, s2) := serve_all reqs' s1 in
      (r :: rs, s2)
  end.
End Serve.

(** The answers of the limiter to requests from one key at times [ts]. *)
Fixpoint hits (key : string) (ts : list Z) (s : Limiter.store) : list bool * Limiter.store :=
  match ts with
  | [] => ([], s)
  | t :: ts' =>
      let '(b, s1) := Limiter.hit key t s in
      let '(bs, s2) := hits key ts' s1 in
      (b :: bs, s2)
  end.

(** [key] has no open window at [t]: its item is fresh, or its window
    has ended. *)
Definition no_window (s : Limiter.store) (key : string) (t : Z) : Prop :=
  let e := Limiter.get s key t in
  (Limiter.exp e = 0 /\ Limiter.currHits e = 0) \/ (Limiter.exp e <> 0 /\ Limiter.exp e <= t).

(** A fresh process: an empty collection, no limiter entries. *)
Definition init_server (g : OidGenerator) (now : Z) : Server :=
  mkServer (mkWorld [] now [] [] g) ∅.

(** ** Every reachable state satisfies the collection invariant *)

Section Invariant.
Context `{RX : RegexEngine}.

Lemma dispatch_wf rt req : guarantees (inv_rel wf) (dispatch rt req).
Proof. destruct rt; cbn [dispatch]; guarantee. Qed.

Lemma app_routes_wf req : guarantees (inv_rel wf) (app_routes req).
Proof.
  unfold app_routes. destruct (path_segments _); [|apply guarantees_ret; apply _].
  destruct (route _ _); [apply dispatch_wf|apply guarantees_ret; apply _].
Qed.

Lemma serve_wf req s : wf (world s) -> wf (world (serve req s).2).
Proof.
  intros Hw. unfold serve. destruct (Limiter.hit _ _ _) as [[] lim]; [|done].
  pose proof (app_routes_wf req (world s) Hw) as H.
  destruct (app_routes req (world s)) as [[r|msg] w']; exact H.
Qed.

Lemma step_wf s s' : step s s' -> wf (world s) -> wf (world s').
Proof. intros []; [apply serve_wf|]. intros (Hu & Hd & Hg). by split_and!. Qed.

Lemma rtc_step_wf s s' : rtc step s s' -> wf (world s) -> wf (world s').
Proof. induction 1; eauto using step_wf. Qed.

(** C1: in every state the server reaches from a fresh process, by any
    sequence of requests and environment choices, the collection's ids
    are unique, every stored document has a valid 96-bit id and
    millisecond timestamps with [CreatedAt <= UpdatedAt <= clock], and
    the ObjectID generator's state is in range. *)
Theorem reachable_wf g now s :
  gen_valid g -> rtc step (init_server g now) s -> wf (world s).
Proof.
  intros Hg Hr. apply (rtc_step_wf _ _ Hr).
  split_and!; [apply NoDup_nil_2|constructor|done].
Qed.
End Invariant.

(** ** The limiter's fixed window *)

Section LimiterProps.
Import Limiter.

(** Inside an open window [[t1, t1 + 25)], a request adds one hit and
    passes while the count stays within [Max]. *)
Lemma hit_window key t1 t (h : nat) se s :
  s !! key = Some (mkItem (Z.of_nat h) (t1 + Expiration), se) ->
  0 <= t1 -> t < se -> t < t1 + Expiration ->
  hit key t s = (bool_decide (h < 100)%nat,
                 <[key := (mkItem (Z.of_nat (S h)) (t1 + Expiration), t + Expiration)]> s).
Proof.
  intros Hs Ht1 Hse Ht. unfold hit, get. rewrite Hs.
  destruct (decide (se <> 0 /\ se <= t)) as [?|_]; [lia|]. cbn [exp currHits].
  destruct (decide (t1 + Expiration = 0)) as [?|_]; [unfold Expiration in *; lia|].
  destruct (decide (t >= t1 + Expiration)) as [?|_]; [lia|]. cbn [exp currHits].
  f_equal; [apply bool_decide_ext; unfold Max; lia|]. do 3 f_equal. lia.
Qed.

Lemma hits_cons key t ts s :
  (hits key (t :: ts) s).1 = (hit key t s).1 :: (hits key ts (hit key t s).2).1.
Proof. cbn [hits]. destruct (hit key t s) as [b s1]. cbn. by destruct (hits key ts s1). Qed.

Lemma hits_window key t1 ts (h : nat) se s :
  s !! key = Some (mkItem (Z.of_nat h) (t1 + Expiration), se) ->
  0 <= t1 -> t1 + Expiration <= se ->
  Forall (fun t => t1 <= t < t1 + Expiration) ts ->
  (hits key ts s).1 = (replicate (Nat.min (length ts) (100 - h)) true ++
                       replicate (length ts - (100 - h)) false)%list.
Proof.
  revert h se s. induction ts as [|t ts IH]; intros h se s Hs Ht1 Hse Hts; [done|].
  apply Forall_cons in Hts as [Ht Hts]. rewrite hits_cons.
  rewrite (hit_window key t1 t h se s) by (done || lia). cbn [fst snd length].
  rewrite (IH (S h) (t + Expiration)) by first [apply lookup_insert_eq | done | lia].
  destruct (decide (h < 100)%nat).
  - rewrite bool_decide_true by done. replace (100 - h)%nat with (S (99 - h)) by lia.
    replace (100 - S h)%nat with (99 - h)%nat by lia. by simpl.
  - rewrite bool_decide_false by done. replace (100 - h)%nat with 0%nat by lia.
    replace (100 - S h)%nat with 0%nat by lia. by rewrite !Nat.min_0_r, !Nat.sub_0_r.
Qed.
(** The first request from a key with no open window opens one. *)
Lemma hit_open key t1 s :
  0 <= t1 -> no_window s key t1 ->
  hit key t1 s = (true, <[key := (mkItem 1 (t1 + Expiration), t1 + Expiration)]> s).
Proof.
  unfold no_window, hit. intros Ht1 Hw. destruct (get s key t1) as [c e]; cbn [exp currHits] in *.
  destruct Hw as [[-> ->]|[He Hle]].
  - rewrite decide_True by done. cbn. by rewrite bool_decide_true by (unfold Max; lia).
  - rewrite decide_False by done. rewrite decide_True by lia. cbn.
    by rewrite bool_decide_true by (unfold Max; lia).
Qed.

Lemma hits_app key ts1 ts2 s :
  (hits key (ts1 ++ ts2) s).1 = ((hits key ts1 s).1 ++ (hits key ts2 (hits key ts1 s).2).1)%list.
Proof.
  revert s. induction ts1 as [|t ts1 IH]; intros s; [done|]. cbn [app hits].
  destruct (hit key t s) as [b s1]. specialize (IH s1).
  destruct (hits key (ts1 ++ ts2) s1) as [bs s2], (hits key ts1 s1) as [bs1 s3]. cbn in *. by rewrite IH.
Qed.

(** After requests inside the window, the key's item still counts them
    and still ends the window at [t1 + Expiration]. *)
Lemma hits_window_store key t1 ts (h : nat) se s :
  s !! key = Some (mkItem (Z.of_nat h) (t1 + Expiration), se) ->
  0 <= t1 -> t1 + Expiration <= se ->
  Forall (fun t => t1 <= t < t1 + Expiration) ts ->
  exists se', (hits key ts s).2 !! key = Some (mkItem (Z.of_nat (h + length ts)) (t1 + Expiration), se').
Proof.
  revert h se s. induction ts as [|t ts IH]; intros h se s Hs Ht1 Hse Hts.
  - exists se. by rewrite Nat.add_0_r.
  - apply Forall_cons in Hts as [Ht Hts].
    assert (Hc : (hits key (t :: ts) s).2 = (hits key ts (hit key t s).2).2)
      by (cbn [hits]; destruct (hit key t s); by destruct (hits key ts _)).
    rewrite Hc, (hit_window key t1 t h se s) by (done || lia). cbn [snd length].
    replace (h + S (length ts))%nat with (S h + length ts)%nat by lia.
    apply (IH (S h) (t + Expiration)); [apply lookup_insert_eq|done|lia|done].
Qed.

(** A request at or after the end of its key's window passes: the count
    starts again. *)
Lemma hit_after_window key c x se t s :
  s !! key = Some (mkItem c x, se) -> x <> 0 -> x <= t -> (hit key t s).1 = true.
Proof.
  intros Hs Hx Ht. unfold hit, get. rewrite Hs.
  destruct (decide (se <> 0 /\ se <= t)); cbn [exp currHits].
  - rewrite decide_True by done. cbn. apply bool_decide_true. unfold Max. lia.
  - rewrite decide_False by done. rewrite decide_True by lia. cbn. apply bool_decide_true. unfold Max. lia.
Qed.

(** C37: the limiter of [main] is a fixed window of 25 seconds and 100
    requests per client: from a key with no open window at [t1], of
    requests at times in [[t1, t1 + 25)] the first 100 pass and every
    later one is refused (429), and the first request at or after
    [t1 + 25] passes again, however many were refused before it. *)
Theorem limiter_fixed_window key t1 ts t2 s :
  0 <= t1 -> no_window s key t1 ->
  Forall (fun t => t1 <= t < t1 + 25) ts -> t1 + 25 <= t2 ->
  (hits key (t1 :: ts ++ [t2]) s).1 = (replicate (Nat.min (S (length ts)) 100) true ++
                                      replicate (S (length ts) - 100) false ++ [true])%list.
Proof.
  intros Ht1 Hw Hts Ht2. rewrite app_comm_cons, hits_app, app_assoc. f_equal.
  - rewrite hits_cons, hit_open by done. cbn [fst snd].
    rewrite (hits_window key t1 ts 1 (t1 + Expiration)) by first [apply lookup_insert_eq | done | lia].
    by simpl.
  - assert (Hc : (hits key (t1 :: ts) s).2 = (hits key ts (hit key t1 s).2).2)
      by (cbn [hits]; destruct (hit key t1 s); by destruct (hits key ts _)).
    rewrite Hc, hit_open by done. cbn [snd].
    destruct (hits_window_store key t1 ts 1 (t1 + Expiration) _ (lookup_insert_eq s _ _) Ht1
                ltac:(lia) Hts) as [se' Hse'].
    pose proof (hit_after_window key _ (t1 + Expiration) se' t2 _ Hse') as Hp.
    cbn [hits]. destruct (hit key t2 _) as [b s3]. cbn in *. rewrite Hp; [done|unfold Expiration; lia..].
Qed.
End LimiterProps.

(** ** A failed [Find] through [recover] *)

Section Recover.
Context `{RX : RegexEngine}.

(** C31: [GET /api/v1/todos] (with the [complete] parameter the handler
    needs) when the store fails the [Find]: [GetAll] ignores the error
    and drains the [nil] cursor, the goroutine panics, and [recover]
    answers 500 with the runtime's message instead of the handler's
    ["Error the get all todos!"] answer. *)
Theorem list_find_failure_500 req s e lim :
  req_method req = GET -> req_path req = "/api/v1/todos" ->
  Query (req_query req) "complete" "" <> "" ->
  Limiter.hit (req_ip req) (unix_seconds (clock (world s))) (limits s) = (true, lim) ->
  next_fault (world s) = Some e ->
  serve req s = (mkHttp StatusInternalServerError (BodyText nil_deref),
                 mkServer (pop_fault (world s)) lim).
Proof.
  intros Hm Hp Hc Hhit He. unfold serve. rewrite Hhit. unfold app_routes.
  rewrite Hp, Hm.
  replace (path_segments "/api/v1/todos") with (Some ["api"; "v1"; "todos"]) by reflexivity.
  replace (route GET ["api"; "v1"; "todos"]) with (Some RList) by reflexivity.
  cbn [dispatch].
  rewrite bind_unfold. unfold TodoHandler.GetAllTodos. rewrite decide_False by done.
  rewrite bind_unfold. change (svc_GetAllTodos ?a ?b ?c ?d ?w) with (TodoSvc.GetAllTodos a b c d w).
  rewrite svc_GetAllTodos_spec. cbv zeta. by rewrite He.
Qed.
End Recover.

(** ** A body [c.BodyParser] rejects *)

Section BadBody.
Context `{Svc : TodoService}.

(** C30: [PUT /api/v1/todos/{id}] whose body does not decode (no JSON
    content type, a syntax error, or a member of the wrong type): the
    handler answers with status 200 and the error text, where the
    specification says 400, and neither calls the service nor changes the
    store, whatever the service; only the limiter counts the request. *)
Theorem update_bad_body_200 req s lim id e :
  req_method req = PUT -> path_segments (req_path req) = Some ["api"; "v1"; "todos"; id] -> id <> "" ->
  Limiter.hit (req_ip req) (unix_seconds (clock (world s))) (limits s) = (true, lim) ->
  parse_update (req_body req) = Err e ->
  serve req s = (mkHttp StatusOK (BodyAPI (SendErrorResponse StatusOK ("Validation errors: " ++ e))),
                 mkServer (world s) lim).
Proof.
  intros Hm Hp Hid Hhit He. unfold serve. rewrite Hhit. unfold app_routes.
  rewrite Hp, Hm. cbn [route]. rewrite decide_False by done.
  replace (seg_is "api" "api" && seg_is "v1" "v1" && seg_is "todos" "todos") with true by reflexivity.
  cbn [dispatch]. unfold TodoHandler.UpdateTodo. rewrite He. reflexivity.
Qed.
End BadBody.
