(* ===== verification/Middleware.v ===== *)
(** * Middleware: [cors] and [logger] in front of the app

    src/main.go registers, in this order, [cors.New()], [logger.New()],
    [recover.New()], the limiter, then the routes ([Server.serve] models
    the last three).  fiber runs them as a chain: each calls [c.Next()] to
    go on, or answers itself.  Both are used with their default
    configuration, modelled after fiber v2:

    - [cors]: [AllowOrigins "*"], [AllowMethods
      "GET,POST,HEAD,PUT,DELETE,PATCH"].  A preflight ([OPTIONS] with
      [Origin] and [Access-Control-Request-Method]) is answered at once
      with 204 and the allow headers; any other request goes on, and when
      it carries an [Origin] its answer gets [Access-Control-Allow-Origin:
      *].
    - [logger]: after the rest of the chain has answered, one access-log
      line [[time] status - latency method path] on standard output; the
      time and latency are the environment's, the model keeps status,
      method and path.

    Other [OPTIONS] and [HEAD] requests are not modelled (see the header
    of [Prelude]). *)

From S2P Require Import Prelude ObjectId Model Store Repository Service Strconv Response Handler Body Server.
Open Scope Z_scope.

(** ** Requests and answers at the front of the chain *)

Inductive Incoming :=
  | Preflight (ip path origin request_method : string)
  | Regular (origin : option string) (r : Request).

Definition Header : Type := string * string.

Record Answer := mkAnswer { response : HttpResponse; headers : list Header }.

(** One access-log line: [${status}], [${method}], [${path}]. *)
Record LogEntry := mkLogEntry { log_status : Z; log_method : string; log_path : string }.

Definition cors_allow_methods : string := "GET,POST,HEAD,PUT,DELETE,PATCH".

(** The headers [cors] sets: the preflight's, and a simple request's. *)
Definition preflight_headers : list Header :=
  [("Access-Control-Allow-Origin", "*"); ("Access-Control-Allow-Methods", cors_allow_methods)].

Definition simple_headers (origin : option string) : list Header :=
  match origin with Some _ => [("Access-Control-Allow-Origin", "*")] | None => [] end.

Section Chain.
Context `{Svc : TodoService}.

(** [app.Use(logger.New())]: runs the rest of the chain, then logs its
    answer. *)
Definition logger (r : Request) (s : Server) : HttpResponse * list LogEntry * Server :=
  let '(resp, s') := serve r s in
  (resp, [mkLogEntry (http_status resp) (method_name (req_method r)) (req_path r)], s').

(** [app.Use(cors.New())]: the front of the chain. *)
Definition cors (i : Incoming) (s : Server) : Answer * list LogEntry * Server :=
  match i with
  | Preflight _ _ _ _ => (mkAnswer (mkHttp StatusNoContent BodyEmpty) preflight_headers, [], s)
  | Regular origin r =>
      let '(resp, logs, s') := logger r s in (mkAnswer resp (simple_headers origin), logs, s')
  end.

(** Requests through the whole app, in order: the answers, the access
    log and the final state. *)
Fixpoint handle_all (ins : list Incoming) (s : Server) : list Answer * list LogEntry * Server :=
  match ins with
  | [] => ([], [], s)
  | i :: ins' =>
      let '(a, l, s1) := cors i s in
      let '(as', ls, s2) := handle_all ins' s1 in
      (a :: as', (l ++ ls)%list, s2)
  end.
End Chain.

Definition is_regular (i : Incoming) : bool := match i with Regular _ _ => true | _ => false end.

Definition regular_request (i : Incoming) : option Request :=
  match i with Regular _ r => Some r | _ => None end.

(** The regular requests of a sequence, each with its answer. *)
Fixpoint regular_pairs (ins : list Incoming) (ans : list Answer) : list (Request * Answer) :=
  match ins, ans with
  | Regular _ r :: ins', a :: ans' => (r, a) :: regular_pairs ins' ans'
  | Preflight _ _ _ _ :: ins', _ :: ans' => regular_pairs ins' ans'
  | _, _ => []
  end.

(** The headers [cors] gives the answer to a request. *)
Definition cors_headers_of (i : Incoming) : list Header :=
  match i with Preflight _ _ _ _ => preflight_headers | Regular o _ => simple_headers o end.

Definition access_entry (ra : Request * Answer) : LogEntry :=
  mkLogEntry (http_status (response ra.2)) (method_name (req_method ra.1)) (req_path ra.1).

Section ChainProps.
Context `{Svc : TodoService}.

Lemma handle_all_cons i ins s :
  handle_all (i :: ins) s =
    let '(a, l, s1) := cors i s in
    let '(ans, ls, s2) := handle_all ins s1 in (a :: ans, (l ++ ls)%list, s2).
Proof. reflexivity. Qed.

Lemma handle_all_length ins s : length (handle_all ins s).1.1 = length ins.
Proof.
  revert s. induction ins as [|i ins IH]; intros s; [done|]. rewrite handle_all_cons.
  destruct (cors i s) as [[a l] s1]. specialize (IH s1). destruct (handle_all ins s1) as [[ans ls] s2].
  cbn in *. lia.
Qed.

(** The state after a sequence is reached by steps of the app: a
    preflight takes none, a regular request one. *)
Lemma handle_all_rtc ins s : rtc step s (handle_all ins s).2.
Proof.
  revert s. induction ins as [|[ip p o m|o r] ins IH]; intros s; [done| |]; rewrite handle_all_cons; cbn [cors].
  - specialize (IH s). by destruct (handle_all ins s) as [[ans ls] s2].
  - unfold logger. pose proof (step_serve r s) as Hs. destruct (serve r s) as [resp s1].
    specialize (IH s1). destruct (handle_all ins s1) as [[ans ls] s2]. by eapply rtc_l.
Qed.

(** C23: preflights leave no trace: answering the [OPTIONS] preflights of
    any sequence of requests at the front of the chain, before the logger
    and the limiter, changes neither the answers to the other requests,
    nor the access log, nor the final store and limiter state; dropping
    the preflights from the sequence gives the same run. *)
Theorem preflight_transparent ins s :
  handle_all (filter (fun i => is_regular i = true) ins) s =
    (map snd (regular_pairs ins (handle_all ins s).1.1), (handle_all ins s).1.2, (handle_all ins s).2).
Proof.
  revert s. induction ins as [|[ip p o m|o r] ins IH]; intros s; [done| |].
  - rewrite filter_cons_False by done. rewrite IH, handle_all_cons. cbn [cors].
    by destruct (handle_all ins s) as [[ans ls] s2].
  - rewrite filter_cons_True by done. rewrite !handle_all_cons. cbn [cors].
    unfold logger. destruct (serve r s) as [resp s1]. rewrite IH.
    by destruct (handle_all ins s1) as [[ans ls] s2].
Qed.

(** C24: the access log has exactly one entry per regular request, in
    order, with the status of the answer it got (a 429 of the limiter and
    a 500 of [recover] included) and its method and path; every request
    gets one answer, with the CORS headers its kind calls for. *)
Theorem access_log_complete ins s :
  (handle_all ins s).1.2 = map access_entry (regular_pairs ins (handle_all ins s).1.1) /\
  Forall2 (fun i a => headers a = cors_headers_of i) ins (handle_all ins s).1.1.
Proof.
  revert s. induction ins as [|[ip p o m|o r] ins IH]; intros s; [split; constructor| |].
  - rewrite handle_all_cons. cbn [cors]. specialize (IH s).
    destruct (handle_all ins s) as [[ans ls] s2]. cbn in *. destruct IH as [-> HF].
    split; [done|]. by constructor.
  - rewrite handle_all_cons. cbn [cors]. unfold logger. destruct (serve r s) as [resp s1].
    specialize (IH s1). destruct (handle_all ins s1) as [[ans ls] s2]. cbn in *.
    destruct IH as [-> HF]. split; [done|]. by constructor.
Qed.
End ChainProps.
