(* ===== verification/Lifecycle.v ===== *)
(** * Lifecycle: the process of src/main.go and src/config/database.go

    [main] connects to MongoDB ([config.ConnectDB]), defers
    [config.CloseDB], builds the app (middlewares, the repository, service
    and handler wired as [NewTodoRepository], [NewTodoService],
    [NewTodoHandler], the routes), starts a goroutine that shuts the app
    down on SIGINT or SIGTERM, and blocks in [app.Listen(":3000")].

    The process state [Proc] holds the two package variables of config
    ([MongoClient] set or [nil], [MongoDatabase]), the lines written to
    the console, the server of [Server] and the answers it gave.  The
    environment [Env] says how the driver's [Connect], [Ping] and
    [Disconnect] and the socket's [Listen] turn out, and which requests
    arrive before the signal: a run of [main] is then a function of it.
    [log.Fatalf] prints and calls [os.Exit(1)]: the computation stops
    there, and deferred calls do not run; it is the [Panicked] outcome of
    the process monad, which nothing recovers.  A run that never receives
    a signal serves forever; the model covers the runs that end, with the
    signal after the given requests. *)

From S2P Require Import Prelude ObjectId Model Store Repository Service Strconv Response Handler Body Guarantee System Server Middleware.
Open Scope Z_scope.

(** ** The process *)

(** [fmt.Println] writes to standard output, the [log] package to
    standard error. *)
Inductive Line :=
  | Stdout (s : string)
  | Log (s : string)
  | Access (e : LogEntry).            (** the [logger] middleware, on standard output *)

Record Proc := mkProc {
  MongoClient : bool;                 (** [MongoClient != nil] *)
  MongoDatabase : option string;      (** [client.Database(name)] *)
  console : list Line;
  server : Server;
  answered : list Answer
}.

(** How the outside world answers, and the requests served before the
    signal.  [None] is success. *)
Record Env := mkEnv {
  connect_err : option string;
  ping_err : option string;
  listen_err : option string;
  disconnect_err : option string;
  requests : list Incoming
}.

Definition PM (A : Type) : Type := st Proc A.

Definition emit (l : Line) : PM unit :=
  fun p => (Done tt, mkProc (MongoClient p) (MongoDatabase p) (console p ++ [l]) (server p) (answered p)).

(** [log.Fatalf]: the message, then [os.Exit(1)]. *)
Definition Fatalf {A} (msg : string) : PM A :=
  fun p => (Panicked msg, mkProc (MongoClient p) (MongoDatabase p) (console p ++ [Log msg])
                                 (server p) (answered p)).

Definition set_mongo (db : string) : PM unit :=
  fun p => (Done tt, mkProc true (Some db) (console p) (server p) (answered p)).

(** The requests served by the app through its whole chain, in order;
    the access log goes to the console. *)
Definition serve_requests `{TodoService} (ins : list Incoming) : PM unit :=
  fun p => let '(ans, ls, s') := handle_all ins (server p) in
           (Done tt, mkProc (MongoClient p) (MongoDatabase p) (console p ++ map Access ls) s'
                            (answered p ++ ans)).

(** What an exited process reports. *)
Definition exit_code {A} (o : outcome A) : Z := match o with Done _ => 0 | Panicked _ => 1 end.

Section Main.
Context `{RX : RegexEngine} (env : Env).

(** [todoRepo := NewTodoRepository(config.MongoDatabase)];
    [todoService := NewTodoService(todoRepo)]. *)
Definition app_service : TodoService := todoService (H := mongoRepository).

(** [config.ConnectDB()]: a failed [Connect] or [Ping] is fatal, and the
    package variables are set only after both succeed. *)
Definition ConnectDB : PM unit :=
  match connect_err env with
  | Some e => Fatalf ("Error the connect in mongoDb: " ++ e)
  | None =>
      match ping_err env with
      | Some e => Fatalf ("Error the to ping in mongoDB: " ++ e)
      | None => _ ← set_mongo "todolist_fiber"; emit (Stdout "MongoDB connected!")
      end
  end.

(** [config.CloseDB()]: disconnects a set client. *)
Definition CloseDB : PM unit :=
  fun p =>
    if MongoClient p then
      match disconnect_err env with
      | Some e => Fatalf ("Error the to close the MongoDB: " ++ e) p
      | None => emit (Stdout "Conection with MongoDB closed") p
      end
    else (Done tt, p).

(** [app.Listen(":3000")]: fails at once when the port cannot be bound;
    otherwise serves until the signal goroutine prints its line and calls
    [app.Shutdown()], and returns [nil]. *)
Definition Listen : PM (option string) :=
  match listen_err env with
  | Some e => mret (Some e)
  | None =>
      _ ← serve_requests (H := app_service) (requests env);
      _ ← emit (Log "Shutting down server...");
      mret None
  end.

(** The body of [main] after the deferred [CloseDB] is registered. *)
Definition main_body : PM unit :=
  _ ← emit (Log ("Server is starting on port " ++ "3000"));
  r ← Listen;
  match r with
  | Some e => Fatalf ("Server failed to start: " ++ e)
  | None => emit (Log "Server gracefully stopped.")
  end.

(** [main]: [ConnectDB], then the body, then the deferred [CloseDB],
    which runs only when the body returns. *)
Definition main : PM unit :=
  _ ← ConnectDB;
  _ ← main_body;
  CloseDB.
End Main.

(** A process before [main]: no client, nothing printed, a fresh app on
    the store's current world. *)
Definition boot (w : World) : Proc := mkProc false None [] (mkServer w ∅) [].

(** ** Runs of [main] *)

Section Runs.
Context `{RX : RegexEngine}.

(** The lines a run that reaches [Listen] prints first. *)
Definition boot_lines : list Line :=
  [Stdout "MongoDB connected!"; Log ("Server is starting on port " ++ "3000")].

(** The app state and answers after the requests of [env]. *)
Definition served (env : Env) (w : World) : list Answer * list LogEntry * Server :=
  handle_all (Svc := app_service) (requests env) (mkServer w ∅).

Ltac run_main :=
  cbv [main main_body ConnectDB CloseDB Listen serve_requests emit Fatalf set_mongo boot
       mbind st_bind mret st_ret]; cbn [MongoClient MongoDatabase console server answered].

(** A run of [main] in closed form: where it stops, what it printed and
    what it served. *)
Lemma main_spec env w :
  main env (boot w) =
    match connect_err env, ping_err env with
    | Some e, _ => (Panicked ("Error the connect in mongoDb: " ++ e),
                    mkProc false None [Log ("Error the connect in mongoDb: " ++ e)] (mkServer w ∅) [])
    | None, Some e => (Panicked ("Error the to ping in mongoDB: " ++ e),
                    mkProc false None [Log ("Error the to ping in mongoDB: " ++ e)] (mkServer w ∅) [])
    | None, None =>
        match listen_err env with
        | Some e => (Panicked ("Server failed to start: " ++ e),
                     mkProc true (Some "todolist_fiber")
                       (boot_lines ++ [Log ("Server failed to start: " ++ e)])%list (mkServer w ∅) [])
        | None =>
            let lines := (boot_lines ++ map Access (served env w).1.2 ++
                          [Log "Shutting down server..."; Log "Server gracefully stopped."])%list in
            match disconnect_err env with
            | Some e => (Panicked ("Error the to close the MongoDB: " ++ e),
                         mkProc true (Some "todolist_fiber")
                           (lines ++ [Log ("Error the to close the MongoDB: " ++ e)])%list
                           (served env w).2 (served env w).1.1)
            | None => (Done tt, mkProc true (Some "todolist_fiber")
                                  (lines ++ [Stdout "Conection with MongoDB closed"])%list
                                  (served env w).2 (served env w).1.1)
            end
        end
    end.
Proof.
  unfold served. run_main.
  destruct (connect_err env); [done|]. destruct (ping_err env); [done|].
  destruct (listen_err env); [done|].
  destruct (handle_all _ _) as [[ans ls] s']. cbn [fst snd].
  destruct (disconnect_err env); cbn; by rewrite <- ?app_assoc.
Qed.
(** C33: [main] exits with status 0 exactly when [Connect], [Ping],
    [Listen] and [Disconnect] all succeed; any failure is a
    [log.Fatalf], status 1. *)
Theorem main_exit_code env w :
  exit_code (main env (boot w)).1 = 0 <->
  connect_err env = None /\ ping_err env = None /\ listen_err env = None /\ disconnect_err env = None.
Proof.
  rewrite main_spec.
  destruct (connect_err env), (ping_err env), (listen_err env), (disconnect_err env);
    cbn; naive_solver.
Qed.

(** C25: graceful shutdown: when the store and the port are available,
    the process answers every request that arrives before the signal (one
    answer each), then stops the app, disconnects from MongoDB and exits
    normally, its last lines ["Server gracefully stopped."] and
    ["Conection with MongoDB closed"]; the collection it leaves is well
    formed when it started so. *)
Theorem main_graceful_shutdown env w :
  wf w -> connect_err env = None -> ping_err env = None -> listen_err env = None ->
  disconnect_err env = None ->
  exists p, main env (boot w) = (Done tt, p) /\
    length (answered p) = length (requests env) /\ MongoClient p = true /\
    (exists pre, console p = pre ++ [Log "Server gracefully stopped."; Stdout "Conection with MongoDB closed"])%list /\
    wf (world (server p)).
Proof.
  intros Hw Hc Hp Hl Hd. rewrite main_spec, Hc, Hp, Hl, Hd. eexists. split; [reflexivity|].
  cbn [answered MongoClient console server]. split_and!.
  - apply handle_all_length.
  - reflexivity.
  - eexists (boot_lines ++ map Access (served env w).1.2 ++ [Log "Shutting down server..."])%list.
    by rewrite <- !app_assoc.
  - apply (rtc_step_wf (mkServer w ∅)); [apply handle_all_rtc|done].
Qed.

(** C34: when [Listen] fails (the port is taken), [log.Fatalf] exits with
    status 1 before the deferred [CloseDB] runs: the client stays
    connected ([MongoClient] set, no ["Conection with MongoDB closed"]
    line) and no request is served. *)
Theorem listen_failure_skips_CloseDB env w e :
  connect_err env = None -> ping_err env = None -> listen_err env = Some e ->
  exists p, main env (boot w) = (Panicked ("Server failed to start: " ++ e), p) /\
    MongoClient p = true /\ answered p = [] /\
    Stdout "Conection with MongoDB closed" ∉ console p.
Proof.
  intros Hc Hp Hl. rewrite main_spec, Hc, Hp, Hl. eexists. split; [reflexivity|].
  cbn [answered MongoClient console]. split_and!; [done|done|].
  unfold boot_lines. rewrite !elem_of_app, !elem_of_cons, elem_of_nil.
  intros [[H|[H|[]]]|[H|[]]]; discriminate.
Qed.
End Runs.
