(* ===== verification/Simulation.v ===== *)
(** * Simulation: the server as a machine over the map of tasks

    The abstract machine [abs_step] has four moves on the map of tasks:
    nothing changes, a task is created under a fresh id, a stored task is
    rewritten under its id with its [createdAt] kept, or a stored task is
    deleted.  Every request a handler serves changes the map by at most
    one such move, because each service method calls at most one writing
    method of the repository; reads and failures leave the map alone.
    This is proved against [RepoContract] only: [Keep] (map unchanged) is
    a preorder, so reads compose by [Guarantee]'s closure; [Step] (one
    move) is not transitive, so it composes with [Keep] on either side
    and never with itself.  For the app of src/main.go, whose service runs
    over [mongoRepository] (and so over [TodoRepo.set_update] and
    [TodoRepo.CreateTodo] through the contract instance of [Abstract]),
    every step of [step] is one move. *)

From S2P Require Import Prelude ObjectId Model Store Repository Service Strconv Response Handler Body Guarantee System Abstract Server.
Open Scope Z_scope.

(** ** The abstract machine *)

Inductive abs_step : TaskMap -> TaskMap -> Prop :=
  | AStay S : abs_step S S
  | ACreate S k d : S !! k = None -> ID d = k -> abs_step S (<[k := d]> S)
  | AUpdate S k d d' : S !! k = Some d -> ID d' = k -> CreatedAt d' = CreatedAt d ->
      abs_step S (<[k := d']> S)
  | ADelete S k : is_Some (S !! k) -> abs_step S (delete k S).

(** ** Relations on worlds *)

Definition Keep : relation World :=
  fun w w' => wf w -> wf w' /\ abs (todos w') = abs (todos w).

Definition Step : relation World :=
  fun w w' => wf w -> wf w' /\ abs_step (abs (todos w)) (abs (todos w')).

#[export] Instance Keep_preorder : PreOrder Keep.
Proof.
  split; [intros w Hw; by split|].
  intros w1 w2 w3 H12 H23 Hw. destruct (H12 Hw) as [Hw2 E2]. destruct (H23 Hw2) as [Hw3 E3].
  split; [done|congruence].
Qed.

Lemma keep_step {A} (m : M A) : guarantees Keep m -> guarantees Step m.
Proof.
  intros Hm w Hw. destruct (Hm w Hw) as [Hw' ->]. split; [done|constructor].
Qed.

Lemma step_bind_keep_l {A B} (m : M A) (k : A -> M B) :
  guarantees Keep m -> (forall a, guarantees Step (k a)) -> guarantees Step (x ← m; k x).
Proof.
  intros Hm Hk w Hw. pose proof (Hm w Hw) as Hm'. cbv [mbind st_bind].
  destruct (m w) as [[a|p] w1]; cbn [snd] in *; destruct Hm' as [Hw1 E]; [|rewrite E; by split; [|constructor]].
  destruct (Hk a w1 Hw1) as [Hw2 Hs]. rewrite <- E. by split.
Qed.

Lemma step_bind_keep_r {A B} (m : M A) (k : A -> M B) :
  guarantees Step m -> (forall a, guarantees Keep (k a)) -> guarantees Step (x ← m; k x).
Proof.
  intros Hm Hk w Hw. pose proof (Hm w Hw) as Hm'. cbv [mbind st_bind].
  destruct (m w) as [[a|p] w1]; cbn [snd] in *; destruct Hm' as [Hw1 Hs]; [|by split].
  destruct (Hk a w1 Hw1) as [Hw2 E]. rewrite E. by split.
Qed.

(** ** From the contract *)

Lemma refines_keep {A} (m : M (result A)) spec :
  refines m spec -> (forall S r S', spec S r S' -> S' = S) -> guarantees Keep m.
Proof.
  intros Hr Hs w Hw. destruct (Hr w Hw) as (Hw' & _ & Ho). split; [done|].
  destruct (m w) as [[r|p] w']; cbn in Ho |- *; [destruct Ho as [H|(_ & _ & H)]; [by eapply Hs|done]|].
  by destruct Ho.
Qed.

Lemma refines_step {A} (m : M (result A)) spec :
  refines m spec -> (forall S r S', spec S r S' -> abs_step S S') -> guarantees Step m.
Proof.
  intros Hr Hs w Hw. destruct (Hr w Hw) as (Hw' & _ & Ho). split; [done|].
  destruct (m w) as [[r|p] w']; cbn in Ho |- *; [destruct Ho as [H|(_ & _ & ->)]; [by eapply Hs|constructor]|].
  destruct Ho as [_ ->]. constructor.
Qed.

Section Specs.
Context `{RX : RegexEngine}.

Lemma create_spec_step todo S r S' : create_spec todo S r S' -> abs_step S S'.
Proof.
  intros [(d & _ & Hn & -> & _)|(id & _ & _ & ->)]; [|constructor].
  by apply ACreate.
Qed.

Lemma update_spec_step id todo S r S' : update_spec id todo S r S' -> abs_step S S'.
Proof.
  unfold update_spec. destruct (S !! id) as [d|] eqn:Hl; [|intros [_ ->]; constructor].
  intros (d' & _ & -> & Hid & _ & _ & _ & Hc & _). by eapply AUpdate.
Qed.

Lemma delete_spec_step id S r S' : delete_spec id S r S' -> abs_step S S'.
Proof.
  intros [-> _]. destruct (S !! id) eqn:Hl.
  - apply ADelete. by rewrite Hl.
  - rewrite delete_id by done. constructor.
Qed.
End Specs.

Create HintDb sim.

(** Split a handler or service method into its calls: reads keep the
    map, at most one call moves it. *)
Ltac sim :=
  repeat first
    [ progress cbv zeta
    | solve [apply keep_step; guarantee]
    | solve [eauto with sim]
    | match goal with |- guarantees Step (match ?x with _ => _ end) => destruct x; cbv beta iota end
    | refine (step_bind_keep_r _ _ _ _); [solve [eauto with sim]|intros ?; guarantee]
    | refine (step_bind_keep_l _ _ _ _); [solve [guarantee]|intros ?] ].

(** ** Every request is one move, for any repository meeting the contract *)

Section Client.
Context `{RX : RegexEngine} `{Repo : TodoRepository} {RC : RepoContract}.

Lemma keep_repo_GetAll flt limit skip : guarantees Keep (repo_GetAll flt limit skip).
Proof. apply (refines_keep _ _ (contract_GetAll flt limit skip)). by intros S r S' [-> _]. Qed.

Lemma keep_repo_GetTodoByID id : guarantees Keep (repo_GetTodoByID id).
Proof. apply (refines_keep _ _ (contract_GetTodoByID id)). by intros S r S' [_ ->]. Qed.

Lemma keep_repo_CountTodos flt : guarantees Keep (repo_CountTodos flt).
Proof. apply (refines_keep _ _ (contract_CountTodos flt)). by intros S r S' [_ ->]. Qed.

#[local] Hint Resolve keep_repo_GetAll keep_repo_GetTodoByID keep_repo_CountTodos : guarantee.

Lemma step_repo_CreateTodo todo : guarantees Step (repo_CreateTodo todo).
Proof. apply (refines_step _ _ (contract_CreateTodo todo)), create_spec_step. Qed.

Lemma step_repo_UpdateTodo id todo : guarantees Step (repo_UpdateTodo id todo).
Proof. apply (refines_step _ _ (contract_UpdateTodo id todo)), update_spec_step. Qed.

Lemma step_repo_DeleteTodo id : guarantees Step (repo_DeleteTodo id).
Proof. apply (refines_step _ _ (contract_DeleteTodo id)), delete_spec_step. Qed.

#[local] Hint Resolve step_repo_CreateTodo step_repo_UpdateTodo step_repo_DeleteTodo : sim.

Lemma keep_svc_GetAllTodos title complete page pagSize :
  guarantees Keep (TodoSvc.GetAllTodos title complete page pagSize).
Proof. unfold TodoSvc.GetAllTodos. cbv zeta. guarantee. Qed.

Lemma keep_svc_GetTodoByID id : guarantees Keep (TodoSvc.GetTodoByID id).
Proof. unfold TodoSvc.GetTodoByID. guarantee. Qed.

#[local] Hint Resolve keep_svc_GetAllTodos keep_svc_GetTodoByID : guarantee.

Lemma step_svc_CreateTodo todo : guarantees Step (TodoSvc.CreateTodo todo).
Proof. unfold TodoSvc.CreateTodo. sim. Qed.

Lemma step_svc_UpdateTodo id todo : guarantees Step (TodoSvc.UpdateTodo id todo).
Proof. unfold TodoSvc.UpdateTodo. sim. Qed.

Lemma step_svc_DeleteTodo id : guarantees Step (TodoSvc.DeleteTodo id).
Proof. unfold TodoSvc.DeleteTodo. sim. Qed.

Lemma step_svc_ToggleTodoComplete id : guarantees Step (TodoSvc.ToggleTodoComplete id).
Proof. unfold TodoSvc.ToggleTodoComplete, TodoSvc.toggle_read, TodoSvc.toggle_write. sim. Qed.

#[local] Hint Resolve step_svc_CreateTodo step_svc_UpdateTodo step_svc_DeleteTodo
  step_svc_ToggleTodoComplete : sim.

(** Each handler, and so the app, moves the map at most once. *)
Ltac sim_handler :=
  cbv [svc_CreateTodo svc_GetAllTodos svc_GetTodoByID svc_UpdateTodo svc_DeleteTodo
       svc_ToggleTodoComplete todoService]; sim.

Lemma step_handler_CreateTodo body : guarantees Step (TodoHandler.CreateTodo body).
Proof. unfold TodoHandler.CreateTodo. sim_handler. Qed.

Lemma step_handler_GetAllTodos q : guarantees Step (TodoHandler.GetAllTodos q).
Proof. unfold TodoHandler.GetAllTodos. sim_handler. Qed.

Lemma step_handler_GetTodoByID id : guarantees Step (TodoHandler.GetTodoByID id).
Proof. unfold TodoHandler.GetTodoByID. sim_handler. Qed.

Lemma step_handler_UpdateTodo id body : guarantees Step (TodoHandler.UpdateTodo id body).
Proof. unfold TodoHandler.UpdateTodo. sim_handler. Qed.

Lemma step_handler_DeleteTodo id : guarantees Step (TodoHandler.DeleteTodo id).
Proof. unfold TodoHandler.DeleteTodo. sim_handler. Qed.

Lemma step_handler_ToggleTodoComplete id : guarantees Step (TodoHandler.ToggleTodoComplete id).
Proof. unfold TodoHandler.ToggleTodoComplete. sim_handler. Qed.

#[local] Hint Resolve step_handler_CreateTodo step_handler_GetAllTodos step_handler_GetTodoByID
  step_handler_UpdateTodo step_handler_DeleteTodo step_handler_ToggleTodoComplete : sim.

Lemma step_dispatch rt req : guarantees Step (dispatch rt req).
Proof. destruct rt; cbn [dispatch]; sim. Qed.

Lemma step_app_routes req : guarantees Step (app_routes req).
Proof.
  unfold app_routes. destruct (path_segments _) as [segs|]; [destruct (route _ segs)|];
    [apply step_dispatch|apply keep_step; guarantee..].
Qed.

Lemma serve_step req s :
  wf (world s) -> wf (world (serve req s).2) /\
  abs_step (abs (todos (world s))) (abs (todos (world (serve req s).2))).
Proof.
  intros Hw. unfold serve. destruct (Limiter.hit _ _ _) as [[] lim]; [|split; [done|constructor]].
  pose proof (step_app_routes req (world s) Hw) as H.
  destruct (app_routes req (world s)) as [[r|msg] w']; exact H.
Qed.

Lemma step_abs_wf s s' :
  step s s' -> wf (world s) -> wf (world s') /\ abs_step (abs (todos (world s))) (abs (todos (world s'))).
Proof.
  intros [req s0|s0 ts fs]; [apply serve_step|]. intros (Hu & Hd & Hg). split; [by split_and!|constructor].
Qed.
End Client.

(** ** The app of src/main.go, one request at a time *)

Section App.
Context `{RX : RegexEngine}.

(** C3: lockstep simulation of the app [main] builds, its service over
    [mongoRepository]: every step of the server from a well-formed
    collection (a request, through the limiter, the router, a handler and
    [recover], or the environment's choice of clock and faults) leaves a
    well-formed collection whose map of tasks is one move of the abstract
    machine from the map before: unchanged, one task added under an id
    not in use, one stored task rewritten under its id with its
    [createdAt] kept, or one stored task removed. *)
Theorem app_step_abs s s' :
  step (Svc := todoService (H := mongoRepository)) s s' -> wf (world s) ->
  wf (world s') /\ abs_step (abs (todos (world s))) (abs (todos (world s'))).
Proof. apply step_abs_wf. Qed.
End App.
