(* ===== verification/Scenario.v ===== *)
(** * Scenario: the server run on concrete request sequences

    The end-to-end runs of the specification's testable properties,
    computed by [serve_all] from a fresh process with the regular
    expression engine of [Regex]: a create/toggle/get/delete/get sequence,
    the pagination example (25 tasks, page 3 of size 10), and two runs that
    show where the code departs from the specification (an untitled task is
    stored; the list needs a [complete] parameter).  The limiter's fixed
    window is run across a window boundary.  The process starts at
    2023-11-14T22:13:20Z with an arbitrary [processUnique]; the environment
    is quiet (no clock advance, no store failure), so every result is a
    closed computation checked by [vm_compute]. *)

From S2P Require Import Prelude ObjectId Model Store Regex Repository Service Strconv Response Handler Body Guarantee System Server.
Open Scope Z_scope.

(** ** The runs *)

Definition start_ns : Z := 1700000000 * 10 ^ 9.
Definition start_gen : OidGenerator := mkOidGenerator 78187493520 0.
Definition s0 : Server := init_server start_gen start_ns.

Definition client : string := "10.0.0.1".

Definition create_req (body : list (string * JValue)) : Request :=
  mkRequest client POST "/api/v1/todos" [] (JSONObject body).

(** The id the first [POST] is given, as a path segment. *)
Definition first_hex : string := Hex (NewObjectID start_ns start_gen).1.
Definition todo_path : string := "/api/v1/todos/" ++ first_hex.

Definition e2e_reqs : list Request := [
  create_req [("title", JString "Buy milk")];
  mkRequest client PATCH (todo_path ++ "/toggle") [] NoJSON;
  mkRequest client GET todo_path [] NoJSON;
  mkRequest client DELETE todo_path [] NoJSON;
  mkRequest client GET todo_path [] NoJSON].

(** 25 tasks, then page 3 of the list with and without [complete]. *)
Definition page_reqs : list Request :=
  (replicate 25 (create_req [("title", JString "task")]) ++
   [mkRequest client GET "/api/v1/todos" [("complete", "true"); ("page", "3")] NoJSON;
    mkRequest client GET "/api/v1/todos" [("page", "3")] NoJSON])%list.

(** A task, then an update whose body does not parse. *)
Definition bad_update_reqs : list Request := [
  create_req [("title", JString "Buy milk")];
  mkRequest client PUT todo_path [] (BadJSON "unexpected end of JSON input")].

(** What a test reads from an answer: status, [data.complete], and for a
    list the number of items and the pagination block. *)
Definition data_complete (r : HttpResponse) : option bool :=
  match http_body r with
  | BodyAPI a => match Data a with Some (PTodo (Some t)) => Some (Complete t) | _ => None end
  | _ => None
  end.

Definition data_title (r : HttpResponse) : option string :=
  match http_body r with
  | BodyAPI a => match Data a with Some (PTodo (Some t)) => Some (Title t) | _ => None end
  | _ => None
  end.

Definition list_page (r : HttpResponse) : option (nat * option Pagination) :=
  match http_body r with
  | BodyAPI a => match Data a with Some (PTodos ts) => Some (length ts, Meta a) | _ => None end
  | _ => None
  end.

(** ** The specification's scenarios *)

(** the end-to-end scenario of the specification: [POST {"title":
    "Buy milk"}] is 201 with [complete = false]; [PATCH .../toggle] is 200
    with [complete = true]; [GET] is 200 with [complete = true]; [DELETE]
    is 204; [GET] is then 404. *)
Example e2e_scenario :
  let rs := (serve_all e2e_reqs s0).1 in
  map http_status rs = [201; 200; 200; 204; 404] /\
  map data_complete rs = [Some false; Some true; Some true; None; None].
Proof. vm_compute. split; reflexivity. Qed.

(** the pagination example: with 25 tasks stored, page 3 of size 10
    has 5 items and the metadata [{total 25, page 3, pageSize 10,
    totalPages 3}] — but only when the request carries a [complete]
    parameter; the same request without it is answered 400. *)
Example pagination_scenario :
  map (fun r => (http_status r, list_page r)) (drop 25 (serve_all page_reqs s0).1) =
    [(200, Some (5%nat, Some (mkPagination 25 3 10 3))); (400, None)].
Proof. vm_compute. reflexivity. Qed.

(** a task with no title is stored: [POST {}] is answered 201 and the
    stored task's title is empty, although the model declares [title]
    required; the create path validates no field. *)
Example create_untitled_scenario :
  let '(rs, s) := serve_all [create_req []] s0 in
  map http_status rs = [201] /\ map data_title rs = [Some ""] /\
  map Title (todos (world s)) = [""].
Proof. vm_compute. split_and!; reflexivity. Qed.

(** The fixed window lets 199 requests of one client through within
    two seconds: one request at second 0 opens a window ending at 25; 99
    more at second 24 fill it; 100 at second 25 open a new one. *)
Example limiter_burst :
  length (filter (fun b => b = true)
            (hits client (0 :: replicate 99 24 ++ replicate 100 25) ∅).1) = 200%nat.
Proof. vm_compute. reflexivity. Qed.

(** an update whose body does not parse is answered with status 200
    (the handler passes [fiber.StatusOK] to [SendErrorResponse]) and an
    error message, and the task is unchanged. *)
Example update_parse_error_scenario :
  let '(rs, s) := serve_all bad_update_reqs s0 in
  map http_status rs = [201; 200] /\
  map (fun r => match http_body r with BodyAPI a => Some (Message a) | _ => None end) rs =
    [Some "Todo created with success!"; Some "Validation errors: unexpected end of JSON input"] /\
  map Title (todos (world s)) = ["Buy milk"].
Proof. vm_compute. split_and!; reflexivity. Qed.
