(* ===== verification/Concurrency.v ===== *)
(** * Concurrency: interleaved toggles and the lost update

    fiber serves each request on its own goroutine, and
    [ToggleTodoComplete] (src/services/todo_service.go:137-160) reads the
    document ([GetTodoByID]) and later writes the flipped copy
    ([UpdateTodo]) with no transaction or version check.  A toggle is
    modelled as a thread of two atomic steps, the read and the write, each
    one store round trip, as [TodoSvc.toggle_read] and
    [TodoSvc.toggle_write] compose it; a schedule says which of two
    threads moves next.  Run back to back, the two steps are the service
    method; two toggles interleaved read-read-write-write both report
    success and flip the flag once.  [UpdateTodo] (lines 98-121) is split
    the same way into its lookup and its write; a [DELETE] between them
    makes the update report success with no task. *)

From S2P Require Import Prelude ObjectId Model Store Repository Service.
Open Scope Z_scope.

(** ** Toggle threads *)

Inductive ToggleThread :=
  | TStart (oid : ObjectID)                   (** before the read *)
  | TRead (oid : ObjectID) (t : Todo)         (** read [t], before the write *)
  | TFinished (r : result (option Todo)).

Section Threads.
Context `{Repo : TodoRepository}.

(** One atomic step of a toggle thread. *)
Definition toggle_step (th : ToggleThread) : M ToggleThread :=
  match th with
  | TStart oid =>
      r ← TodoSvc.toggle_read oid;
      mret (match r with Ok t => TRead oid t | Err e => TFinished (Err e) end)
  | TRead oid t => u ← TodoSvc.toggle_write oid t; mret (TFinished u)
  | TFinished r => mret (TFinished r)
  end.

(** What a thread has answered; a thread that has not finished has not
    answered. *)
Definition thread_result (th : ToggleThread) : result (option Todo) :=
  match th with TFinished r => r | _ => Err "unfinished" end.

(** Two threads under a schedule: [true] moves the first, [false] the
    second. *)
Fixpoint run_schedule (sched : list bool) (th1 th2 : ToggleThread)
    : M (ToggleThread * ToggleThread) :=
  match sched with
  | [] => mret (th1, th2)
  | true :: sched' => th1' ← toggle_step th1; run_schedule sched' th1' th2
  | false :: sched' => th2' ← toggle_step th2; run_schedule sched' th1 th2'
  end.
(** An update thread: [UpdateTodo] after its id and validation checks,
    as its lookup and its write. *)
Inductive UpdateThread :=
  | UStart (oid : ObjectID) (todo : Todo)
  | ULooked (oid : ObjectID) (checkTodo todo : Todo)
  | UFinished (r : result (option Todo)).

Definition update_step (th : UpdateThread) : M UpdateThread :=
  match th with
  | UStart oid todo =>
      r ← repo_GetTodoByID oid;
      mret (match r with
            | Err _ => UFinished (Err "Error the check if todo exists!")
            | Ok None => UFinished (Err "Todo not found")
            | Ok (Some checkTodo) => ULooked oid checkTodo todo
            end)
  | ULooked oid checkTodo todo =>
      u ← repo_UpdateTodo oid (TodoSvc.merge_update checkTodo todo);
      mret (UFinished (match u with
                       | Err _ => Err "Error the update if todo exists!"
                       | Ok o => Ok o
                       end))
  | UFinished r => mret (UFinished r)
  end.

(** The steps a toggle thread has left. *)
Definition pending (th : ToggleThread) : nat :=
  match th with TStart _ => 2 | TRead _ _ => 1 | TFinished _ => 0 end.

Definition update_result (th : UpdateThread) : result (option Todo) :=
  match th with UFinished r => r | _ => Err "unfinished" end.
End Threads.

(** ** The steps over [mongoRepository] *)

Section Mongo.
Context `{RX : RegexEngine}.

Lemma toggle_read_quiet oid t w :
  faults w = [] -> find_one oid (todos w) = Some t ->
  TodoSvc.toggle_read oid w = (Done (Ok t), w).
Proof.
  intros Hq Ht. unfold TodoSvc.toggle_read. rewrite bind_unfold.
  change (repo_GetTodoByID oid w) with (TodoRepo.GetTodoByID oid w).
  rewrite GetTodoByID_spec. quiet Hq. by rewrite Ht.
Qed.

(** The write stores the read copy, flipped, over the current document
    whatever it has become; only [createdAt] and [_id] of the current
    document survive. *)
Lemma toggle_write_quiet oid t d w :
  faults w = [] -> find_one oid (todos w) = Some d ->
  exists w',
    TodoSvc.toggle_write oid t w =
      (Done (Ok (Some (updated_doc (TodoSvc.flip_complete t) (clock (tick w)) d))), w') /\
    find_one oid (todos w') = Some (updated_doc (TodoSvc.flip_complete t) (clock (tick w)) d) /\
    faults w' = [] /\ clock w' = clock (tick w).
Proof.
  intros Hq Hd. unfold TodoSvc.toggle_write. rewrite bind_result_id.
  change (repo_UpdateTodo oid ?x w) with (TodoRepo.UpdateTodo oid x w).
  rewrite UpdateTodo_spec. cbv zeta. quiet Hq.
  rewrite (find_one_and_update_found _ _ _ _ Hd).
  eexists. split; [reflexivity|]. cbn [todos with_todos faults clock].
  split_and!; [by apply find_one_and_update_find|done|done].
Qed.

(** The two steps run back to back are the service's
    [ToggleTodoComplete]. *)
Lemma toggle_steps_service id oid w :
  ObjectIDFromHex id = Ok oid ->
  (th ← toggle_step (TStart oid); th' ← toggle_step th; mret (thread_result th')) w =
  TodoSvc.ToggleTodoComplete id w.
Proof.
  intros Hid. unfold TodoSvc.ToggleTodoComplete. rewrite Hid.
  cbv [mbind st_bind mret st_ret toggle_step thread_result].
  destruct (TodoSvc.toggle_read oid w) as [[[t|e]|p] w1]; [|done|done].
  by destruct (TodoSvc.toggle_write oid t w1) as [[u|p] w2].
Qed.
(** The lookup and the write of an update, run back to back, are the
    service's [UpdateTodo] on a well-formed id and a valid body. *)
Lemma update_steps_service id oid todo w :
  ObjectIDFromHex id = Ok oid -> StructPartial todo ["Title"; "Description"; "Complete"] = Ok tt ->
  (th ← update_step (UStart oid todo); th' ← update_step th; mret (update_result th')) w =
  TodoSvc.UpdateTodo id todo w.
Proof.
  intros Hid Hv. unfold TodoSvc.UpdateTodo. rewrite Hid, Hv.
  cbv [mbind st_bind mret st_ret update_step update_result].
  destruct (repo_GetTodoByID oid w) as [[[[c|]|e]|p] w1]; [|done|done|done].
  by destruct (repo_UpdateTodo oid _ w1) as [[[o|e]|p] w2].
Qed.

Lemma step_start_quiet oid t w :
  faults w = [] -> find_one oid (todos w) = Some t ->
  toggle_step (TStart oid) w = (Done (TRead oid t), w).
Proof. intros Hq Ht. cbn [toggle_step]. rewrite bind_unfold. by rewrite (toggle_read_quiet oid t). Qed.

Lemma step_read_quiet oid t d w :
  faults w = [] -> find_one oid (todos w) = Some d ->
  exists w',
    toggle_step (TRead oid t) w =
      (Done (TFinished (Ok (Some (updated_doc (TodoSvc.flip_complete t) (clock (tick w)) d)))), w') /\
    find_one oid (todos w') = Some (updated_doc (TodoSvc.flip_complete t) (clock (tick w)) d) /\
    faults w' = [].
Proof.
  intros Hq Hd. destruct (toggle_write_quiet oid t d w Hq Hd) as (w' & Hrun & Hf & Hq' & _).
  exists w'. cbn [toggle_step]. rewrite bind_unfold, Hrun. done.
Qed.

(** C18: two toggles of one document whose steps interleave read, read,
    write, write, as two concurrent requests may, both answer with the
    document and report success, yet the flag is flipped once: the
    second write stores a copy read before the first write (a lost
    update).  Run one after the other, the flag would come back
    ([ToggleTodoComplete_twice]). *)
Theorem toggle_lost_update oid t w :
  faults w = [] -> find_one oid (todos w) = Some t ->
  exists t1 t2 w',
    run_schedule [true; false; true; false] (TStart oid) (TStart oid) w =
      (Done (TFinished (Ok (Some t1)), TFinished (Ok (Some t2))), w') /\
    find_one oid (todos w') = Some t2 /\
    Complete t1 = negb (Complete t) /\ Complete t2 = negb (Complete t).
Proof.
  intros Hq Ht. cbn [run_schedule].
  rewrite bind_unfold, (step_start_quiet oid t w Hq Ht). cbv beta iota.
  rewrite bind_unfold, (step_start_quiet oid t w Hq Ht). cbv beta iota.
  destruct (step_read_quiet oid t t w Hq Ht) as (w1 & H1 & F1 & Q1).
  rewrite bind_unfold, H1. cbv beta iota.
  destruct (step_read_quiet oid t _ w1 Q1 F1) as (w2 & H2 & F2 & _).
  rewrite bind_unfold, H2. cbv beta iota.
  eexists _, _, w2. split_and!; [reflexivity|exact F2|reflexivity|reflexivity].
Qed.
(** C19: an update whose task is deleted between its lookup and its
    write reports success with no task: the lookup finds the task, a
    concurrent [DELETE] removes it, and [FindOneAndUpdate] matches
    nothing, which the repository turns into [(nil, nil)] and the service
    into [Ok None]; the handler then answers 200 ["Task updated"] with
    [data: null] instead of 404. *)
Theorem update_after_concurrent_delete oid todo t w :
  faults w = [] -> ids_unique (todos w) -> find_one oid (todos w) = Some t ->
  exists w1 w2 w3,
    update_step (UStart oid todo) w = (Done (ULooked oid t todo), w1) /\
    TodoRepo.DeleteTodo oid w1 = (Done (Ok tt), w2) /\
    update_step (ULooked oid t todo) w2 = (Done (UFinished (Ok None)), w3) /\
    find_one oid (todos w3) = None.
Proof.
  intros Hq Hu Ht. destruct (find_one_Some _ _ _ Ht) as [Hin Hid].
  assert (Hin' : oid ∈ map ID (todos w)) by (subst; by apply list_elem_of_fmap_2).
  exists w. eexists _, _. cbn [update_step]. rewrite bind_unfold.
  change (repo_GetTodoByID oid w) with (TodoRepo.GetTodoByID oid w).
  rewrite GetTodoByID_spec. quiet Hq. rewrite Ht. split; [reflexivity|].
  rewrite DeleteTodo_spec. quiet Hq. rewrite decide_False by (rewrite delete_one_present by done; lia).
  split; [reflexivity|]. rewrite bind_unfold.
  change (repo_UpdateTodo oid ?x ?w') with (TodoRepo.UpdateTodo oid x w').
  rewrite UpdateTodo_spec. cbv zeta. quiet Hq.
  rewrite find_one_and_update_absent.
  - split; [reflexivity|]. cbn [todos with_todos]. by apply delete_one_gone.
  - apply find_one_None. cbn [todos with_todos tick pop_fault]. by apply delete_one_gone.
Qed.
(** Over [mongoRepository] a toggle step never panics and always makes
    progress: a failed read finishes the thread at once. *)
Lemma toggle_step_progress th w :
  exists th' w', toggle_step th w = (Done th', w') /\ (pending th' <= pending th - 1)%nat.
Proof.
  destruct th as [oid|oid t|r]; cbn [toggle_step].
  - rewrite bind_unfold. unfold TodoSvc.toggle_read. rewrite bind_unfold.
    change (repo_GetTodoByID oid w) with (TodoRepo.GetTodoByID oid w). rewrite GetTodoByID_spec.
    destruct (next_fault w); [|destruct (find_one oid (todos w))]; eexists _, _; split; try reflexivity; cbn; lia.
  - rewrite bind_unfold. unfold TodoSvc.toggle_write. rewrite bind_unfold.
    change (repo_UpdateTodo oid ?x w) with (TodoRepo.UpdateTodo oid x w). rewrite UpdateTodo_spec. cbv zeta.
    destruct (next_fault (tick w)); eexists _, _; split; try reflexivity; cbn; lia.
  - eexists _, _. split; [reflexivity|]. cbn. lia.
Qed.

Lemma run_schedule_progress sched th1 th2 w :
  exists th1' th2' w', run_schedule sched th1 th2 w = (Done (th1', th2'), w') /\
    (pending th1' <= pending th1 - count_occ bool_dec sched true)%nat /\
    (pending th2' <= pending th2 - count_occ bool_dec sched false)%nat.
Proof.
  revert th1 th2 w. induction sched as [|[] sched IH]; intros th1 th2 w; cbn [run_schedule count_occ].
  - eexists _, _, _. split; [reflexivity|]. lia.
  - rewrite bind_unfold. destruct (toggle_step_progress th1 w) as (th1' & w1 & -> & Hp).
    destruct (IH th1' th2 w1) as (a & b & w2 & -> & Ha & Hb). eexists _, _, _. split; [reflexivity|].
    cbn. lia.
  - rewrite bind_unfold. destruct (toggle_step_progress th2 w) as (th2' & w1 & -> & Hp).
    destruct (IH th1 th2' w1) as (a & b & w2 & -> & Ha & Hb). eexists _, _, _. split; [reflexivity|].
    cbn. lia.
Qed.

Lemma pending_zero th : pending th = 0%nat -> exists r, th = TFinished r.
Proof. destruct th; cbn; [lia|lia|by eexists]. Qed.

(** C20: termination of concurrent toggles: under any schedule that moves
    each of two toggle threads at least twice, both threads finish with an
    answer, whatever the store and its failures do; no step panics or
    waits. *)
Theorem toggle_threads_terminate oid1 oid2 sched w :
  (2 <= count_occ bool_dec sched true)%nat -> (2 <= count_occ bool_dec sched false)%nat ->
  exists r1 r2 w',
    run_schedule sched (TStart oid1) (TStart oid2) w = (Done (TFinished r1, TFinished r2), w').
Proof.
  intros H1 H2. destruct (run_schedule_progress sched (TStart oid1) (TStart oid2) w)
    as (th1 & th2 & w' & Hrun & P1 & P2).
  cbn [pending] in P1, P2.
  destruct (pending_zero th1) as [r1 ->]; [lia|]. destruct (pending_zero th2) as [r2 ->]; [lia|].
  by exists r1, r2, w'.
Qed.
End Mongo.
