(* ===== verification/Witness.v ===== *)
(** * Witness: the theorems applied at concrete inputs

    Each theorem with hypotheses is applied here to a concrete world,
    request or number where its hypotheses hold, checked by evaluation:
    the hypotheses are not contradictory and the conclusion says something
    about a real run.  The world [ex_world] holds one task, ["Buy milk"],
    under the id [65a1b2c3d4e5f60718293a4b]; the store is quiet. *)

From S2P Require Import Prelude ObjectId Model Store Regex Repository Service Strconv Response Handler Body Guarantee System Abstract Server Middleware Lifecycle Simulation Scenario Concurrency.
Open Scope Z_scope.

(** ** Concrete inputs *)

Definition ex_hex : string := "65a1b2c3d4e5f60718293a4b".
Definition ex_oid : ObjectID := 31453467242603790624579205707.
Definition ex_doc : Todo := mkTodo ex_oid "Buy milk" "" false 1700000000000000000 1700000000000000000.
Definition ex_world : World := mkWorld [ex_doc] start_ns [] [] start_gen.
Definition ex_empty : World := mkWorld [] start_ns [] [] start_gen.
Definition ex_upd : UpdateTodoRequest.t := UpdateTodoRequest.mk "Call mom" "" None.
Definition ex_create : CreateTodoRequest.t := CreateTodoRequest.mk "Buy milk" "".
Definition ex_bad_id : string := "not-an-id".

Definition ex_list_req : Request := mkRequest client GET "/api/v1/todos" [("complete", "true")] NoJSON.
Definition ex_failing : Server :=
  mkServer (mkWorld [ex_doc] start_ns [] [Some "connection refused"] start_gen) ∅.
Definition ex_lim : Limiter.store := (Limiter.hit client (unix_seconds start_ns) ∅).2.

Definition ex_failing_world : World := mkWorld [ex_doc] start_ns [] [Some "connection refused"] start_gen.

Definition ex_server : Server := mkServer ex_world ∅.
Definition ex_toggle_req : Request :=
  mkRequest client PATCH ("/api/v1/todos/" ++ ex_hex ++ "/toggle") [] NoJSON.
Definition ex_toggled : Todo :=
  mkTodo ex_oid "Buy milk" "" true 1700000000000000000 1700000000000000000.

Definition ex_env_ok : Env :=
  mkEnv None None None None
    [Preflight client "/api/v1/todos" "https://app.example" "POST";
     Regular (Some "https://app.example") (create_req [("title", JString "Buy milk")])].
Definition ex_env_port : Env :=
  mkEnv None None (Some "listen tcp :3000: bind: address already in use") None [].

Lemma ex_hex_ok : ObjectIDFromHex ex_hex = Ok ex_oid.
Proof. vm_compute. reflexivity. Qed.

Lemma ex_find : find_one ex_oid (todos ex_world) = Some ex_doc.
Proof. vm_compute. reflexivity. Qed.

Lemma ex_gen_valid : gen_valid start_gen.
Proof. unfold gen_valid. simpl. lia. Qed.

Lemma ex_fresh : next_oid ex_world ∉ map ID (todos ex_world).
Proof. apply (bool_decide_unpack _). vm_compute. reflexivity. Qed.

Lemma ex_wf : wf ex_world.
Proof.
  split_and!; [apply NoDup_singleton| |exact ex_gen_valid].
  repeat constructor; unfold oid_valid, bson_time; vm_compute; congruence.
Qed.

Lemma ex_empty_wf : wf ex_empty.
Proof. split_and!; [apply NoDup_nil_2|constructor|exact ex_gen_valid]. Qed.

Lemma ex_abs : abs (todos ex_world) !! ex_oid = Some ex_doc.
Proof. vm_compute. reflexivity. Qed.

Lemma ex_bad_id_err : ObjectIDFromHex ex_bad_id = Err ErrInvalidHex.
Proof. vm_compute. reflexivity. Qed.

(** ** Witnesses *)

Lemma reachable_wf_witness :
  gen_valid start_gen /\ wf (world (serve (create_req [("title", JString "Buy milk")]) s0).2).
Proof.
  split; [exact ex_gen_valid|].
  apply (reachable_wf start_gen start_ns); [exact ex_gen_valid|].
  apply rtc_once, step_serve.
Defined.

Lemma UpdateTodo_quiet_witness :
  ObjectIDFromHex ex_hex = Ok ex_oid /\ faults ex_world = [] /\
  find_one ex_oid (todos ex_world) = Some ex_doc /\ UpdateTodoRequest.Title ex_upd <> "" /\
  exists t' w', TodoHandler.UpdateTodo ex_hex (Ok ex_upd) ex_world =
      (Done (SendSuccessResponse StatusOK "Task updated" (Some (PTodo (Some t'))) []), w') /\
    Title t' = "Call mom" /\ Complete t' = false.
Proof.
  assert (H4 : UpdateTodoRequest.Title ex_upd <> "") by discriminate.
  split_and!; [exact ex_hex_ok|reflexivity|exact ex_find|exact H4|].
  destruct (UpdateTodo_quiet ex_hex ex_oid ex_upd ex_doc ex_world ex_hex_ok eq_refl ex_find H4)
    as (t' & w' & Hrun & _ & _ & Ht & _ & Hc & _).
  exists t', w'. split_and!; [exact Hrun|exact Ht|exact Hc].
Defined.

Lemma ToggleTodoComplete_quiet_witness :
  ObjectIDFromHex ex_hex = Ok ex_oid /\ faults ex_world = [] /\
  find_one ex_oid (todos ex_world) = Some ex_doc /\
  exists t' w', TodoHandler.ToggleTodoComplete ex_hex ex_world =
      (Done (SendSuccessResponse StatusOK "Status task completed changed"
               (Some (PTodo (Some t'))) []), w') /\ Complete t' = true.
Proof.
  split_and!; [exact ex_hex_ok|reflexivity|exact ex_find|].
  destruct (ToggleTodoComplete_quiet ex_hex ex_oid ex_doc ex_world ex_hex_ok eq_refl ex_find)
    as (t' & w' & Hrun & _ & Ht & _).
  exists t', w'. split; [exact Hrun|]. rewrite Ht. reflexivity.
Defined.

Lemma CreateTodo_quiet_witness :
  faults ex_world = [] /\ next_oid ex_world ∉ map ID (todos ex_world) /\
  exists t w', TodoHandler.CreateTodo (Ok ex_create) ex_world =
      (Done (SendSuccessResponse StatusCreated "Todo created with success!"
               (Some (PTodo (Some t))) []), w') /\
    Title t = "Buy milk" /\ Complete t = false /\ length (todos w') = 2%nat.
Proof.
  split_and!; [reflexivity|exact ex_fresh|].
  destruct (CreateTodo_quiet ex_create ex_world eq_refl ex_fresh)
    as (t & w' & Hrun & _ & Ht & _ & Hc & _ & _ & Htodos & _).
  exists t, w'. split_and!; [exact Hrun|exact Ht|exact Hc|]. rewrite Htodos. reflexivity.
Defined.

Lemma GetAllTodos_page_witness :
  faults ex_world = [] /\ 1 <= 1 /\ 1 <= 10 /\ in_int64 ((1 - 1) * 10) /\
  exists items, TodoSvc.GetAllTodos "" None 1 10 ex_world = (Done (Ok (items, 1)), ex_world) /\
    Z.of_nat (length items) = 1.
Proof.
  assert (Hr : in_int64 ((1 - 1) * 10)) by (unfold in_int64, int64_min, int64_max; lia).
  split_and!; [reflexivity|lia|lia|exact Hr|].
  destruct (GetAllTodos_page "" None 1 10 ex_world eq_refl ltac:(lia) ltac:(lia) Hr)
    as (items & Hrun & _ & Hlen & _).
  replace (count_documents _ (todos ex_world)) with 1 in Hrun, Hlen by (vm_compute; reflexivity).
  exists items. split; [exact Hrun|]. rewrite Hlen. reflexivity.
Defined.

Lemma DeleteTodo_present_witness :
  ObjectIDFromHex ex_hex = Ok ex_oid /\ faults ex_world = [] /\ ids_unique (todos ex_world) /\
  ex_oid ∈ map ID (todos ex_world) /\
  exists w', TodoHandler.DeleteTodo ex_hex ex_world =
      (Done (SendSuccessResponse StatusNoContent "Task deleted!" None []), w') /\
    find_one ex_oid (todos w') = None.
Proof.
  assert (Hu : ids_unique (todos ex_world)) by apply NoDup_singleton.
  assert (Hin : ex_oid ∈ map ID (todos ex_world)) by (apply (bool_decide_unpack _); vm_compute; reflexivity).
  split_and!; [exact ex_hex_ok|reflexivity|exact Hu|exact Hin|].
  destruct (DeleteTodo_present ex_hex ex_oid ex_world ex_hex_ok eq_refl Hu Hin) as (w' & Hrun & Hgone & _).
  exists w'. split; [exact Hrun|exact Hgone].
Defined.

Lemma ToggleTodoComplete_twice_witness :
  ObjectIDFromHex ex_hex = Ok ex_oid /\ faults ex_world = [] /\
  find_one ex_oid (todos ex_world) = Some ex_doc /\
  exists t1 t2 w1 w2,
    TodoHandler.ToggleTodoComplete ex_hex ex_world =
      (Done (SendSuccessResponse StatusOK "Status task completed changed" (Some (PTodo (Some t1))) []), w1) /\
    TodoHandler.ToggleTodoComplete ex_hex w1 =
      (Done (SendSuccessResponse StatusOK "Status task completed changed" (Some (PTodo (Some t2))) []), w2) /\
    Complete t1 = true /\ find_one ex_oid (todos w2) = Some t2 /\ Complete t2 = false.
Proof.
  split_and!; [exact ex_hex_ok|reflexivity|exact ex_find|].
  destruct (ToggleTodoComplete_twice ex_hex ex_oid ex_doc ex_world ex_hex_ok eq_refl ex_find)
    as (t1 & t2 & w1 & w2 & H1 & H2 & Hc1 & Hf & Ht2 & _).
  exists t1, t2, w1, w2. split_and!; [exact H1|exact H2|exact Hc1|exact Hf|]. rewrite Ht2. reflexivity.
Defined.

Lemma CreateTodo_then_GetTodoByID_witness :
  faults ex_world = [] /\ gen_valid (oidgen ex_world) /\ next_oid ex_world ∉ map ID (todos ex_world) /\
  exists t w',
    TodoHandler.CreateTodo (Ok ex_create) ex_world =
      (Done (SendSuccessResponse StatusCreated "Todo created with success!"
               (Some (PTodo (Some t))) []), w') /\
    TodoHandler.GetTodoByID (Hex (ID t)) w' =
      (Done (SendSuccessResponse StatusOK "Task founded" (Some (PTodo (Some (to_bson t)))) []), w').
Proof.
  split_and!; [reflexivity|exact ex_gen_valid|exact ex_fresh|].
  exact (CreateTodo_then_GetTodoByID ex_create ex_world eq_refl ex_gen_valid ex_fresh).
Defined.

Lemma toggle_lost_update_witness :
  faults ex_world = [] /\ find_one ex_oid (todos ex_world) = Some ex_doc /\
  exists t1 t2 w',
    run_schedule [true; false; true; false] (TStart ex_oid) (TStart ex_oid) ex_world =
      (Done (TFinished (Ok (Some t1)), TFinished (Ok (Some t2))), w') /\
    find_one ex_oid (todos w') = Some t2 /\ Complete t2 = true.
Proof.
  split_and!; [reflexivity|exact ex_find|].
  destruct (toggle_lost_update ex_oid ex_doc ex_world eq_refl ex_find)
    as (t1 & t2 & w' & Hrun & Hf & _ & Hc2).
  exists t1, t2, w'. split_and!; [exact Hrun|exact Hf|]. rewrite Hc2. reflexivity.
Defined.

Lemma GetAllTodos_complete_param_witness :
  Query [("page", "2")] "complete" "" = "" /\
  TodoHandler.GetAllTodos [("page", "2")] ex_world =
    (Done (SendErrorResponse StatusBadRequest complete_param_error), ex_world) /\
  "true" <> "" /\ "false" <> "" /\
  TodoHandler.GetAllTodos [("complete", "true"); ("page", "2")] ex_world =
  TodoHandler.GetAllTodos [("complete", "false"); ("page", "2")] ex_world.
Proof.
  assert (Hq : Query [("page", "2")] "complete" "" = "") by reflexivity.
  assert (H1 : "true" <> "") by discriminate. assert (H2 : "false" <> "") by discriminate.
  destruct (GetAllTodos_complete_param "true" "false" [("page", "2")] ex_world) as [Ha Hb].
  split_and!; [exact Hq|exact (Ha Hq)|exact H1|exact H2|exact (Hb H1 H2)].
Defined.

Lemma DeleteTodo_errors_500_witness :
  ObjectIDFromHex ex_hex = Ok ex_oid /\ faults ex_empty = [] /\ ex_oid ∉ map ID (todos ex_empty) /\
  TodoHandler.DeleteTodo ex_hex ex_empty =
    (Done (SendErrorResponse StatusInternalServerError
             "Falha ao deletar tarefa: No tasks found with id to delete"), ex_empty) /\
  ObjectIDFromHex ex_bad_id = Err ErrInvalidHex /\
  TodoHandler.DeleteTodo ex_bad_id ex_empty =
    (Done (SendErrorResponse StatusInternalServerError
             ("Falha ao deletar tarefa: " ++ ("Id is invalid! Error: " ++ ErrInvalidHex))), ex_empty).
Proof.
  assert (Hn : ex_oid ∉ map ID (todos ex_empty)) by (apply (bool_decide_unpack _); vm_compute; reflexivity).
  destruct (DeleteTodo_errors_500 ex_hex ex_bad_id ex_oid ErrInvalidHex ex_empty) as [Ha Hb].
  split_and!; [exact ex_hex_ok|reflexivity|exact Hn|exact (Ha ex_hex_ok eq_refl Hn)
              |exact ex_bad_id_err|exact (Hb ex_bad_id_err)].
Defined.

Lemma GetTodoByID_invalid_id_witness :
  ObjectIDFromHex ex_bad_id = Err ErrInvalidHex /\
  TodoHandler.GetTodoByID ex_bad_id ex_world =
    (Done (SendErrorResponse StatusNotFound "Id is Invalid"), ex_world).
Proof.
  split; [exact ex_bad_id_err|]. exact (GetTodoByID_invalid_id ex_bad_id ErrInvalidHex ex_world ex_bad_id_err).
Defined.

Lemma UpdateTodo_requires_title_witness :
  ObjectIDFromHex ex_hex = Ok ex_oid /\
  UpdateTodoRequest.Title (UpdateTodoRequest.mk "" "new desc" None) = "" /\
  TodoHandler.UpdateTodo ex_hex (Ok (UpdateTodoRequest.mk "" "new desc" None)) ex_world =
    (Done (SendErrorResponse StatusBadRequest
             ("Fail the to update todo: Validation error: " ++ title_required_error)), ex_world).
Proof.
  split_and!; [exact ex_hex_ok|reflexivity|].
  exact (UpdateTodo_requires_title (Repo := mongoRepository) ex_hex ex_oid
           (UpdateTodoRequest.mk "" "new desc" None) ex_world ex_hex_ok eq_refl).
Defined.

Lemma list_find_failure_500_witness :
  Limiter.hit (req_ip ex_list_req) (unix_seconds (clock (world ex_failing))) (limits ex_failing) =
    (true, ex_lim) /\
  serve ex_list_req ex_failing =
    (mkHttp StatusInternalServerError (BodyText nil_deref), mkServer (pop_fault (world ex_failing)) ex_lim).
Proof.
  assert (Hhit : Limiter.hit (req_ip ex_list_req) (unix_seconds (clock (world ex_failing)))
                   (limits ex_failing) = (true, ex_lim)) by (vm_compute; reflexivity).
  split; [exact Hhit|].
  exact (list_find_failure_500 ex_list_req ex_failing "connection refused" ex_lim
           eq_refl eq_refl ltac:(discriminate) Hhit eq_refl).
Defined.

Lemma limiter_fixed_window_witness :
  no_window ∅ client 0 /\ Forall (fun t => 0 <= t < 0 + 25) (replicate 100 10) /\ 0 + 25 <= 25 /\
  (hits client (0 :: replicate 100 10 ++ [25]) ∅).1 = (replicate 100 true ++ [false; true])%list.
Proof.
  assert (Hw : no_window ∅ client 0) by (left; split; reflexivity).
  assert (Hf : Forall (fun t => 0 <= t < 0 + 25) (replicate 100 10))
    by (apply Forall_replicate; lia).
  split_and!; [exact Hw|exact Hf|lia|].
  exact (limiter_fixed_window client 0 (replicate 100 10) 25 ∅ ltac:(lia) Hw Hf ltac:(lia)).
Defined.

Lemma GetAllTodos_offset_wrap_witness :
  in_int64 (2 ^ 32 + 1 - 1) /\ in_int64 (1 - 1) /\
  ((2 ^ 32 + 1 - 1) * 2 ^ 32 - (1 - 1) * 2 ^ 32) mod 2 ^ 64 = 0 /\
  TodoSvc.GetAllTodos "" None (2 ^ 32 + 1) (2 ^ 32) ex_world =
  TodoSvc.GetAllTodos "" None 1 (2 ^ 32) ex_world.
Proof.
  assert (H1 : in_int64 (2 ^ 32 + 1 - 1)) by (unfold in_int64, int64_min, int64_max; lia).
  assert (H2 : in_int64 (1 - 1)) by (unfold in_int64, int64_min, int64_max; lia).
  assert (H3 : ((2 ^ 32 + 1 - 1) * 2 ^ 32 - (1 - 1) * 2 ^ 32) mod 2 ^ 64 = 0) by reflexivity.
  split_and!; [exact H1|exact H2|exact H3|].
  exact (GetAllTodos_offset_wrap (Repo := mongoRepository) "" None _ _ _ ex_world H1 H2 H3).
Defined.

Lemma UpdateTodo_lookup_failure_404_witness :
  ObjectIDFromHex ex_hex = Ok ex_oid /\ UpdateTodoRequest.Title ex_upd <> "" /\
  next_fault ex_failing_world = Some "connection refused" /\
  TodoHandler.UpdateTodo ex_hex (Ok ex_upd) ex_failing_world =
    (Done (SendErrorResponse StatusNotFound "Error the check if todo exists!"), pop_fault ex_failing_world).
Proof.
  assert (Ht : UpdateTodoRequest.Title ex_upd <> "") by discriminate.
  split_and!; [exact ex_hex_ok|exact Ht|reflexivity|].
  exact (UpdateTodo_lookup_failure_404 ex_hex ex_oid ex_upd "connection refused" ex_failing_world
           ex_hex_ok Ht eq_refl).
Defined.

Lemma update_after_concurrent_delete_witness :
  faults ex_world = [] /\ ids_unique (todos ex_world) /\ find_one ex_oid (todos ex_world) = Some ex_doc /\
  exists w1 w2 w3,
    update_step (UStart ex_oid (TodoHandler.todo_to_update ex_upd)) ex_world =
      (Done (ULooked ex_oid ex_doc (TodoHandler.todo_to_update ex_upd)), w1) /\
    TodoRepo.DeleteTodo ex_oid w1 = (Done (Ok tt), w2) /\
    update_step (ULooked ex_oid ex_doc (TodoHandler.todo_to_update ex_upd)) w2 =
      (Done (UFinished (Ok None)), w3) /\
    find_one ex_oid (todos w3) = None.
Proof.
  assert (Hu : ids_unique (todos ex_world)) by apply NoDup_singleton.
  split_and!; [reflexivity|exact Hu|exact ex_find|].
  exact (update_after_concurrent_delete ex_oid (TodoHandler.todo_to_update ex_upd) ex_doc ex_world
           eq_refl Hu ex_find).
Defined.

Lemma ToggleTodoComplete_contract_witness :
  ObjectIDFromHex ex_hex = Ok ex_oid /\ wf ex_world /\ faults ex_world = [] /\
  abs (todos ex_world) !! ex_oid = Some ex_doc /\
  exists t' w', TodoSvc.ToggleTodoComplete ex_hex ex_world = (Done (Ok (Some t')), w') /\
    Complete t' = true /\ Title t' = "Buy milk".
Proof.
  split_and!; [exact ex_hex_ok|exact ex_wf|reflexivity|exact ex_abs|].
  destruct (ToggleTodoComplete_contract ex_hex ex_oid ex_doc ex_world ex_hex_ok ex_wf eq_refl ex_abs)
    as (t' & w' & Hrun & _ & _ & Hc & Ht & _).
  exists t', w'. split_and!; [exact Hrun|rewrite Hc; reflexivity|exact Ht].
Defined.

Lemma DeleteTodo_contract_witness :
  ObjectIDFromHex ex_hex = Ok ex_oid /\ wf ex_world /\ faults ex_world = [] /\
  exists w', TodoSvc.DeleteTodo ex_hex ex_world = (Done (Ok tt), w') /\ abs (todos w') = ∅.
Proof.
  split_and!; [exact ex_hex_ok|exact ex_wf|reflexivity|].
  destruct (DeleteTodo_contract ex_hex ex_oid ex_world ex_hex_ok ex_wf eq_refl) as (w' & Hrun & Hs & _).
  exists w'. rewrite ex_abs in Hrun. split; [exact Hrun|]. rewrite Hs. vm_compute. reflexivity.
Defined.

Lemma UpdateTodo_contract_witness :
  ObjectIDFromHex ex_hex = Ok ex_oid /\ Title (TodoHandler.todo_to_update ex_upd) <> "" /\
  wf ex_world /\ faults ex_world = [] /\ abs (todos ex_world) !! ex_oid = Some ex_doc /\
  exists t' w', TodoSvc.UpdateTodo ex_hex (TodoHandler.todo_to_update ex_upd) ex_world =
      (Done (Ok (Some t')), w') /\ Title t' = "Call mom".
Proof.
  assert (Ht : Title (TodoHandler.todo_to_update ex_upd) <> "") by (vm_compute; congruence).
  split_and!; [exact ex_hex_ok|exact Ht|exact ex_wf|reflexivity|exact ex_abs|].
  destruct (UpdateTodo_contract ex_hex ex_oid (TodoHandler.todo_to_update ex_upd) ex_doc ex_world
              ex_hex_ok Ht ex_wf eq_refl ex_abs) as (t' & w' & Hrun & _ & _ & Htt & _).
  exists t', w'. split; [exact Hrun|exact Htt].
Defined.

Lemma GetAllTodos_contract_witness :
  wf ex_world /\ faults ex_world = [] /\
  exists l w', TodoSvc.GetAllTodos "milk" None 1 10 ex_world = (Done (Ok (l, 1)), w') /\
    length l = 1%nat.
Proof.
  split_and!; [exact ex_wf|reflexivity|].
  destruct (GetAllTodos_contract "milk" None 1 10 ex_world ex_wf eq_refl)
    as (l & w' & Hrun & _ & _ & _ & _ & Hlen).
  assert (Hc : abs_count (TodoSvc.list_filter "milk" None) (abs (todos ex_world)) = 1)
    by (vm_compute; reflexivity).
  rewrite Hc in Hrun, Hlen. exists l, w'. split; [exact Hrun|].
  assert (Hp : page_len 10 (mul64 (sub64 1 1) 10) 1 = 1) by (vm_compute; reflexivity). lia.
Defined.

Lemma app_step_abs_witness :
  step ex_server (serve ex_toggle_req ex_server).2 /\ wf (world ex_server) /\
  abs_step (abs (todos (world ex_server))) (abs (todos (world (serve ex_toggle_req ex_server).2))) /\
  abs (todos (world (serve ex_toggle_req ex_server).2)) !! ex_oid = Some ex_toggled.
Proof.
  assert (H1 : step ex_server (serve ex_toggle_req ex_server).2) by apply step_serve.
  assert (H3 : abs (todos (world (serve ex_toggle_req ex_server).2)) !! ex_oid = Some ex_toggled)
    by (vm_compute; reflexivity).
  split_and!; [exact H1|exact ex_wf| |exact H3].
  exact (proj2 (app_step_abs _ _ H1 ex_wf)).
Defined.

Lemma main_graceful_shutdown_witness :
  wf ex_empty /\ connect_err ex_env_ok = None /\ ping_err ex_env_ok = None /\
  listen_err ex_env_ok = None /\ disconnect_err ex_env_ok = None /\
  exists p, main ex_env_ok (boot ex_empty) = (Done tt, p) /\ length (answered p) = 2%nat.
Proof.
  split_and!; [exact ex_empty_wf|reflexivity..|].
  destruct (main_graceful_shutdown ex_env_ok ex_empty ex_empty_wf eq_refl eq_refl eq_refl eq_refl)
    as (p & Hrun & Hlen & _).
  exists p. split; [exact Hrun|exact Hlen].
Defined.

Lemma listen_failure_skips_CloseDB_witness :
  connect_err ex_env_port = None /\ ping_err ex_env_port = None /\
  listen_err ex_env_port = Some "listen tcp :3000: bind: address already in use" /\
  exists p, main ex_env_port (boot ex_empty) =
      (Panicked ("Server failed to start: " ++ "listen tcp :3000: bind: address already in use"), p) /\
    MongoClient p = true.
Proof.
  split_and!; [reflexivity..|].
  destruct (listen_failure_skips_CloseDB ex_env_port ex_empty _ eq_refl eq_refl eq_refl)
    as (p & Hrun & Hc & _).
  exists p. split; [exact Hrun|exact Hc].
Defined.

Lemma toggle_threads_terminate_witness :
  (2 <= count_occ bool_dec [true; false; true; false] true)%nat /\
  (2 <= count_occ bool_dec [true; false; true; false] false)%nat /\
  exists r1 r2 w', run_schedule [true; false; true; false] (TStart ex_oid) (TStart ex_oid) ex_failing_world =
    (Done (TFinished r1, TFinished r2), w').
Proof.
  assert (H1 : (2 <= count_occ bool_dec [true; false; true; false] true)%nat) by (cbn; lia).
  assert (H2 : (2 <= count_occ bool_dec [true; false; true; false] false)%nat) by (cbn; lia).
  split_and!; [exact H1|exact H2|].
  exact (toggle_threads_terminate ex_oid ex_oid _ ex_failing_world H1 H2).
Defined.

Lemma total_pages_bounds_witness :
  0 <= 25 /\ 1 <= 10 /\ 25 + 10 <= int64_max /\ TodoHandler.total_pages 25 10 = 3 /\
  2 <= 2 <= int64_max /\ TodoHandler.total_pages 2 int64_max <= 0.
Proof.
  assert (Hm : 25 + 10 <= int64_max) by (unfold int64_max; lia).
  assert (H2 : 2 <= 2 <= int64_max) by (unfold int64_max; lia).
  destruct (total_pages_bounds 25 10 2) as [Ha Hb].
  refine (conj _ (conj _ (conj Hm (conj (Ha ltac:(lia) ltac:(lia) Hm) (conj H2 (Hb H2)))))); lia.
Defined.


Lemma CreateTodo_then_DeleteTodo_witness :
  faults ex_world = [] /\ gen_valid (oidgen ex_world) /\ next_oid ex_world ∉ map ID (todos ex_world) /\
  exists t w1 w2,
    TodoHandler.CreateTodo (Ok ex_create) ex_world =
      (Done (SendSuccessResponse StatusCreated "Todo created with success!" (Some (PTodo (Some t))) []), w1) /\
    TodoHandler.DeleteTodo (Hex (ID t)) w1 =
      (Done (SendSuccessResponse StatusNoContent "Task deleted!" None []), w2) /\
    todos w2 = [ex_doc].
Proof.
  split_and!; [reflexivity|exact ex_gen_valid|exact ex_fresh|].
  destruct (CreateTodo_then_DeleteTodo ex_create ex_world eq_refl ex_gen_valid ex_fresh)
    as (t & w1 & w2 & H1 & H2 & H3 & _).
  exists t, w1, w2. split_and!; [exact H1|exact H2|exact H3].
Defined.

Definition ex_bad_update : Request :=
  mkRequest client PUT ("/api/v1/todos/" ++ ex_hex) [] (BadJSON "unexpected end of JSON input").

Lemma update_bad_body_200_witness :
  req_method ex_bad_update = PUT /\
  path_segments (req_path ex_bad_update) = Some ["api"; "v1"; "todos"; ex_hex] /\ ex_hex <> "" /\
  Limiter.hit (req_ip ex_bad_update) (unix_seconds (clock (world ex_server))) (limits ex_server) = (true, ex_lim) /\
  parse_update (req_body ex_bad_update) = Err "unexpected end of JSON input" /\
  serve ex_bad_update ex_server =
    (mkHttp StatusOK (BodyAPI (SendErrorResponse StatusOK
       ("Validation errors: " ++ "unexpected end of JSON input"))), mkServer ex_world ex_lim).
Proof.
  assert (Hp : path_segments (req_path ex_bad_update) = Some ["api"; "v1"; "todos"; ex_hex])
    by (vm_compute; reflexivity).
  assert (Hh : Limiter.hit (req_ip ex_bad_update) (unix_seconds (clock (world ex_server))) (limits ex_server)
               = (true, ex_lim)) by (vm_compute; reflexivity).
  split_and!; [reflexivity|exact Hp|discriminate|exact Hh|reflexivity|].
  exact (update_bad_body_200 ex_bad_update ex_server ex_lim ex_hex _ eq_refl Hp ltac:(discriminate) Hh eq_refl).
Defined.
